(** * Chat session engine: billing, message submission and session end

    A shallow embedding of the chat core of the backend:
    - [api/utils/billing.py]  (duration, amount, wallet deduction, settlement),
    - [api/management/commands/process_chat_billing.py]  (periodic accrual),
    - [api/consumers.py]  ([ChatConsumer.save_message], [receive], [connect]
      and [disconnect]),
    - [api/views.py]  ([SessionEndView.post], [SessionStartView.post], the
      wallet endpoints, [ChatCreateView], [ChatAcceptView] and
      [ChatMessageListView]).

    Conventions of the embedding.
    - A [datetime] is an integer number of microseconds (the resolution of
      Python's [datetime]); a nullable column is an [option].
    - Primary keys are [positive]: the database hands out ids from 1, so
      the truthiness test on an id ([chat.counsellor_id and ...]) is the
      test for [Some].
    - Money: [billed_amount] is a Decimal, every amount this code writes is
      a whole number of rupees ([Decimal(minutes) * Decimal('1.00')]), so
      amounts are integers and [int(amount)] is the identity.
    - The database is an explicit store threaded through every operation;
      a Python model instance is a [Chat.t] value held next to it, and
      [save(update_fields=...)] copies the listed fields into the row.
    - Every call of [timezone.now()] inside one operation reads the same
      instant [now].
    - Text: the message of a frame is a Python [str], a list of code
      points, on which [strip] and [len] work; a text that is stored or
      sent is held as its UTF-8 bytes, a [string]; the encoding is
      one-to-one ([utf8_inj]), so that two texts are equal exactly when
      their strings are. *)

From stdpp Require Import gmap strings list fin_maps sorting.
From Stdlib Require Import ZArith Lia Ascii.

Local Open Scope Z_scope.

(** ** Time *)

Definition datetime := Z.

Definition timedelta_seconds (n : Z) : Z := n * 1000000.
Definition timedelta_minutes (n : Z) : Z := n * 60000000.
Definition timedelta_hours (n : Z) : Z := n * 3600000000.

(** [int(ceil(duration_seconds / 60))] on a duration held in microseconds.
    Python divides floats; the quotient is modelled exactly. *)
Definition ceil_minutes (duration_us : Z) : Z :=
  - ((- duration_us) / 60000000).

(** ** Data model *)

Inductive Status := queued | active | inactive | completed | cancelled.

Global Instance Status_eq_dec : EqDecision Status.
Proof. solve_decision. Defined.

(** [chat.status == '...'] *)
Definition Status_eqb (a b : Status) : bool :=
  match a, b with
  | queued, queued | active, active | inactive, inactive
  | completed, completed | cancelled, cancelled => true
  | _, _ => false
  end.

Definition user_id := positive.

Module Chat.
Record t := mk {
  id : positive;
  user : option user_id;
  counsellor : option user_id;
  status : Status;
  created_at : option datetime;
  started_at : option datetime;
  ended_at : option datetime;
  last_user_activity : option datetime;
  updated_at : datetime;
  billed_amount : Z;
  duration_minutes : Z;
  is_billed : bool;
  billing_processed_at : option datetime
}.

Definition set_counsellor (v : option user_id) (c : t) : t :=
  mk (id c) (user c) v (status c) (created_at c) (started_at c) (ended_at c)
     (last_user_activity c) (updated_at c) (billed_amount c)
     (duration_minutes c) (is_billed c) (billing_processed_at c).
Definition set_status (v : Status) (c : t) : t :=
  mk (id c) (user c) (counsellor c) v (created_at c) (started_at c) (ended_at c)
     (last_user_activity c) (updated_at c) (billed_amount c)
     (duration_minutes c) (is_billed c) (billing_processed_at c).
Definition set_started_at (v : option datetime) (c : t) : t :=
  mk (id c) (user c) (counsellor c) (status c) (created_at c) v (ended_at c)
     (last_user_activity c) (updated_at c) (billed_amount c)
     (duration_minutes c) (is_billed c) (billing_processed_at c).
Definition set_ended_at (v : option datetime) (c : t) : t :=
  mk (id c) (user c) (counsellor c) (status c) (created_at c) (started_at c) v
     (last_user_activity c) (updated_at c) (billed_amount c)
     (duration_minutes c) (is_billed c) (billing_processed_at c).
Definition set_last_user_activity (v : option datetime) (c : t) : t :=
  mk (id c) (user c) (counsellor c) (status c) (created_at c) (started_at c)
     (ended_at c) v (updated_at c) (billed_amount c)
     (duration_minutes c) (is_billed c) (billing_processed_at c).
Definition set_updated_at (v : datetime) (c : t) : t :=
  mk (id c) (user c) (counsellor c) (status c) (created_at c) (started_at c)
     (ended_at c) (last_user_activity c) v (billed_amount c)
     (duration_minutes c) (is_billed c) (billing_processed_at c).
Definition set_billed_amount (v : Z) (c : t) : t :=
  mk (id c) (user c) (counsellor c) (status c) (created_at c) (started_at c)
     (ended_at c) (last_user_activity c) (updated_at c) v
     (duration_minutes c) (is_billed c) (billing_processed_at c).
Definition set_duration_minutes (v : Z) (c : t) : t :=
  mk (id c) (user c) (counsellor c) (status c) (created_at c) (started_at c)
     (ended_at c) (last_user_activity c) (updated_at c) (billed_amount c)
     v (is_billed c) (billing_processed_at c).
Definition set_is_billed (v : bool) (c : t) : t :=
  mk (id c) (user c) (counsellor c) (status c) (created_at c) (started_at c)
     (ended_at c) (last_user_activity c) (updated_at c) (billed_amount c)
     (duration_minutes c) v (billing_processed_at c).
Definition set_billing_processed_at (v : option datetime) (c : t) : t :=
  mk (id c) (user c) (counsellor c) (status c) (created_at c) (started_at c)
     (ended_at c) (last_user_activity c) (updated_at c) (billed_amount c)
     (duration_minutes c) (is_billed c) v.

(** The columns a [save(update_fields=[...])] can name. *)
Inductive field :=
  f_status | f_ended_at | f_started_at | f_last_user_activity
| f_updated_at | f_counsellor | f_billed_amount | f_duration_minutes.

(** Copy column [f] of the instance [obj] into the row [row];
    [updated_at] is an [auto_now] column and takes the save time. *)
Definition copy_field (now : datetime) (obj : t) (row : t) (f : field) : t :=
  match f with
  | f_status => set_status (status obj) row
  | f_ended_at => set_ended_at (ended_at obj) row
  | f_started_at => set_started_at (started_at obj) row
  | f_last_user_activity => set_last_user_activity (last_user_activity obj) row
  | f_updated_at => set_updated_at now row
  | f_counsellor => set_counsellor (counsellor obj) row
  | f_billed_amount => set_billed_amount (billed_amount obj) row
  | f_duration_minutes => set_duration_minutes (duration_minutes obj) row
  end.
End Chat.

Module ChatMessage.
Record t := mk {
  id : positive;
  chat : positive;
  sender : user_id;
  text : string;
  client_message_id : option string;
  created_at : datetime
}.
End ChatMessage.

Module UpcomingSession.
Inductive session_status_t := scheduled | in_progress | session_completed.

Global Instance session_status_eq_dec : EqDecision session_status_t.
Proof. solve_decision. Defined.

Record t := mk {
  id : positive;
  user : option user_id;
  counsellor : option user_id;
  start_time : datetime;
  session_status : session_status_t;
  is_confirmed : bool;
  actual_start_time : option datetime;
  actual_end_time : option datetime
}.
End UpcomingSession.

(** The tables the chat core reads and writes.  [counsellor_users] is the
    result of [User.objects.filter(counsellorprofile__isnull=False)], in
    query order. *)
Record DB := mkDB {
  chats : gmap positive Chat.t;
  wallet_minutes : gmap user_id Z;
  messages : list ChatMessage.t;
  sessions : list UpcomingSession.t;
  counsellor_users : list user_id
}.

Definition set_chats (v : gmap positive Chat.t) (db : DB) : DB :=
  mkDB v (wallet_minutes db) (messages db) (sessions db) (counsellor_users db).
Definition set_wallet_minutes (v : gmap user_id Z) (db : DB) : DB :=
  mkDB (chats db) v (messages db) (sessions db) (counsellor_users db).
Definition set_messages (v : list ChatMessage.t) (db : DB) : DB :=
  mkDB (chats db) (wallet_minutes db) v (sessions db) (counsellor_users db).
Definition set_sessions (v : list UpcomingSession.t) (db : DB) : DB :=
  mkDB (chats db) (wallet_minutes db) (messages db) v (counsellor_users db).

(** [Chat.objects.filter(id=cid).update(...)]: rewrite the row in place,
    nothing happens when there is no such row. *)
Definition update_chat (cid : positive) (f : Chat.t -> Chat.t) (db : DB) : DB :=
  set_chats (alter f cid (chats db)) db.

(** Modelled from the spec: [Chat.save] is declared in [api/models.py],
    which is not among the sources.  The spec's steps read "persist, then
    invoke settlement", so [save(update_fields=[...])] is the persistence
    step alone: it writes the listed columns of the instance into its
    row.  The views that save a completed chat call settlement themselves
    right after, and settlement does nothing once [is_billed] is set, so a
    settlement run from inside [save] would leave the same store. *)
Definition Chat_save_fields (now : datetime) (obj : Chat.t)
    (fields : list Chat.field) (db : DB) : DB :=
  update_chat (Chat.id obj)
    (fun row => foldl (Chat.copy_field now obj) row fields) db.

(** Modelled from the spec: [chat.save()] without [update_fields], again
    the persistence step of the absent [Chat.save]: the whole instance
    replaces its row. *)
Definition Chat_save (now : datetime) (obj : Chat.t) (db : DB) : DB :=
  set_chats (<[Chat.id obj := Chat.set_updated_at now obj]> (chats db)) db.

(** ** Billing  ([api/utils/billing.py]) *)

Definition CHAT_RATE_PER_MINUTE : Z := 1.

Definition is_Some_b {A} (o : option A) : bool :=
  match o with Some _ => true | None => false end.

Definition calculate_chat_duration_minutes (now : datetime) (chat : Chat.t) : Z :=
  match Chat.started_at chat with
  | None => 0
  | Some started =>
      let end_time :=
        match Chat.ended_at chat with Some e => e | None => now end in
      if end_time <=? started then 0
      else
        let duration_us := end_time - started in
        let duration_minutes := ceil_minutes duration_us in
        if (duration_minutes =? 0) && is_Some_b (Chat.ended_at chat)
           && is_Some_b (Chat.started_at chat)
        then 1
        else duration_minutes
  end.

Definition calculate_chat_billing (now : datetime) (chat : Chat.t) : Z :=
  let duration_minutes := calculate_chat_duration_minutes now chat in
  duration_minutes * CHAT_RATE_PER_MINUTE.

(** [deduct_chat_billing]: the wallet is debited only inside the
    sufficient-balance branch; a missing profile is created with an empty
    wallet first. *)
Definition deduct_chat_billing (db : DB) (chat : Chat.t) (billing_amount : Z)
    : bool * DB :=
  match Chat.user chat with
  | None => (false, db)
  | Some u =>
      let billing_amount_int := billing_amount in
      if billing_amount_int <=? 0 then (true, db)
      else
        let '(balance, db1) :=
          match wallet_minutes db !! u with
          | Some w => (w, db)
          | None => (0, set_wallet_minutes (<[u := 0]> (wallet_minutes db)) db)
          end in
        if balance <? billing_amount_int then (false, db1)
        else
          (true,
           set_wallet_minutes
             (<[u := balance - billing_amount_int]> (wallet_minutes db1)) db1)
  end.

Definition mark_billed_zero (now : datetime) (c : Chat.t) : Chat.t :=
  Chat.set_billed_amount 0
    (Chat.set_duration_minutes 0
       (Chat.set_billing_processed_at (Some now)
          (Chat.set_is_billed true c))).

Definition record_billing (duration_minutes billing_amount : Z) (c : Chat.t) : Chat.t :=
  Chat.set_billed_amount billing_amount
    (Chat.set_duration_minutes duration_minutes c).

Definition finalize_billing (now : datetime) (duration_minutes billing_amount : Z)
    (c : Chat.t) : Chat.t :=
  Chat.set_billing_processed_at (Some now)
    (Chat.set_is_billed true (record_billing duration_minutes billing_amount c)).

(** [calculate_and_deduct_chat_billing(chat)]: the argument is refreshed
    from the database first, so only its id matters. *)
Definition calculate_and_deduct_chat_billing (now : datetime) (db : DB)
    (cid : positive) : bool * DB :=
  match chats db !! cid with
  | None => (false, db)
  | Some chat =>
      if Chat.is_billed chat then (true, db)
      else
        match Chat.started_at chat with
        | None => (true, update_chat cid (mark_billed_zero now) db)
        | Some _ =>
            let '(chat, db) :=
              match Chat.ended_at chat with
              | Some _ => (chat, db)
              | None =>
                  (Chat.set_ended_at (Some now) chat,
                   update_chat cid (Chat.set_ended_at (Some now)) db)
              end in
            let duration_minutes := calculate_chat_duration_minutes now chat in
            let billing_amount := calculate_chat_billing now chat in
            let '(deduction_success, db) :=
              if 0 <? billing_amount
              then deduct_chat_billing db chat billing_amount
              else (true, db) in
            if deduction_success || (billing_amount =? 0) then
              (true,
               update_chat cid
                 (finalize_billing now duration_minutes billing_amount) db)
            else
              (false,
               update_chat cid (record_billing duration_minutes billing_amount) db)
        end
  end.

(** ** Periodic accrual  ([process_chat_billing.Command.handle]) *)

(** What the command prints for one chat. *)
Inductive accrual_outcome :=
| acc_skipped                       (* duration below [--min-duration] *)
| acc_nothing_due                   (* amount_to_deduct <= 0 *)
| acc_check_only (amount : Z)       (* [--check-only] *)
| acc_deducted (amount old_balance : Z)
| acc_insufficient (amount old_balance : Z)
| acc_profile_missing               (* UserProfile.DoesNotExist *)
| acc_error.                        (* the outer [except Exception] *)

(** [chat.billed_amount or Decimal('0.00')] *)
Definition or_zero (x : Z) : Z := if x =? 0 then 0 else x.

(** The body of the [for chat in active_chats] loop.  [chat] is the
    instance loaded when the queryset was evaluated; the wallet is read
    from the database at this point. *)
Definition process_chat (now : datetime) (check_only : bool) (min_duration : Z)
    (db : DB) (chat : Chat.t) : accrual_outcome * DB :=
  let duration_minutes := calculate_chat_duration_minutes now chat in
  if duration_minutes <? min_duration then (acc_skipped, db)
  else
    let current_billing := calculate_chat_billing now chat in
    let already_billed := or_zero (Chat.billed_amount chat) in
    let amount_to_deduct := current_billing - already_billed in
    if 0 <? amount_to_deduct then
      match Chat.user chat with
      | None => (acc_error, db)     (* [chat.user.username] raises *)
      | Some u =>
          if check_only then (acc_check_only amount_to_deduct, db)
          else
            match wallet_minutes db !! u with
            | None => (acc_profile_missing, db)
            | Some old_balance =>
                if amount_to_deduct <=? old_balance then
                  let db1 :=
                    set_wallet_minutes
                      (<[u := old_balance - amount_to_deduct]> (wallet_minutes db))
                      db in
                  let chat1 :=
                    Chat.set_duration_minutes duration_minutes
                      (Chat.set_billed_amount current_billing chat) in
                  (acc_deducted amount_to_deduct old_balance,
                   Chat_save_fields now chat1
                     [Chat.f_billed_amount; Chat.f_duration_minutes] db1)
                else (acc_insufficient amount_to_deduct old_balance, db)
            end
      end
    else (acc_nothing_due, db).

(** [Chat.objects.filter(status=STATUS_ACTIVE, started_at__isnull=False)] *)
Definition is_active_started (c : Chat.t) : bool :=
  Status_eqb (Chat.status c) active && is_Some_b (Chat.started_at c).

Definition active_chats (db : DB) : list Chat.t :=
  List.filter is_active_started (snd <$> map_to_list (chats db)).

Fixpoint handle_loop (now : datetime) (check_only : bool) (min_duration : Z)
    (cs : list Chat.t) (db : DB) : list accrual_outcome * DB :=
  match cs with
  | [] => ([], db)
  | chat :: rest =>
      let '(o, db1) := process_chat now check_only min_duration db chat in
      let '(os, db2) := handle_loop now check_only min_duration rest db1 in
      (o :: os, db2)
  end.

Definition handle (now : datetime) (check_only : bool) (min_duration : Z)
    (db : DB) : list accrual_outcome * DB :=
  handle_loop now check_only min_duration (active_chats db) db.

(** The instant billing stops at: [chat.ended_at if chat.ended_at else now]. *)
Definition end_time (now : datetime) (chat : Chat.t) : datetime :=
  match Chat.ended_at chat with Some e => e | None => now end.

(** ** Message submission  ([api/consumers.py]) *)

(** Python truthiness of the [client_message_id] taken from the frame:
    [None] and the empty string are false. *)
Definition truthy (o : option string) : bool :=
  match o with
  | Some EmptyString => false
  | Some _ => true
  | None => false
  end.

Definition option_eqb_string (a b : option string) : bool := bool_decide (a = b).

(** [ChatMessage.objects.filter(chat=chat, sender=self.user,
    client_message_id=client_message_id).first()] *)
Definition find_by_client_id (db : DB) (cid : positive) (sender : user_id)
    (client_message_id : option string) : option ChatMessage.t :=
  List.find
    (fun m =>
       Pos.eqb (ChatMessage.chat m) cid
       && Pos.eqb (ChatMessage.sender m) sender
       && option_eqb_string (ChatMessage.client_message_id m) client_message_id)
    (messages db).

(** [ChatMessage.objects.filter(chat=chat, sender=self.user, text=text,
    created_at__gte=now - timedelta(seconds=2)).first()] *)
Definition find_recent_duplicate (now : datetime) (db : DB) (cid : positive)
    (sender : user_id) (text : string) : option ChatMessage.t :=
  List.find
    (fun m =>
       Pos.eqb (ChatMessage.chat m) cid
       && Pos.eqb (ChatMessage.sender m) sender
       && String.eqb (ChatMessage.text m) text
       && (now - timedelta_seconds 2 <=? ChatMessage.created_at m))
    (messages db).

(** The id the database gives the next [ChatMessage] row. *)
Definition next_message_id (db : DB) : positive :=
  foldr (fun m next => Pos.max (Pos.succ (ChatMessage.id m)) next) 1%positive
    (messages db).

(** [ChatMessage.objects.create(chat=..., sender=..., text=...,
    client_message_id=...)] *)
Definition create_message (now : datetime) (db : DB) (cid : positive)
    (sender : user_id) (text : string) (client_message_id : option string)
    : ChatMessage.t * DB :=
  let m := ChatMessage.mk (next_message_id db) cid sender text client_message_id now in
  (m, set_messages (messages db ++ [m]) db).

(** [a or b] on nullable datetimes. *)
Definition or_else (a : option datetime) (b : datetime) : datetime :=
  match a with Some x => x | None => b end.

(** [UpcomingSession.objects.filter(user=..., counsellor=...,
    session_status='scheduled').order_by('-start_time').first()]: the
    first stored row among those with the greatest [start_time]. *)
Fixpoint latest_by_start (best : option UpcomingSession.t)
    (l : list UpcomingSession.t) : option UpcomingSession.t :=
  match l with
  | [] => best
  | s :: rest =>
      match best with
      | None => latest_by_start (Some s) rest
      | Some b =>
          if UpcomingSession.start_time b <? UpcomingSession.start_time s
          then latest_by_start (Some s) rest
          else latest_by_start best rest
      end
  end.

Definition opt_user_eqb (a b : option user_id) : bool := bool_decide (a = b).

Definition scheduled_session_for (db : DB) (chat : Chat.t) : option UpcomingSession.t :=
  latest_by_start None
    (List.filter
       (fun s =>
          opt_user_eqb (UpcomingSession.user s) (Chat.user chat)
          && opt_user_eqb (UpcomingSession.counsellor s) (Chat.counsellor chat)
          && bool_decide (UpcomingSession.session_status s = UpcomingSession.scheduled))
       (sessions db)).

(** [session.save()]: rewrite the row with this id. *)
Definition save_session (s : UpcomingSession.t) (db : DB) : DB :=
  set_sessions
    ((fun r => if Pos.eqb (UpcomingSession.id r) (UpcomingSession.id s) then s else r)
       <$> sessions db) db.

(** The block "Auto-start associated UpcomingSession if chat becomes active". *)
Definition auto_start_session (now : datetime) (chat : Chat.t) (db : DB) : DB :=
  match scheduled_session_for db chat with
  | Some s =>
      match UpcomingSession.actual_start_time s with
      | None =>
          save_session
            (UpcomingSession.mk (UpcomingSession.id s) (UpcomingSession.user s)
               (UpcomingSession.counsellor s) (UpcomingSession.start_time s)
               UpcomingSession.in_progress true (Some now)
               (UpcomingSession.actual_end_time s)) db
      | Some _ => db
      end
  | None => db
  end.

(** What [save_message] hands back: [None] for a duplicate, the pair
    [(saved_message, chat_was_activated)] otherwise; [Chat.DoesNotExist]
    from the locking [get] is re-raised. *)
Inductive save_result :=
| SaveRaised
| Duplicate
| Saved (message : ChatMessage.t) (chat_was_activated : bool).

(** The consumer instance: [self.chat_id], [self.user] and the cached
    [self.chat]. *)
Record Consumer := mkConsumer {
  self_chat_id : positive;
  self_user : user_id;
  self_chat : option Chat.t;
  cached_is_user_sender : bool
}.

Definition set_self_chat (c : option Chat.t) (self : Consumer) : Consumer :=
  mkConsumer (self_chat_id self) (self_user self) c (cached_is_user_sender self).

Section Deployment.

(** Two facts of the deployment that the sources do not fix: the column
    default of [UserProfile.wallet_minutes] (declared in
    [api/models.py]), used by [get_or_create], and whether the database
    sorts NULL first under [ORDER BY ... DESC]. *)
Variable default_wallet_minutes : Z.
Variable nulls_first : bool.

(** [check_chat_wallet_balance(user)]; the profile is created when it
    is missing. *)
Definition check_chat_wallet_balance (db : DB) (u : option user_id)
    : (bool * Z) * DB :=
  match u with
  | None => ((false, 0), db)
  | Some u =>
      let '(balance, db1) :=
        match wallet_minutes db !! u with
        | Some w => (w, db)
        | None =>
            (default_wallet_minutes,
             set_wallet_minutes
               (<[u := default_wallet_minutes]> (wallet_minutes db)) db)
        end in
      let min_balance := 1 in
      if balance <? min_balance then ((false, balance), db1)
      else ((true, balance), db1)
  end.

(** The branch [if is_user_sender:] of [save_message], on the locked
    instance [chat]. Returns the instance, the flag and the store. *)
Definition user_branch (now : datetime) (chat : Chat.t) (db : DB)
    : Chat.t * bool * DB :=
  let previous_activity := Chat.last_user_activity chat in
  let chat := Chat.set_last_user_activity (Some now) chat in
  (* user returned after more than five minutes *)
  let chat :=
    match previous_activity with
    | Some prev =>
        if Status_eqb (Chat.status chat) active
           || Status_eqb (Chat.status chat) inactive
        then
          let five_minutes_ago := now - timedelta_minutes 5 in
          if prev <? five_minutes_ago then
            if Status_eqb (Chat.status chat) inactive
            then Chat.set_ended_at None (Chat.set_status active chat)
            else chat
          else chat
        else chat
    | None => chat
    end in
  (* auto-disconnect after one hour *)
  let '(chat, db) :=
    match Chat.last_user_activity chat with
    | Some last =>
        if Status_eqb (Chat.status chat) active then
          let one_hour_ago := now - timedelta_hours 1 in
          if last <? one_hour_ago then
            let chat := Chat.set_status completed chat in
            let chat :=
              match Chat.ended_at chat with
              | Some _ => chat
              | None => Chat.set_ended_at (Some now) chat
              end in
            let chat :=
              match Chat.started_at chat with
              | Some _ => chat
              | None =>
                  Chat.set_started_at
                    (Some (or_else (Chat.created_at chat) now)) chat
              end in
            (chat,
             Chat_save_fields now chat
               [Chat.f_status; Chat.f_ended_at; Chat.f_started_at;
                Chat.f_last_user_activity; Chat.f_updated_at] db)
          else (chat, db)
        else (chat, db)
    | None => (chat, db)
    end in
  (* auto-activate *)
  match Chat.status chat with
  | active => (chat, false, db)
  | old_status =>
      let is_queued := Status_eqb old_status queued in
      let db :=
        if is_queued
        then snd (check_chat_wallet_balance db (Chat.user chat))
        else db in
      let chat_was_activated := false in
      let '(chat, chat_was_activated) :=
        if is_queued then
          let chat :=
            match Chat.counsellor chat with
            | Some _ => chat
            | None =>
                match counsellor_users db with
                | available_counselor :: _ =>
                    Chat.set_counsellor (Some available_counselor) chat
                | [] => chat
                end
            end in
          let chat :=
            match Chat.started_at chat with
            | Some _ => chat
            | None => Chat.set_started_at (Some now) chat
            end in
          (chat, true)
        else (chat, chat_was_activated) in
      let chat_was_activated :=
        if Status_eqb old_status completed || Status_eqb old_status inactive
           || Status_eqb old_status cancelled
        then true else chat_was_activated in
      let chat := Chat.set_ended_at None (Chat.set_status active chat) in
      let update_fields :=
        [Chat.f_status; Chat.f_ended_at; Chat.f_last_user_activity;
         Chat.f_updated_at]
        ++ (if is_queued && is_Some_b (Chat.counsellor chat)
            then [Chat.f_counsellor] else [])
        ++ (if is_queued && is_Some_b (Chat.started_at chat)
            then [Chat.f_started_at] else []) in
      let db := Chat_save_fields now chat update_fields db in
      let db :=
        if chat_was_activated && is_Some_b (Chat.counsellor chat)
        then auto_start_session now chat db
        else db in
      (chat, chat_was_activated, db)
  end.

(** The [else:] branch: a counsellor is sending. *)
Definition counsellor_branch (now : datetime) (chat : Chat.t) (db : DB)
    : Chat.t * DB :=
  match Chat.last_user_activity chat with
  | Some last =>
      if Status_eqb (Chat.status chat) active then
        let five_minutes_ago := now - timedelta_minutes 5 in
        if last <? five_minutes_ago then
          let chat := Chat.set_status inactive chat in
          let chat :=
            match Chat.ended_at chat with
            | Some _ => chat
            | None => Chat.set_ended_at (Some (last + timedelta_minutes 5)) chat
            end in
          let chat :=
            match Chat.started_at chat with
            | Some _ => chat
            | None =>
                Chat.set_started_at
                  (Some (or_else (Chat.created_at chat) now)) chat
            end in
          (chat,
           Chat_save_fields now chat
             [Chat.f_status; Chat.f_ended_at; Chat.f_started_at;
              Chat.f_updated_at] db)
        else (chat, db)
      else (chat, db)
  | None => (chat, db)
  end.

(** [ChatConsumer.save_message(text, client_message_id)].  Returns the
    result, the consumer (its cache [self.chat] is overwritten on
    success) and the store after the transaction. *)
Definition save_message (now : datetime) (self : Consumer) (db : DB)
    (text : string) (client_message_id : option string)
    : save_result * Consumer * DB :=
  match chats db !! self_chat_id self with
  | None => (SaveRaised, self, db)
  | Some chat =>
      let cid := Chat.id chat in
      if truthy client_message_id
         && is_Some_b (find_by_client_id db cid (self_user self) client_message_id)
      then (Duplicate, self, db)
      else if negb (truthy client_message_id)
         && is_Some_b (find_recent_duplicate now db cid (self_user self) text)
      then (Duplicate, self, db)
      else
        let is_user_sender := opt_user_eqb (Chat.user chat) (Some (self_user self)) in
        let '(chat, chat_was_activated, db) :=
          if is_user_sender then user_branch now chat db
          else
            let '(chat, db) := counsellor_branch now chat db in
            (chat, false, db) in
        let '(message, db) :=
          create_message now db cid (self_user self) text client_message_id in
        (Saved message chat_was_activated, set_self_chat (Some chat) self, db)
  end.

(** [get_chat_and_check_access(user, chat_id)]: the chat and whether
    [user] is its requester, or [None] without access. *)
Definition get_chat_and_check_access (db : DB) (user : user_id)
    (chat_id : positive) : option (Chat.t * bool) :=
  match chats db !! chat_id with
  | None => None
  | Some chat =>
      match Chat.user chat with
      | None => None               (* [chat.user.username] raises, caught *)
      | Some _ =>
          let is_chat_user := opt_user_eqb (Chat.user chat) (Some user) in
          let is_chat_counsellor :=
            is_Some_b (Chat.counsellor chat)
            && opt_user_eqb (Chat.counsellor chat) (Some user) in
          if is_chat_user || is_chat_counsellor
          then Some (chat, is_chat_user)
          else None
      end
  end.

(** [is_user_sender(chat_id, sender_id)] *)
Definition is_user_sender (db : DB) (chat_id : positive) (sender_id : user_id)
    : bool :=
  match chats db !! chat_id with
  | Some chat => opt_user_eqb (Chat.user chat) (Some sender_id)
  | None => false
  end.

(** A Python [str] is a sequence of Unicode code points, and [len]
    counts them. *)
Definition codepoint := N.
Definition str := list codepoint.

Definition len (s : str) : Z := Z.of_nat (length s).

(** The white space of [str.strip()]: the code points for which
    [str.isspace()] holds (general category Zs, or bidirectional class
    WS, B or S). *)
Definition is_space (c : codepoint) : bool :=
  (((9 <=? c) && (c <=? 13))            (* U+0009 .. U+000D *)
   || ((28 <=? c) && (c <=? 32))        (* U+001C .. U+001F, space *)
   || (c =? 133)                        (* U+0085 next line *)
   || (c =? 160)                        (* U+00A0 no-break space *)
   || (c =? 5760)                       (* U+1680 *)
   || ((8192 <=? c) && (c <=? 8202))    (* U+2000 .. U+200A *)
   || (c =? 8232) || (c =? 8233)        (* U+2028, U+2029 *)
   || (c =? 8239)                       (* U+202F *)
   || (c =? 8287)                       (* U+205F *)
   || (c =? 12288))%N.                  (* U+3000 *)

Fixpoint lstrip (s : str) : str :=
  match s with
  | c :: rest => if is_space c then lstrip rest else s
  | [] => []
  end.

(** [str.strip()] *)
Definition strip (s : str) : str :=
  rev (lstrip (rev (lstrip s))).

(** The bytes of one code point in UTF-8. *)
Definition utf8_bytes (c : codepoint) : list N :=
  (if c <? 128 then [c]
   else if c <? 2048 then [192 + c / 64; 128 + c mod 64]
   else if c <? 65536
   then [224 + c / 4096; 128 + (c / 64) mod 64; 128 + c mod 64]
   else [240 + c / 262144; 128 + (c / 4096) mod 64; 128 + (c / 64) mod 64;
         128 + c mod 64])%N.

(** A text as it is stored and sent: its UTF-8 bytes.  Every code point
    is encoded by the same rule; whether the database takes a lone
    surrogate, which a JSON frame can carry, is outside these sources. *)
Definition utf8 (s : str) : string :=
  String.string_of_list_ascii (ascii_of_N <$> (s ≫= utf8_bytes)).

(** The text of a literal made of ASCII characters. *)
Definition str_of_string (s : string) : str :=
  N_of_ascii <$> String.list_ascii_of_string s.

Inductive ack_status := ack_sent | ack_duplicate.

Inductive error_kind :=
| err_too_long          (* "Message too long. Maximum 5000 characters." *)
| err_no_access         (* "Chat not found or access denied" *)
| err_save_failed.      (* "Failed to save message. Please try again." *)

(** A JSON frame written to the sender's own socket. *)
Inductive frame :=
| ErrorFrame (error : error_kind)
| AckFrame (status : ack_status) (client_message_id : option string)
    (message_id : option positive).

(** A [group_send]: to the chat's room or to ["counselor_queue"]. *)
Inductive group_event :=
| ChatMessageEvent (room : positive) (message : string) (sender_id : user_id)
    (is_user : bool) (timestamp : datetime) (message_id : positive)
    (client_message_id : option string)
| StatusChangeEvent (chat_id : positive) (requester_id counsellor_id : option user_id).

(** [ChatConsumer.receive], from the decoded frame
    [{message, client_message_id}] on: [message] is the string under the
    key "message", the empty string when the key is absent (a frame that
    is not JSON, or whose message is not a string, is answered by the
    handler's outer [except] and is not part of this function).  The
    text handed to [save_message] and to the room is the stripped
    message, held as its UTF-8 bytes. *)
Definition receive (now : datetime) (self : Consumer) (db : DB)
    (message : str) (client_message_id : option string)
    : list frame * list group_event * Consumer * DB :=
  let message_text := strip message in
  if bool_decide (message_text = []) then ([], [], self, db)
  else if 5000 <? len message_text
  then ([ErrorFrame err_too_long], [], self, db)
  else
    let text := utf8 message_text in
    let reloaded :=
      match self_chat self with
      | Some _ => Some self
      | None =>
          match get_chat_and_check_access db (self_user self) (self_chat_id self) with
          | Some (chat, is_user) =>
              Some (mkConsumer (self_chat_id self) (self_user self) (Some chat) is_user)
          | None => None
          end
      end in
    match reloaded with
    | None => ([ErrorFrame err_no_access], [], self, db)
    | Some self =>
        match save_message now self db text client_message_id with
        | (SaveRaised, self, db) => ([ErrorFrame err_save_failed], [], self, db)
        | (Duplicate, self, db) =>
            ([AckFrame ack_duplicate client_message_id None], [], self, db)
        | (Saved message_obj chat_was_activated, self, db) =>
            let is_user := is_user_sender db (self_chat_id self) (self_user self) in
            let acks :=
              if truthy client_message_id
              then [AckFrame ack_sent client_message_id
                      (Some (ChatMessage.id message_obj))]
              else [] in
            let payload :=
              ChatMessageEvent (self_chat_id self) text (self_user self)
                is_user (ChatMessage.created_at message_obj)
                (ChatMessage.id message_obj)
                (if truthy client_message_id then client_message_id else None) in
            let status_events :=
              if chat_was_activated then
                match get_chat_and_check_access db (self_user self) (self_chat_id self) with
                | Some (chat_obj, _) =>
                    [StatusChangeEvent (self_chat_id self) (Chat.user chat_obj)
                       (Chat.counsellor chat_obj)]
                | None => []
                end
              else [] in
            (acks, payload :: status_events, self, db)
        end
    end.

(** ** Ending a session  ([SessionEndView.post]) *)

Inductive end_response :=
| Forbidden                       (* 403 "Access denied to end this chat" *)
| NoCounsellor                    (* 400 "Chat has no counselor assigned..." *)
| CannotBeEnded (chat_id : positive) (st : Status)
                                  (* 400 "Chat .. is currently .. and cannot be ended" *)
| NotFound                        (* 404 "Session not found or access denied" *)
| AlreadyEnded (session_id : positive) (end_time : datetime)
                                  (* 200, status "already_ended" *)
| ChatEnded (chat_id : positive) (end_time : option datetime)
    (duration_seconds duration_minutes : Z) (billing : option (Z * Z))
                                  (* 200, status "ended", no session existed *)
| SessionEnded (session_id : positive) (end_time : datetime)
    (billing : option (Z * Z)).   (* 200, status "ended" *)

(** [UpcomingSession.objects.filter(Q(id=session_id) & (Q(user=u) |
    Q(counsellor=u))).first()] *)
Definition find_session_by_id (db : DB) (u : user_id) (session_id : positive)
    : option UpcomingSession.t :=
  List.find
    (fun s =>
       Pos.eqb (UpcomingSession.id s) session_id
       && (opt_user_eqb (UpcomingSession.user s) (Some u)
           || opt_user_eqb (UpcomingSession.counsellor s) (Some u)))
    (sessions db).

(** [.order_by('-start_time', '-id').first()] *)
Definition session_before (a b : UpcomingSession.t) : bool :=
  (UpcomingSession.start_time b <? UpcomingSession.start_time a)
  || ((UpcomingSession.start_time b =? UpcomingSession.start_time a)
      && Pos.ltb (UpcomingSession.id b) (UpcomingSession.id a)).

Definition first_by {A} (before : A -> A -> bool) (l : list A) : option A :=
  foldl
    (fun best x =>
       match best with
       | None => Some x
       | Some b => if before x b then Some x else Some b
       end)
    None l.

Definition find_session_for_pair (db : DB) (chat : Chat.t)
    : option UpcomingSession.t :=
  first_by session_before
    (List.filter
       (fun s =>
          opt_user_eqb (UpcomingSession.user s) (Chat.user chat)
          && opt_user_eqb (UpcomingSession.counsellor s) (Chat.counsellor chat))
       (sessions db)).

(** [.order_by('-started_at', '-id').first()] on chats. *)
Definition chat_before (a b : Chat.t) : bool :=
  match Chat.started_at a, Chat.started_at b with
  | None, None => Pos.ltb (Chat.id b) (Chat.id a)
  | None, Some _ => nulls_first
  | Some _, None => negb nulls_first
  | Some x, Some y => (y <? x) || ((y =? x) && Pos.ltb (Chat.id b) (Chat.id a))
  end.

Definition open_chat_for_pair (db : DB) (s : UpcomingSession.t) : option Chat.t :=
  first_by chat_before
    (List.filter
       (fun c =>
          opt_user_eqb (Chat.user c) (UpcomingSession.user s)
          && opt_user_eqb (Chat.counsellor c) (UpcomingSession.counsellor s)
          && (Status_eqb (Chat.status c) active
              || Status_eqb (Chat.status c) inactive))
       (snd <$> map_to_list (chats db))).

Definition billing_info_of (db : DB) (cid : positive) : option (Z * Z) :=
  match chats db !! cid with
  | Some c =>
      if Chat.is_billed c
      then Some (Chat.billed_amount c, Chat.duration_minutes c)
      else None
  | None => None
  end.

(** The branch "If chat is active or inactive, proceed to end and bill". *)
Definition end_chat_directly (now : datetime) (chat : Chat.t) (db : DB)
    : end_response * DB :=
  let chat := Chat.set_status completed chat in
  let chat :=
    match Chat.ended_at chat with
    | Some _ => chat
    | None => Chat.set_ended_at (Some now) chat
    end in
  let chat :=
    match Chat.started_at chat with
    | Some _ => chat
    | None => Chat.set_started_at (Some now) chat
    end in
  let db := Chat_save now chat db in
  let cid := Chat.id chat in
  let db :=
    match chats db !! cid with
    | Some row =>
        if Chat.is_billed row then db
        else snd (calculate_and_deduct_chat_billing now db cid)
    | None => db
    end in
  match chats db !! cid with
  | None => (NotFound, db)        (* [refresh_from_db] raises; not reached *)
  | Some row =>
      let '(duration_seconds, duration_minutes) :=
        match Chat.started_at row, Chat.ended_at row with
        | Some s, Some e =>
            let secs := Z.quot (e - s) 1000000 in
            (secs, - ((- secs) / 60))
        | _, _ => (0, 0)
        end in
      (ChatEnded cid (Chat.ended_at row) duration_seconds duration_minutes
         (billing_info_of db cid), db)
  end.

(** The tail of [post]: end the [UpcomingSession] and bill the open chat
    of its pair. *)
Definition end_upcoming_session (now : datetime) (session : UpcomingSession.t)
    (db : DB) : end_response * DB :=
  match UpcomingSession.actual_end_time session,
        UpcomingSession.session_status session with
  | Some ended, UpcomingSession.session_completed =>
      (AlreadyEnded (UpcomingSession.id session) ended, db)
  | _, _ =>
      let session :=
        UpcomingSession.mk (UpcomingSession.id session)
          (UpcomingSession.user session) (UpcomingSession.counsellor session)
          (UpcomingSession.start_time session)
          UpcomingSession.session_completed false
          (Some (or_else (UpcomingSession.actual_start_time session) now))
          (Some now) in
      let db := save_session session db in
      let '(billing_info, db) :=
        if is_Some_b (UpcomingSession.user session)
           && is_Some_b (UpcomingSession.counsellor session)
        then
          match open_chat_for_pair db session with
          | Some chat =>
              if negb (Chat.is_billed chat) && is_Some_b (Chat.started_at chat)
              then
                let chat := Chat.set_status completed chat in
                let chat :=
                  match Chat.ended_at chat with
                  | Some _ => chat
                  | None => Chat.set_ended_at (Some now) chat
                  end in
                let db := Chat_save now chat db in
                let cid := Chat.id chat in
                let db :=
                  match chats db !! cid with
                  | Some row =>
                      if negb (Chat.is_billed row)
                         && is_Some_b (Chat.started_at row)
                         && is_Some_b (Chat.ended_at row)
                      then snd (calculate_and_deduct_chat_billing now db cid)
                      else db
                  | None => db
                  end in
                (billing_info_of db cid, db)
              else (None, db)
          | None => (None, db)
          end
        else (None, db) in
      (SessionEnded (UpcomingSession.id session) now billing_info, db)
  end.

(** [SessionEndView.post(request, session_id)] for [request.user = u]. *)
Definition SessionEndView_post (now : datetime) (u : user_id)
    (session_id : positive) (db : DB) : end_response * DB :=
  match find_session_by_id db u session_id with
  | Some session => end_upcoming_session now session db
  | None =>
      match chats db !! session_id with
      | None => (NotFound, db)
      | Some chat =>
          if negb (opt_user_eqb (Chat.user chat) (Some u)
                   || (is_Some_b (Chat.counsellor chat)
                       && opt_user_eqb (Chat.counsellor chat) (Some u)))
          then (Forbidden, db)
          else
            let session :=
              if is_Some_b (Chat.user chat) && is_Some_b (Chat.counsellor chat)
              then find_session_for_pair db chat
              else None in
            match session with
            | Some session => end_upcoming_session now session db
            | None =>
                match Chat.counsellor chat with
                | None => (NoCounsellor, db)
                | Some _ =>
                    if Status_eqb (Chat.status chat) active
                       || Status_eqb (Chat.status chat) inactive
                    then end_chat_directly now chat db
                    else (CannotBeEnded (Chat.id chat) (Chat.status chat), db)
                end
            end
      end
  end.

End Deployment.

(** ** Predicates used by the statements *)

(** The instance settlement works on once [ended_at] has been filled in. *)
Definition closed_at (now : datetime) (chat : Chat.t) : Chat.t :=
  match Chat.ended_at chat with
  | Some _ => chat
  | None => Chat.set_ended_at (Some now) chat
  end.

(** Every wallet holds a non-negative balance. *)
Definition wallets_nonneg (db : DB) : Prop :=
  forall u w, wallet_minutes db !! u = Some w -> 0 <= w.

(** No existing wallet changed between [db] and [db']. *)
Definition wallets_kept (db db' : DB) : Prop :=
  forall u w, wallet_minutes db !! u = Some w -> wallet_minutes db' !! u = Some w.

(** What an account can spend: a missing profile is an empty wallet. *)
Definition balance (db : DB) (u : user_id) : Z :=
  default 0 (wallet_minutes db !! u).

(** The two duplicate tests of [save_message], as one predicate. *)
Definition is_duplicate (now : datetime) (db : DB) (cid : positive)
    (sender : user_id) (text : string) (client_message_id : option string) : bool :=
  (truthy client_message_id
   && is_Some_b (find_by_client_id db cid sender client_message_id))
  || (negb (truthy client_message_id)
      && is_Some_b (find_recent_duplicate now db cid sender text)).



(** The responses [SessionEndView.post] sends with a 4xx status. *)
Definition is_error (r : end_response) : bool :=
  match r with
  | Forbidden | NoCounsellor | CannotBeEnded _ _ | NotFound => true
  | AlreadyEnded _ _ | ChatEnded _ _ _ _ _ | SessionEnded _ _ _ => false
  end.

(** Two rows that agree on what [SessionEndView.post] looks at before it
    decides: identity, parties and status. *)
Definition same_standing (a b : Chat.t) : Prop :=
  Chat.id a = Chat.id b /\ Chat.user a = Chat.user b
  /\ Chat.counsellor a = Chat.counsellor b /\ Chat.status a = Chat.status b.

(** ** Concrete stores used by the examples

    Chat 1 belongs to account 7 (the requester) and account 9 (a
    counsellor); times are in microseconds from the creation of the
    chat. *)

(** The requester's connection to chat 1, and the counsellor's. *)
Definition requester_conn : Consumer := mkConsumer 1 7%positive None true.
Definition counsellor_conn : Consumer := mkConsumer 1 9%positive None false.

(** An active chat started at 0, its requester last heard at 0, wallet
    at 100. *)
Definition chat_running : Chat.t :=
  Chat.mk 1 (Some 7%positive) (Some 9%positive) active (Some 0) (Some 0) None
    (Some 0) 0 0 0 false None.

Definition db_running : DB :=
  mkDB {[ 1%positive := chat_running ]} {[ 7%positive := 100 ]} [] [] [9%positive].

(** An inactive chat (marked so five minutes after the last requester
    message at time 0). *)
Definition chat_inactive : Chat.t :=
  Chat.mk 1 (Some 7%positive) (Some 9%positive) inactive (Some 0) (Some 0)
    (Some (timedelta_minutes 5)) (Some 0) (timedelta_minutes 6) 0 0 false None.

Definition db_inactive : DB :=
  mkDB {[ 1%positive := chat_inactive ]} {[ 7%positive := 100 ]} [] [] [9%positive].

(** A chat still queued: it never started. *)
Definition chat_never_started : Chat.t :=
  Chat.mk 1 (Some 7%positive) None queued (Some 0) None None None 0 0 0 false None.

Definition db_never_started : DB :=
  mkDB {[ 1%positive := chat_never_started ]} {[ 7%positive := 50 ]} [] [] [].

(** A chat closed after three minutes and not yet billed, the
    requester's wallet empty. *)
Definition chat_closed_3min : Chat.t :=
  Chat.mk 1 (Some 7%positive) (Some 9%positive) completed (Some 0) (Some 0)
    (Some (timedelta_minutes 3)) (Some 0) 0 0 0 false None.

Definition db_empty_wallet : DB :=
  mkDB {[ 1%positive := chat_closed_3min ]} {[ 7%positive := 0 ]} [] [] [].

(** Started and ended thirty seconds apart, and at the same instant. *)
Definition chat_30s (T : datetime) : Chat.t :=
  Chat.mk 1 (Some 7%positive) (Some 9%positive) completed (Some T) (Some T)
    (Some (T + timedelta_seconds 30)) (Some T) T 0 0 false None.

Definition chat_same_instant : Chat.t :=
  Chat.mk 1 (Some 7%positive) (Some 9%positive) completed (Some 0) (Some 5)
    (Some 5) None 5 0 0 false None.

(** A completed and billed chat, alone and next to the pair's
    scheduled-session record 4, itself completed at minute 10. *)
Definition chat_done : Chat.t :=
  Chat.mk 1 (Some 7%positive) (Some 9%positive) completed (Some 0) (Some 0)
    (Some (timedelta_minutes 10)) (Some 0) (timedelta_minutes 10) 10 10 true
    (Some (timedelta_minutes 10)).

Definition session_done : UpcomingSession.t :=
  UpcomingSession.mk 4 (Some 7%positive) (Some 9%positive) 0
    UpcomingSession.session_completed false (Some 0) (Some (timedelta_minutes 10)).

Definition db_done : DB :=
  mkDB {[ 1%positive := chat_done ]} {[ 7%positive := 90 ]} [] [session_done] [9%positive].

Definition db_done_no_session : DB :=
  mkDB {[ 1%positive := chat_done ]} {[ 7%positive := 90 ]} [] [] [9%positive].

(** A queued chat of requester 7 on a wallet of 100, with counsellor 9
    on duty. *)
Definition chat_queued : Chat.t :=
  Chat.mk 2 (Some 7%positive) None queued (Some 0) None None None 0 0 0 false None.

Definition db_queued : DB :=
  mkDB {[ 2%positive := chat_queued ]} {[ 7%positive := 100 ]} [] [] [9%positive].

(** An active chat with a counsellor but no [started_at]. *)
Definition chat_active_unstarted : Chat.t :=
  Chat.mk 3 (Some 7%positive) (Some 9%positive) active (Some 0) None None
    (Some 0) 0 0 0 false None.

Definition db_active_unstarted : DB :=
  mkDB {[ 3%positive := chat_active_unstarted ]} {[ 7%positive := 100 ]} [] []
    [9%positive].

(** The running chat next to the session record 4 of its pair, started
    and not yet ended. *)
Definition session_open : UpcomingSession.t :=
  UpcomingSession.mk 4 (Some 7%positive) (Some 9%positive) 0
    UpcomingSession.in_progress true (Some 0) None.

Definition db_open_session : DB :=
  mkDB {[ 1%positive := chat_running ]} {[ 7%positive := 100 ]} []
    [session_open] [9%positive].

(** The billed chat 1 next to a second chat 2 of the same pair, running
    since time 0, and the pair's session record 4, not yet ended. *)
Definition chat_running_2 : Chat.t :=
  Chat.mk 2 (Some 7%positive) (Some 9%positive) active (Some 0) (Some 0) None
    (Some 0) 0 0 0 false None.

Definition db_done_open_session : DB :=
  mkDB {[ 1%positive := chat_done; 2%positive := chat_running_2 ]}
    {[ 7%positive := 90 ]} [] [session_open] [9%positive].

(** A chat marked inactive three minutes in, its requester's wallet
    empty. *)
Definition chat_inactive_3min : Chat.t :=
  Chat.mk 1 (Some 7%positive) (Some 9%positive) inactive (Some 0) (Some 0)
    (Some (timedelta_minutes 3)) (Some 0) (timedelta_minutes 3) 0 0 false None.

Definition db_inactive_empty_wallet : DB :=
  mkDB {[ 1%positive := chat_inactive_3min ]} {[ 7%positive := 0 ]} [] []
    [9%positive].

(** ** Estimate for a running chat  ([get_chat_estimated_cost]) *)

Record estimated_cost := mk_estimated_cost {
  est_duration_minutes : Z;
  estimated_amount : Z;
  est_is_active : bool;
  est_is_billed : bool
}.

Definition get_chat_estimated_cost (now : datetime) (chat : Chat.t) : estimated_cost :=
  let duration_minutes := calculate_chat_duration_minutes now chat in
  let estimated_amount := calculate_chat_billing now chat in
  let is_active := Status_eqb (Chat.status chat) active in
  mk_estimated_cost duration_minutes estimated_amount is_active (Chat.is_billed chat).

(** Two rows that differ at most in [billed_amount] and
    [duration_minutes], the two columns the accrual writes. *)
Definition same_but_accrued (a b : Chat.t) : Prop :=
  b = Chat.set_duration_minutes (Chat.duration_minutes b)
        (Chat.set_billed_amount (Chat.billed_amount b) a).

(** The condition under which one accrual step debits: the chat has
    reached the minimum duration, something is due beyond what is
    recorded, and the requester's wallet covers it. *)
Definition accrual_due (now : datetime) (min_duration : Z) (db : DB)
    (chat : Chat.t) : Prop :=
  min_duration <= calculate_chat_duration_minutes now chat
  /\ 0 < calculate_chat_billing now chat - or_zero (Chat.billed_amount chat)
  /\ exists u w,
       Chat.user chat = Some u /\ wallet_minutes db !! u = Some w
       /\ calculate_chat_billing now chat - or_zero (Chat.billed_amount chat) <= w.

(** The same accounts have wallets in [db'] as in [db], none fuller. *)
Definition wallets_not_raised (db db' : DB) : Prop :=
  forall u,
    match wallet_minutes db !! u, wallet_minutes db' !! u with
    | Some w, Some w' => w' <= w
    | None, None => True
    | _, _ => False
    end.

(** Rows are stored under their own id. *)
Definition store_wf (db : DB) : Prop :=
  forall k c, chats db !! k = Some c -> Chat.id c = k.

(** The first character of [s] is white space. *)
Definition starts_with_space (s : str) : bool :=
  match s with
  | c :: _ => is_space c
  | [] => false
  end.

(** The last character of [s] is white space. *)
Definition ends_with_space (s : str) : bool :=
  starts_with_space (rev s).

(** ** Wallet endpoints  ([WalletRechargeView], [WalletUsageView]) *)

Module views.
Definition CALL_RATE_PER_MINUTE : Z := 5.
Definition CHAT_RATE_PER_MINUTE : Z := 1.
Definition MIN_CALL_BALANCE : Z := 100.
Definition MIN_CHAT_BALANCE : Z := 50.
End views.

Inductive service := service_call | service_chat.

Definition SERVICE_RATE_MAP (s : service) : Z :=
  match s with
  | service_call => views.CALL_RATE_PER_MINUTE
  | service_chat => views.CHAT_RATE_PER_MINUTE
  end.

Definition SERVICE_MIN_BALANCE_MAP (s : service) : Z :=
  match s with
  | service_call => views.MIN_CALL_BALANCE
  | service_chat => views.MIN_CHAT_BALANCE
  end.

(** A value found in [request.data].  The handlers do two things with
    one: test its truth ([a or b]) and convert it ([int(a)]);
    [rv_int] is [None] when the conversion raises [ValueError] or
    [TypeError]. *)
Record req_value := mk_req_value {
  rv_truthy : bool;
  rv_int : option Z
}.

(** A JSON integer as a request value. *)
Definition req_int (z : Z) : req_value :=
  mk_req_value (negb (z =? 0)) (Some z).

(** [a or b], where [None] stands for a missing (or null) key. *)
Definition py_or (a b : option req_value) : option req_value :=
  match a with
  | Some v => if rv_truthy v then a else b
  | None => b
  end.

(** [UserProfile.objects.get_or_create(user=u)]: the balance of the
    profile and the store, with the profile created under the column
    default when it was missing. *)
Definition get_or_create_profile (default_wallet_minutes : Z) (u : user_id)
    (db : DB) : Z * DB :=
  match wallet_minutes db !! u with
  | Some w => (w, db)
  | None =>
      (default_wallet_minutes,
       set_wallet_minutes (<[u := default_wallet_minutes]> (wallet_minutes db)) db)
  end.

Inductive recharge_response :=
| RechargeRequired            (* 400 "Either 'amount' or 'minutes' field is required" *)
| RechargeNotPositive         (* 400 "Amount must be greater than 0" *)
| RechargeInvalid             (* 400 "Invalid amount value" *)
| RechargeOk (wallet : Z).    (* 200, the new balance *)

(** [WalletRechargeView.post] for [request.user = u]; [amount] and
    [minutes] are [request.data.get("amount")] and
    [request.data.get("minutes")]. *)
Definition WalletRechargeView_post (default_wallet_minutes : Z) (u : user_id)
    (amount minutes : option req_value) (db : DB) : recharge_response * DB :=
  match py_or amount minutes with
  | None => (RechargeRequired, db)
  | Some v =>
      match rv_int v with
      | None => (RechargeInvalid, db)
      | Some amount =>
          if amount <=? 0 then (RechargeNotPositive, db)
          else
            let '(balance, db) := get_or_create_profile default_wallet_minutes u db in
            let balance := balance + amount in
            (RechargeOk balance,
             set_wallet_minutes (<[u := balance]> (wallet_minutes db)) db)
      end
  end.

(** [WalletUsageSerializer]: [service] is one of the two choices and
    [minutes] lies between 1 and 240.  The arguments are the two fields
    as the framework read them from the body. *)
Definition WalletUsageSerializer (service_name : string) (minutes : Z)
    : option (service * Z) :=
  let choice :=
    if String.eqb service_name "call" then Some service_call
    else if String.eqb service_name "chat" then Some service_chat
    else None in
  match choice with
  | Some s =>
      if (1 <=? minutes) && (minutes <=? 240) then Some (s, minutes) else None
  | None => None
  end.

Inductive usage_response :=
| UsageInvalid                                  (* 400 raised by [is_valid] *)
| UsageBelowMinimum (wallet required_minimum : Z)
                                                (* 400 "Minimum balance of .. required" *)
| UsageInsufficient (wallet required : Z)       (* 400 "Insufficient wallet balance" *)
| UsageOk (s : service) (minutes rate_per_minute charged wallet : Z).

(** [WalletUsageView.post] for [request.user = u]. *)
Definition WalletUsageView_post (default_wallet_minutes : Z) (u : user_id)
    (service_name : string) (minutes : Z) (db : DB) : usage_response * DB :=
  match WalletUsageSerializer service_name minutes with
  | None => (UsageInvalid, db)
  | Some (s, minutes) =>
      let rate := SERVICE_RATE_MAP s in
      let charge := minutes * rate in
      let min_required := SERVICE_MIN_BALANCE_MAP s in
      let '(balance, db) := get_or_create_profile default_wallet_minutes u db in
      if balance <? min_required then (UsageBelowMinimum balance min_required, db)
      else if balance <? charge then (UsageInsufficient balance charge, db)
      else
        let balance := balance - charge in
        (UsageOk s minutes rate charge balance,
         set_wallet_minutes (<[u := balance]> (wallet_minutes db)) db)
  end.

(** ** Opening and accepting a chat  ([ChatCreateView], [ChatAcceptView]) *)

(** The id the database gives the next [Chat] row. *)
Definition next_chat_id (db : DB) : positive :=
  foldr (fun k next => Pos.max (Pos.succ k) next) 1%positive
    (fst <$> map_to_list (chats db)).

Inductive create_response :=
| CreateRefused (wallet : Z)      (* 400, balance below the minimum of 1 *)
| CreateInvalid                   (* 400 raised by [is_valid] *)
| Created (chat : Chat.t).        (* 201 *)

(** [ChatCreateView.post] for [request.user = u].  [body_valid] says
    whether the body passes [ChatCreateSerializer]; [blank] carries the
    column defaults of [api/models.py] for the columns that
    [Chat.objects.create(user=..., status="queued", ...)] does not
    name. *)
Definition ChatCreateView_post (default_wallet_minutes : Z) (blank : Chat.t)
    (now : datetime) (u : user_id) (body_valid : bool) (db : DB)
    : create_response * DB :=
  let '((has_balance, current_balance), db) :=
    check_chat_wallet_balance default_wallet_minutes db (Some u) in
  if negb has_balance then (CreateRefused current_balance, db)
  else if negb body_valid then (CreateInvalid, db)
  else
    let chat :=
      Chat.mk (next_chat_id db) (Some u) (Chat.counsellor blank) queued
        (Chat.created_at blank) (Chat.started_at blank) (Chat.ended_at blank)
        (Chat.last_user_activity blank) now (Chat.billed_amount blank)
        (Chat.duration_minutes blank) (Chat.is_billed blank)
        (Chat.billing_processed_at blank) in
    (Created chat, set_chats (<[Chat.id chat := chat]> (chats db)) db).

Inductive accept_response :=
| AcceptForbidden                 (* 403 "Only counsellors can accept chats" *)
| AcceptNotFound                  (* 404 "Chat not found or not available" *)
| AcceptRaised                    (* an exception leaves the handler *)
| Accepted (chat : Chat.t).       (* 200, the row as stored *)

(** [ChatAcceptView.patch] for [request.user = u]. *)
Definition ChatAcceptView_patch (now : datetime) (u : user_id)
    (chat_id : positive) (db : DB) : accept_response * DB :=
  if negb (bool_decide (u ∈ counsellor_users db)) then (AcceptForbidden, db)
  else
    match chats db !! chat_id with
    | None => (AcceptNotFound, db)
    | Some chat =>
        if negb (Status_eqb (Chat.status chat) queued) then (AcceptNotFound, db)
        else
          match Chat.user chat with
          | None => (AcceptRaised, db)     (* [chat.user.username] in the log line *)
          | Some _ =>
              let chat := Chat.set_counsellor (Some u) chat in
              let chat := Chat.set_status active chat in
              let chat := Chat.set_started_at (Some now) chat in
              let db :=
                Chat_save_fields now chat
                  [Chat.f_counsellor; Chat.f_status; Chat.f_started_at;
                   Chat.f_updated_at] db in
              match chats db !! chat_id with
              | Some updated_chat => (Accepted updated_chat, db)
              | None => (AcceptRaised, db)
              end
          end
    end.

(** ** Reading and posting messages over REST  ([ChatMessageListView]) *)

(** [.order_by("created_at", "id")] *)
Definition message_leb (a b : ChatMessage.t) : bool :=
  (ChatMessage.created_at a <? ChatMessage.created_at b)
  || ((ChatMessage.created_at a =? ChatMessage.created_at b)
      && Pos.leb (ChatMessage.id a) (ChatMessage.id b)).

Definition message_le (a b : ChatMessage.t) : Prop := message_leb a b = true.

Global Instance message_le_dec : RelDecision message_le.
Proof. intros a b. unfold message_le. apply _. Defined.

(** [ChatMessage.objects.filter(chat_id=chat_id).order_by("created_at", "id")] *)
Definition messages_of_chat (db : DB) (chat_id : positive) : list ChatMessage.t :=
  merge_sort message_le
    (List.filter (fun m => Pos.eqb (ChatMessage.chat m) chat_id) (messages db)).

(** [ChatMessageListView.get_queryset] for [request.user = u]: the
    messages handed to the client and the store afterwards. *)
Definition ChatMessageListView_get_queryset (now : datetime) (u : user_id)
    (chat_id : positive) (db : DB) : list ChatMessage.t * DB :=
  match chats db !! chat_id with
  | None => ([], db)
  | Some chat =>
      match Chat.user chat with
      | None => ([], db)             (* [chat.user.username] raises, caught *)
      | Some _ =>
          let is_chat_user := opt_user_eqb (Chat.user chat) (Some u) in
          let is_chat_counsellor :=
            is_Some_b (Chat.counsellor chat)
            && opt_user_eqb (Chat.counsellor chat) (Some u) in
          if negb is_chat_user && negb is_chat_counsellor then ([], db)
          else
            let db :=
              if is_chat_user then
                let chat := Chat.set_last_user_activity (Some now) chat in
                match Chat.last_user_activity chat with
                | Some last =>
                    if Status_eqb (Chat.status chat) active then
                      let one_hour_ago := now - timedelta_hours 1 in
                      if last <? one_hour_ago then
                        let chat := Chat.set_status completed chat in
                        let chat :=
                          match Chat.ended_at chat with
                          | Some _ => chat
                          | None => Chat.set_ended_at (Some now) chat
                          end in
                        let chat :=
                          match Chat.started_at chat with
                          | Some _ => chat
                          | None =>
                              Chat.set_started_at
                                (Some (or_else (Chat.created_at chat) now)) chat
                          end in
                        Chat_save_fields now chat
                          [Chat.f_status; Chat.f_ended_at; Chat.f_started_at;
                           Chat.f_last_user_activity; Chat.f_updated_at] db
                      else
                        Chat_save_fields now chat
                          [Chat.f_last_user_activity; Chat.f_updated_at] db
                    else
                      Chat_save_fields now chat
                        [Chat.f_last_user_activity; Chat.f_updated_at] db
                | None =>
                    Chat_save_fields now chat
                      [Chat.f_last_user_activity; Chat.f_updated_at] db
                end
              else db in
            (messages_of_chat db chat_id, db)
      end
  end.

Inductive post_response :=
| PostNotFound                    (* 404 "Chat not found" *)
| PostRaised                      (* an exception leaves the handler *)
| PostForbidden                   (* 403 "You don't have access to this chat" *)
| PostNotActive                   (* 400 "Chat is not active" *)
| PostInvalid                     (* 400 raised by [is_valid] *)
| Posted (message : ChatMessage.t).   (* 201 *)

(** [ChatMessageListView.post] for [request.user = u] and a body whose
    [text] field is [body_text].  Three things are declared outside the
    sources and are taken as they come: [reopen] is [Chat.reopen] of
    [api/models.py] (it may write to the store), [validate] is the
    verdict of [ChatMessageCreateSerializer] on the text (the validated
    text, or [None] when [is_valid] raises), and
    [default_client_message_id] is the column default that [create]
    uses for a message made without a key. *)
Definition ChatMessageListView_post
    (reopen : datetime -> Chat.t -> DB -> Chat.t * DB)
    (validate : string -> option string)
    (default_client_message_id : option string)
    (now : datetime) (u : user_id) (chat_id : positive) (body_text : string)
    (db : DB) : post_response * DB :=
  match chats db !! chat_id with
  | None => (PostNotFound, db)
  | Some chat =>
      match Chat.user chat with
      | None => (PostRaised, db)     (* [chat.user.username] in the log line *)
      | Some _ =>
          let is_chat_user := opt_user_eqb (Chat.user chat) (Some u) in
          let is_chat_counsellor :=
            is_Some_b (Chat.counsellor chat)
            && opt_user_eqb (Chat.counsellor chat) (Some u) in
          if negb is_chat_user && negb is_chat_counsellor then (PostForbidden, db)
          else
            let '(chat, db) :=
              if is_chat_user
                 && (Status_eqb (Chat.status chat) completed
                     || Status_eqb (Chat.status chat) cancelled)
              then
                let '(chat, db) := reopen now chat db in
                let chat := Chat.set_last_user_activity (Some now) chat in
                (chat,
                 Chat_save_fields now chat
                   [Chat.f_status; Chat.f_ended_at; Chat.f_last_user_activity;
                    Chat.f_updated_at] db)
              else (chat, db) in
            if negb (Status_eqb (Chat.status chat) active) then (PostNotActive, db)
            else
              match validate body_text with
              | None => (PostInvalid, db)
              | Some text =>
                  let '(message, db) :=
                    create_message now db (Chat.id chat) u text
                      default_client_message_id in
                  (Posted message, db)
              end
      end
  end.

(** ** Starting a session  ([SessionStartView.post]) *)

Inductive start_response :=
| StartNotFound                   (* 404 "Session not found or access denied" *)
| AlreadyStarted (session_id : positive) (start_time : datetime)
                                  (* 200, status "already_started"; the
                                     duration field is not modelled *)
| Started (session_id : positive) (start_time : datetime).
                                  (* 200, status "started" *)

(** The id the database gives the next [UpcomingSession] row. *)
Definition next_session_id (db : DB) : positive :=
  foldr (fun s next => Pos.max (Pos.succ (UpcomingSession.id s)) next) 1%positive
    (sessions db).

(** [UpcomingSession.objects.filter(Q(user=chat.user) &
    Q(counsellor=chat.counsellor) & Q(session_status__in=['scheduled',
    'in_progress'])).order_by('-start_time', '-id').first()] *)
Definition startable_session_for_pair (db : DB) (chat : Chat.t)
    : option UpcomingSession.t :=
  first_by session_before
    (List.filter
       (fun s =>
          opt_user_eqb (UpcomingSession.user s) (Chat.user chat)
          && opt_user_eqb (UpcomingSession.counsellor s) (Chat.counsellor chat)
          && (bool_decide (UpcomingSession.session_status s = UpcomingSession.scheduled)
              || bool_decide
                   (UpcomingSession.session_status s = UpcomingSession.in_progress)))
       (sessions db)).

(** The tail of [post], once the session is known: answer
    "already_started" for a session in progress, else stamp the start
    and save. *)
Definition start_session (now : datetime) (s : UpcomingSession.t) (db : DB)
    : start_response * DB :=
  match UpcomingSession.actual_start_time s, UpcomingSession.session_status s with
  | Some started, UpcomingSession.in_progress =>
      (AlreadyStarted (UpcomingSession.id s) started, db)
  | _, _ =>
      let s :=
        UpcomingSession.mk (UpcomingSession.id s) (UpcomingSession.user s)
          (UpcomingSession.counsellor s) (UpcomingSession.start_time s)
          UpcomingSession.in_progress true (Some now)
          (UpcomingSession.actual_end_time s) in
      (Started (UpcomingSession.id s) now, save_session s db)
  end.

(** The head of [post]: find the session by its id, else take the id
    for a chat id and find, or create, the session of the chat's pair.
    [blank] carries the column defaults of [api/models.py] for the
    columns that [UpcomingSession.objects.create(...)] does not name. *)
Definition locate_session (blank : UpcomingSession.t) (now : datetime)
    (u : user_id) (session_id : positive) (db : DB)
    : option UpcomingSession.t * DB :=
  match find_session_by_id db u session_id with
  | Some s => (Some s, db)
  | None =>
      match chats db !! session_id with
      | None => (None, db)
      | Some chat =>
          if (opt_user_eqb (Chat.user chat) (Some u)
              || opt_user_eqb (Chat.counsellor chat) (Some u))
             && is_Some_b (Chat.user chat) && is_Some_b (Chat.counsellor chat)
          then
            match startable_session_for_pair db chat with
            | Some s => (Some s, db)
            | None =>
                let s :=
                  UpcomingSession.mk (next_session_id db) (Chat.user chat)
                    (Chat.counsellor chat) now UpcomingSession.scheduled
                    (UpcomingSession.is_confirmed blank)
                    (UpcomingSession.actual_start_time blank)
                    (UpcomingSession.actual_end_time blank) in
                (Some s, set_sessions (sessions db ++ [s]) db)
            end
          else (None, db)
      end
  end.

(** [SessionStartView.post(request, session_id)] for [request.user = u]. *)
Definition SessionStartView_post (blank : UpcomingSession.t) (now : datetime)
    (u : user_id) (session_id : positive) (db : DB) : start_response * DB :=
  let '(session, db) := locate_session blank now u session_id db in
  match session with
  | None => (StartNotFound, db)
  | Some s => start_session now s db
  end.

(** Session ids are a primary key: two rows with one id are one row. *)
Definition session_ids_unique (l : list UpcomingSession.t) : Prop :=
  forall a b, a ∈ l -> b ∈ l -> UpcomingSession.id a = UpcomingSession.id b -> a = b.

(** ** Joining and leaving a room  ([ChatConsumer.connect], [disconnect]) *)

(** The channel layer: the channels in each group [chat_<id>] and in
    the group [counselor_queue]. *)
Record Layer := mkLayer {
  rooms : gmap positive (gset positive);
  counselor_queue : gset positive
}.

Definition room (layer : Layer) (chat_id : positive) : gset positive :=
  default ∅ (rooms layer !! chat_id).

(** [channel_layer.group_add(room_group_name, channel_name)] *)
Definition room_add (chat_id channel : positive) (layer : Layer) : Layer :=
  mkLayer (<[chat_id := {[channel]} ∪ room layer chat_id]> (rooms layer))
    (counselor_queue layer).

(** [channel_layer.group_discard(room_group_name, channel_name)] *)
Definition room_discard (chat_id channel : positive) (layer : Layer) : Layer :=
  mkLayer (<[chat_id := room layer chat_id ∖ {[channel]}]> (rooms layer))
    (counselor_queue layer).

Definition queue_add (channel : positive) (layer : Layer) : Layer :=
  mkLayer (rooms layer) ({[channel]} ∪ counselor_queue layer).

Definition queue_discard (channel : positive) (layer : Layer) : Layer :=
  mkLayer (rooms layer) (counselor_queue layer ∖ {[channel]}).

(** [is_counselor(user)]: [hasattr(user, 'counsellorprofile')] *)
Definition is_counselor (db : DB) (u : user_id) : bool :=
  bool_decide (u ∈ counsellor_users db).

(** [connect]: [scope_user] is [None] for an anonymous socket.  The
    result is the consumer when the socket is accepted, [None] when it
    is closed. *)
Definition connect (db : DB) (chat_id : positive) (scope_user : option user_id)
    (channel : positive) (layer : Layer) : option Consumer * Layer :=
  match scope_user with
  | None => (None, layer)
  | Some user =>
      match get_chat_and_check_access db user chat_id with
      | None => (None, layer)
      | Some (chat, is_user_sender) =>
          let layer := room_add chat_id channel layer in
          let layer :=
            if is_counselor db user then queue_add channel layer else layer in
          (Some (mkConsumer chat_id user (Some chat) is_user_sender), layer)
      end
  end.

(** [disconnect] *)
Definition disconnect (db : DB) (chat_id : positive) (scope_user : option user_id)
    (channel : positive) (layer : Layer) : Layer :=
  let layer := room_discard chat_id channel layer in
  match scope_user with
  | Some user =>
      if is_counselor db user then queue_discard channel layer else layer
  | None => layer
  end.

(** * Properties of the billing engine *)

Lemma Status_eqb_eq a b : Status_eqb a b = true <-> a = b.
Proof. by destruct a, b. Qed.

Lemma Status_eqb_neq a b : Status_eqb a b = false <-> a <> b.
Proof. by destruct a, b. Qed.

Lemma opt_user_eqb_refl a : opt_user_eqb a a = true.
Proof. unfold opt_user_eqb. by apply bool_decide_eq_true_2. Qed.

Lemma opt_user_eqb_eq a b : opt_user_eqb a b = true <-> a = b.
Proof. unfold opt_user_eqb. apply bool_decide_eq_true. Qed.

Lemma opt_user_eqb_neq a b : a <> b -> opt_user_eqb a b = false.
Proof. unfold opt_user_eqb. apply bool_decide_eq_false_2. Qed.

Section Ceiling.

Lemma ceil_minutes_bounds (d : Z) :
  (ceil_minutes d - 1) * 60000000 < d <= ceil_minutes d * 60000000.
Proof.
  unfold ceil_minutes.
  pose proof (Z.div_mod (- d) 60000000 ltac:(lia)) as Hdm.
  pose proof (Z.mod_pos_bound (- d) 60000000 ltac:(lia)) as Hb.
  lia.
Qed.

Lemma ceil_minutes_pos (d : Z) : 0 < d -> 1 <= ceil_minutes d.
Proof. intros Hd. pose proof (ceil_minutes_bounds d). nia. Qed.

Lemma ceil_minutes_unique (d r : Z) :
  (r - 1) * 60000000 < d <= r * 60000000 -> ceil_minutes d = r.
Proof. intros Hr. pose proof (ceil_minutes_bounds d). nia. Qed.

End Ceiling.

Lemma duration_unstarted now chat :
  Chat.started_at chat = None -> calculate_chat_duration_minutes now chat = 0.
Proof. unfold calculate_chat_duration_minutes. by intros ->. Qed.

Lemma duration_not_after now chat s :
  Chat.started_at chat = Some s -> end_time now chat <= s ->
  calculate_chat_duration_minutes now chat = 0.
Proof.
  unfold calculate_chat_duration_minutes, end_time. intros -> Hle.
  set (e := match Chat.ended_at chat with Some e => e | None => now end) in *.
  destruct (Z.leb_spec0 e s); [done|lia].
Qed.

Lemma duration_running now chat s :
  Chat.started_at chat = Some s -> s < end_time now chat ->
  calculate_chat_duration_minutes now chat = ceil_minutes (end_time now chat - s).
Proof.
  unfold calculate_chat_duration_minutes, end_time. intros -> Hlt.
  set (e := match Chat.ended_at chat with Some e => e | None => now end) in *.
  destruct (Z.leb_spec0 e s); [lia|].
  pose proof (ceil_minutes_pos (e - s) ltac:(lia)) as Hpos.
  destruct (Z.eqb_spec (ceil_minutes (e - s)) 0); [lia|]. done.
Qed.

Lemma duration_nonneg now chat : 0 <= calculate_chat_duration_minutes now chat.
Proof.
  destruct (Chat.started_at chat) as [s|] eqn:Hs.
  - destruct (Z.lt_ge_cases s (end_time now chat)) as [Hlt|Hge].
    + rewrite (duration_running _ _ _ Hs Hlt).
      pose proof (ceil_minutes_pos (end_time now chat - s)). lia.
    + rewrite (duration_not_after _ _ _ Hs); lia.
  - rewrite duration_unstarted; [lia|done].
Qed.

Lemma billing_is_duration now chat :
  calculate_chat_billing now chat = calculate_chat_duration_minutes now chat.
Proof. unfold calculate_chat_billing, CHAT_RATE_PER_MINUTE. lia. Qed.

(** ** The store under [update_chat] and [save] *)

Lemma update_chat_wallet cid f db :
  wallet_minutes (update_chat cid f db) = wallet_minutes db.
Proof. done. Qed.

Lemma update_chat_lookup cid f db :
  chats (update_chat cid f db) !! cid = f <$> chats db !! cid.
Proof. unfold update_chat; simpl. by rewrite lookup_alter_eq. Qed.

Lemma update_chat_lookup_ne cid k f db :
  cid <> k -> chats (update_chat cid f db) !! k = chats db !! k.
Proof. intros Hne. unfold update_chat; simpl. by rewrite lookup_alter_ne. Qed.

Lemma Chat_save_fields_wallet now obj fs db :
  wallet_minutes (Chat_save_fields now obj fs db) = wallet_minutes db.
Proof. done. Qed.

(** ** Wallet deduction *)

Lemma deduct_chats db chat amt :
  chats (deduct_chat_billing db chat amt).2 = chats db.
Proof.
  unfold deduct_chat_billing.
  destruct (Chat.user chat) as [u|]; [|done].
  destruct (amt <=? 0); [done|].
  destruct (wallet_minutes db !! u) as [w|]; simpl;
    by destruct (_ <? amt).
Qed.

Lemma deduct_insufficient db chat amt u w :
  Chat.user chat = Some u -> wallet_minutes db !! u = Some w ->
  0 <= w -> w < amt ->
  deduct_chat_billing db chat amt = (false, db).
Proof.
  intros Hu Hw Hnn Hlt. unfold deduct_chat_billing. rewrite Hu, Hw.
  destruct (Z.leb_spec0 amt 0); [lia|].
  by destruct (Z.ltb_spec0 w amt); [|lia].
Qed.

Lemma deduct_sufficient db chat amt u w :
  Chat.user chat = Some u -> wallet_minutes db !! u = Some w ->
  0 < amt -> amt <= w ->
  deduct_chat_billing db chat amt
  = (true, set_wallet_minutes (<[u := w - amt]> (wallet_minutes db)) db).
Proof.
  intros Hu Hw Hpos Hle. unfold deduct_chat_billing. rewrite Hu, Hw.
  destruct (Z.leb_spec0 amt 0); [lia|].
  by destruct (Z.ltb_spec0 w amt); [lia|].
Qed.

Lemma deduct_no_profile db chat amt u :
  Chat.user chat = Some u -> wallet_minutes db !! u = None -> 0 < amt ->
  deduct_chat_billing db chat amt
  = (false, set_wallet_minutes (<[u := 0]> (wallet_minutes db)) db).
Proof.
  intros Hu Hw Hpos. unfold deduct_chat_billing. rewrite Hu, Hw.
  destruct (Z.leb_spec0 amt 0); [lia|].
  by destruct (Z.ltb_spec0 0 amt); [|lia].
Qed.

Lemma deduct_nonneg db chat amt :
  wallets_nonneg db -> wallets_nonneg (deduct_chat_billing db chat amt).2.
Proof.
  intros Hnn. unfold deduct_chat_billing.
  destruct (Chat.user chat) as [u|]; [|done].
  destruct (Z.leb_spec0 amt 0); [done|].
  destruct (wallet_minutes db !! u) as [w|] eqn:Hw.
  - destruct (Z.ltb_spec0 w amt); [done|].
    unfold wallets_nonneg in *; simpl.
    intros u' w'. destruct (decide (u = u')) as [->|Hne].
    + rewrite lookup_insert_eq. intros [= <-]. specialize (Hnn _ _ Hw). lia.
    + rewrite lookup_insert_ne by done. apply Hnn.
  - destruct (Z.ltb_spec0 0 amt); [|lia].
    unfold wallets_nonneg in *; simpl.
    intros u' w'. destruct (decide (u = u')) as [->|Hne].
    + rewrite lookup_insert_eq. by intros [= <-].
    + rewrite lookup_insert_ne by done. apply Hnn.
Qed.

Lemma deduct_failed_kept db chat amt :
  (deduct_chat_billing db chat amt).1 = false ->
  wallets_kept db (deduct_chat_billing db chat amt).2.
Proof.
  unfold deduct_chat_billing, wallets_kept.
  destruct (Chat.user chat) as [u|]; [|done].
  destruct (Z.leb_spec0 amt 0); [done|].
  destruct (wallet_minutes db !! u) as [w|] eqn:Hw.
  - by destruct (Z.ltb_spec0 w amt).
  - destruct (Z.ltb_spec0 0 amt); [|lia]. simpl. intros _ u' w' Hu'.
    rewrite lookup_insert_ne; [done|]. intros ->. congruence.
Qed.

(** A debit happens only in the sufficient-balance branch: whenever a
    wallet differs afterwards, the call succeeded, the wallet is the
    requester's, it held at least the amount, and exactly the amount left. *)
Lemma deduct_changes_only_when_covered db chat amt u w w' :
  wallet_minutes db !! u = Some w ->
  wallet_minutes (deduct_chat_billing db chat amt).2 !! u = Some w' ->
  w' <> w ->
  (deduct_chat_billing db chat amt).1 = true
  /\ Chat.user chat = Some u /\ 0 < amt <= w /\ w' = w - amt.
Proof.
  unfold deduct_chat_billing. intros Hw.
  destruct (Chat.user chat) as [u0|]; [|simpl; congruence].
  destruct (Z.leb_spec0 amt 0); [simpl; congruence|].
  destruct (wallet_minutes db !! u0) as [w0|] eqn:Hw0.
  - destruct (Z.ltb_spec0 w0 amt); [simpl; congruence|]. simpl.
    destruct (decide (u0 = u)) as [->|Hne].
    + rewrite lookup_insert_eq. intros [= <-] Hd.
      assert (w0 = w) as -> by congruence. repeat split; lia.
    + rewrite lookup_insert_ne by done. congruence.
  - destruct (Z.ltb_spec0 0 amt); [|lia]. simpl.
    destruct (decide (u0 = u)) as [->|Hne]; [congruence|].
    rewrite lookup_insert_ne by done. congruence.
Qed.

(** ** Settlement *)

Lemma duration_ended_now now chat :
  Chat.ended_at chat = None ->
  calculate_chat_duration_minutes now (Chat.set_ended_at (Some now) chat)
  = calculate_chat_duration_minutes now chat.
Proof.
  intros He. destruct (Chat.started_at chat) as [s|] eqn:Hs.
  - assert (end_time now (Chat.set_ended_at (Some now) chat) = end_time now chat)
      as Hend by (unfold end_time; simpl; by rewrite He).
    destruct (Z.lt_ge_cases s (end_time now chat)) as [Hlt|Hge].
    + rewrite (duration_running now chat s Hs Hlt).
      rewrite (duration_running now (Chat.set_ended_at (Some now) chat) s);
        [by rewrite Hend | done | by rewrite Hend].
    + rewrite (duration_not_after now chat s Hs Hge).
      apply (duration_not_after _ _ s); [done | by rewrite Hend].
  - by rewrite !duration_unstarted.
Qed.

Lemma billing_positive_started now chat :
  0 < calculate_chat_billing now chat -> is_Some (Chat.started_at chat).
Proof.
  rewrite billing_is_duration. destruct (Chat.started_at chat) eqn:Hs; [eauto|].
  rewrite duration_unstarted by done. lia.
Qed.

Lemma closed_at_billing now chat :
  calculate_chat_billing now (closed_at now chat) = calculate_chat_billing now chat.
Proof.
  unfold closed_at. destruct (Chat.ended_at chat) eqn:He; [done|].
  rewrite !billing_is_duration. by apply duration_ended_now.
Qed.

Lemma closed_at_duration now chat :
  calculate_chat_duration_minutes now (closed_at now chat)
  = calculate_chat_duration_minutes now chat.
Proof. rewrite <- !billing_is_duration. apply closed_at_billing. Qed.

(** Settlement of a started, not yet billed chat, spelled out: the whole
    amount owed is handed to [deduct_chat_billing]. *)
Lemma settle_started now db cid chat s :
  chats db !! cid = Some chat ->
  Chat.is_billed chat = false ->
  Chat.started_at chat = Some s ->
  let owed := calculate_chat_billing now chat in
  let minutes := calculate_chat_duration_minutes now chat in
  let db1 :=
    match Chat.ended_at chat with
    | Some _ => db
    | None => update_chat cid (Chat.set_ended_at (Some now)) db
    end in
  let d := if 0 <? owed
           then deduct_chat_billing db1 (closed_at now chat) owed
           else (true, db1) in
  calculate_and_deduct_chat_billing now db cid
  = if d.1 || (owed =? 0)
    then (true, update_chat cid (finalize_billing now minutes owed) d.2)
    else (false, update_chat cid (record_billing minutes owed) d.2).
Proof.
  intros Hc Hb Hs. simpl.
  unfold calculate_and_deduct_chat_billing. rewrite Hc, Hb, Hs.
  pose proof (closed_at_billing now chat) as Hbill.
  pose proof (closed_at_duration now chat) as Hdur.
  unfold closed_at in *.
  destruct (Chat.ended_at chat) as [e|] eqn:He.
  - destruct (0 <? calculate_chat_billing now chat).
    + by destruct (deduct_chat_billing _ _ _) as [ok db'].
    + done.
  - rewrite Hbill, Hdur.
    destruct (0 <? calculate_chat_billing now chat).
    + by destruct (deduct_chat_billing _ _ _) as [ok db'].
    + done.
Qed.

Lemma settle_nonneg now db cid :
  wallets_nonneg db ->
  wallets_nonneg (calculate_and_deduct_chat_billing now db cid).2.
Proof.
  intros Hnn. destruct (chats db !! cid) as [chat|] eqn:Hc;
    [|by unfold calculate_and_deduct_chat_billing; rewrite Hc].
  destruct (Chat.is_billed chat) eqn:Hb;
    [by unfold calculate_and_deduct_chat_billing; rewrite Hc, Hb|].
  destruct (Chat.started_at chat) as [s|] eqn:Hs;
    [|by unfold calculate_and_deduct_chat_billing; rewrite Hc, Hb, Hs].
  rewrite (settle_started now db cid chat s Hc Hb Hs).
  set (db1 := match Chat.ended_at chat with
              | Some _ => db
              | None => update_chat cid (Chat.set_ended_at (Some now)) db
              end).
  assert (wallets_nonneg db1) as Hnn1 by (subst db1; by destruct (Chat.ended_at chat)).
  assert (wallets_nonneg
            (if 0 <? calculate_chat_billing now chat
             then deduct_chat_billing db1 (closed_at now chat)
                    (calculate_chat_billing now chat)
             else (true, db1)).2) as Hd.
  { destruct (0 <? _); [by apply deduct_nonneg | done]. }
  by destruct (_ || _).
Qed.

(** C8. When the requester's wallet holds less than the amount owed,
    settlement of a not yet billed session charges nothing, leaves
    [is_billed] false, returns [False] to the caller, and leaves the
    session's status as it was (a session closed as completed stays
    completed). *)
Theorem settle_insufficient_balance now db cid chat u :
  chats db !! cid = Some chat ->
  Chat.is_billed chat = false ->
  Chat.user chat = Some u ->
  0 <= balance db u < calculate_chat_billing now chat ->
  let r := calculate_and_deduct_chat_billing now db cid in
  r.1 = false
  /\ balance r.2 u = balance db u
  /\ wallets_kept db r.2
  /\ exists chat',
       chats r.2 !! cid = Some chat'
       /\ Chat.is_billed chat' = false
       /\ Chat.status chat' = Chat.status chat.
Proof.
  intros Hc Hb Hu [Hnn Hlt]. simpl.
  destruct (billing_positive_started now chat ltac:(lia)) as [s Hs].
  rewrite (settle_started now db cid chat s Hc Hb Hs).
  set (owed := calculate_chat_billing now chat) in *.
  set (db1 := match Chat.ended_at chat with
              | Some _ => db
              | None => update_chat cid (Chat.set_ended_at (Some now)) db
              end).
  assert (wallet_minutes db1 = wallet_minutes db) as Hw1
    by (subst db1; by destruct (Chat.ended_at chat)).
  assert (chats db1 !! cid = Some (closed_at now chat)) as Hc1.
  { subst db1. unfold closed_at. destruct (Chat.ended_at chat); [done|].
    by rewrite update_chat_lookup, Hc. }
  assert (Chat.user (closed_at now chat) = Some u) as Hu1
    by (unfold closed_at; by destruct (Chat.ended_at chat)).
  destruct (Z.ltb_spec0 0 owed); [|lia].
  destruct (Z.eqb_spec owed 0); [lia|].
  unfold balance in *.
  destruct (wallet_minutes db !! u) as [w|] eqn:Hw; simpl in Hnn, Hlt.
  - rewrite (deduct_insufficient db1 _ owed u w Hu1) by (rewrite ?Hw1; done || lia).
    cbn [fst snd orb]. rewrite update_chat_wallet, Hw1, Hw.
    repeat split; [by intros u' w'; rewrite update_chat_wallet, Hw1|].
    rewrite update_chat_lookup, Hc1. eexists; split; [done|].
    unfold closed_at. by destruct (Chat.ended_at chat).
  - rewrite (deduct_no_profile db1 _ owed u Hu1) by (rewrite ?Hw1; done || lia).
    cbn [fst snd orb]. rewrite update_chat_wallet. cbn [wallet_minutes set_wallet_minutes].
    rewrite Hw1, lookup_insert_eq. repeat split.
    + intros u' w' Hu'. rewrite update_chat_wallet.
      cbn [wallet_minutes set_wallet_minutes].
      rewrite lookup_insert_ne; [done|]. intros ->. congruence.
    + rewrite update_chat_lookup. cbn [chats set_wallet_minutes].
      rewrite Hc1. eexists; split; [done|].
      unfold closed_at. by destruct (Chat.ended_at chat).
Qed.

Lemma settle_insufficient_balance_witness :
  let r := calculate_and_deduct_chat_billing (timedelta_minutes 3) db_empty_wallet 1 in
  calculate_chat_billing (timedelta_minutes 3) chat_closed_3min = 3
  /\ r.1 = false
  /\ balance r.2 7%positive = 0
  /\ exists chat',
       chats r.2 !! 1%positive = Some chat'
       /\ Chat.is_billed chat' = false
       /\ Chat.status chat' = completed.
Proof.
  pose proof (settle_insufficient_balance (timedelta_minutes 3) db_empty_wallet 1%positive chat_closed_3min 7%positive
                eq_refl eq_refl eq_refl) as H.
  destruct H as (H1 & H2 & _ & H4).
  - vm_compute. split; [discriminate | reflexivity].
  - split; [reflexivity|]. split; [exact H1|]. split; [exact H2|]. exact H4.
Defined.

(** C10. Settlement of a session that never started ([started_at] null)
    debits nothing and returns success; the session is billed afterwards,
    and when it was not billed before, the call stamps it
    [is_billed = true], [billed_amount = 0], [duration_minutes = 0].
    Any later settlement of it is a no-op, so it is out of the retries. *)
Theorem settle_never_started now db cid chat :
  chats db !! cid = Some chat ->
  Chat.started_at chat = None ->
  let r := calculate_and_deduct_chat_billing now db cid in
  r.1 = true
  /\ wallet_minutes r.2 = wallet_minutes db
  /\ (exists chat',
        chats r.2 !! cid = Some chat'
        /\ Chat.is_billed chat' = true
        /\ (Chat.is_billed chat = false ->
            Chat.billed_amount chat' = 0
            /\ Chat.duration_minutes chat' = 0
            /\ Chat.billing_processed_at chat' = Some now))
  /\ forall later, calculate_and_deduct_chat_billing later r.2 cid = (true, r.2).
Proof.
  intros Hc Hs. cbn zeta.
  destruct (Chat.is_billed chat) eqn:Hb.
  - assert (calculate_and_deduct_chat_billing now db cid = (true, db)) as ->
      by (unfold calculate_and_deduct_chat_billing; by rewrite Hc, Hb).
    cbn [fst snd]. repeat split.
    + exists chat. by rewrite Hb.
    + intros later. unfold calculate_and_deduct_chat_billing. by rewrite Hc, Hb.
  - assert (calculate_and_deduct_chat_billing now db cid
            = (true, update_chat cid (mark_billed_zero now) db)) as ->
      by (unfold calculate_and_deduct_chat_billing; by rewrite Hc, Hb, Hs).
    cbn [fst snd]. repeat split.
    + exists (mark_billed_zero now chat). by rewrite update_chat_lookup, Hc.
    + intros later. unfold calculate_and_deduct_chat_billing.
      by rewrite update_chat_lookup, Hc.
Qed.

Lemma settle_never_started_witness :
  let r := calculate_and_deduct_chat_billing 1000 db_never_started 1 in
  r.1 = true
  /\ wallet_minutes r.2 !! 7%positive = Some 50
  /\ exists chat',
       chats r.2 !! 1%positive = Some chat'
       /\ Chat.is_billed chat' = true
       /\ Chat.billed_amount chat' = 0
       /\ Chat.duration_minutes chat' = 0.
Proof.
  destruct (settle_never_started 1000 db_never_started 1%positive chat_never_started eq_refl eq_refl)
    as (H1 & H2 & (chat' & Hc' & Hb' & Hz) & _).
  destruct (Hz eq_refl) as (Ha & Hd & _).
  split; [exact H1|]. split; [by rewrite H2|].
  exists chat'. by repeat split.
Defined.

(** ** Periodic accrual *)

(** One accrual step when the wallet cannot, and when it can, cover the
    increment [current_billing - already_billed]. *)
Lemma process_chat_insufficient now min_duration db chat u w :
  Chat.user chat = Some u ->
  wallet_minutes db !! u = Some w ->
  min_duration <= calculate_chat_duration_minutes now chat ->
  let amount := calculate_chat_billing now chat - or_zero (Chat.billed_amount chat) in
  0 < amount -> w < amount ->
  process_chat now false min_duration db chat = (acc_insufficient amount w, db).
Proof.
  intros Hu Hw Hmin amount Hpos Hlt. unfold process_chat.
  destruct (Z.ltb_spec0 (calculate_chat_duration_minutes now chat) min_duration);
    [lia|].
  fold amount. destruct (Z.ltb_spec0 0 amount); [|lia].
  rewrite Hu, Hw. by destruct (Z.leb_spec0 amount w); [lia|].
Qed.

Lemma process_chat_covered now min_duration db chat u w :
  Chat.user chat = Some u ->
  wallet_minutes db !! u = Some w ->
  min_duration <= calculate_chat_duration_minutes now chat ->
  let amount := calculate_chat_billing now chat - or_zero (Chat.billed_amount chat) in
  0 < amount -> amount <= w ->
  (process_chat now false min_duration db chat).1 = acc_deducted amount w
  /\ wallet_minutes (process_chat now false min_duration db chat).2
     = <[u := w - amount]> (wallet_minutes db).
Proof.
  intros Hu Hw Hmin amount Hpos Hle. unfold process_chat.
  destruct (Z.ltb_spec0 (calculate_chat_duration_minutes now chat) min_duration);
    [lia|].
  fold amount. destruct (Z.ltb_spec0 0 amount); [|lia].
  rewrite Hu, Hw. by destruct (Z.leb_spec0 amount w); [|lia].
Qed.

Lemma process_chat_nonneg now check_only min_duration db chat :
  wallets_nonneg db ->
  wallets_nonneg (process_chat now check_only min_duration db chat).2.
Proof.
  intros Hnn. unfold process_chat.
  destruct (_ <? min_duration); [done|].
  set (amount := calculate_chat_billing now chat - or_zero (Chat.billed_amount chat)).
  destruct (Z.ltb_spec0 0 amount); [|done].
  destruct (Chat.user chat) as [u|]; [|done].
  destruct check_only; [done|].
  destruct (wallet_minutes db !! u) as [w|] eqn:Hw; [|done].
  destruct (Z.leb_spec0 amount w); [|done].
  cbn [snd]. unfold wallets_nonneg in *.
  rewrite Chat_save_fields_wallet. cbn [wallet_minutes set_wallet_minutes].
  intros u' w'. destruct (decide (u = u')) as [->|Hne].
  - rewrite lookup_insert_eq. intros [= <-]. lia.
  - rewrite lookup_insert_ne by done. apply Hnn.
Qed.

Lemma handle_loop_nonneg now check_only min_duration cs db :
  wallets_nonneg db ->
  wallets_nonneg (handle_loop now check_only min_duration cs db).2.
Proof.
  revert db. induction cs as [|chat rest IH]; intros db Hnn; [done|].
  cbn [handle_loop].
  pose proof (process_chat_nonneg now check_only min_duration db chat Hnn) as H1.
  destruct (process_chat now check_only min_duration db chat) as [o db1].
  specialize (IH db1 H1).
  by destruct (handle_loop now check_only min_duration rest db1) as [os db2].
Qed.

(** C9. No billing operation drives a wallet negative.  From a store
    whose wallets are all non-negative: [deduct_chat_billing], one accrual
    step, a whole accrual run and settlement all end in such a store; a
    wallet that cannot cover the amount makes [deduct_chat_billing] return
    [False] and the accrual report "insufficient balance", the store
    unchanged in both; and whenever [deduct_chat_billing] does change a
    wallet, that wallet held at least the amount. *)
Theorem wallet_never_negative now check_only min_duration db chat amt cid :
  wallets_nonneg db ->
  wallets_nonneg (deduct_chat_billing db chat amt).2
  /\ wallets_nonneg (process_chat now check_only min_duration db chat).2
  /\ wallets_nonneg (handle now check_only min_duration db).2
  /\ wallets_nonneg (calculate_and_deduct_chat_billing now db cid).2
  /\ (forall u w, Chat.user chat = Some u -> wallet_minutes db !! u = Some w ->
        w < amt -> deduct_chat_billing db chat amt = (false, db))
  /\ (forall u w w', wallet_minutes db !! u = Some w ->
        wallet_minutes (deduct_chat_billing db chat amt).2 !! u = Some w' ->
        w' <> w ->
        (deduct_chat_billing db chat amt).1 = true /\ amt <= w /\ w' = w - amt)
  /\ (forall u w, Chat.user chat = Some u -> wallet_minutes db !! u = Some w ->
        let amount :=
          calculate_chat_billing now chat - or_zero (Chat.billed_amount chat) in
        min_duration <= calculate_chat_duration_minutes now chat ->
        0 < amount ->
        (w < amount ->
         process_chat now false min_duration db chat
         = (acc_insufficient amount w, db))
        /\ (amount <= w ->
            wallet_minutes (process_chat now false min_duration db chat).2
            = <[u := w - amount]> (wallet_minutes db))).
Proof.
  intros Hnn.
  split; [by apply deduct_nonneg|].
  split; [by apply process_chat_nonneg|].
  split; [by apply handle_loop_nonneg|].
  split; [by apply settle_nonneg|].
  split.
  { intros u w Hu Hw Hlt.
    apply (deduct_insufficient db chat amt u w Hu Hw (Hnn u w Hw) Hlt). }
  split.
  { intros u w w' Hw Hw' Hd.
    destruct (deduct_changes_only_when_covered db chat amt u w w' Hw Hw' Hd)
      as (? & ? & ? & ?). repeat split; [done|lia|done]. }
  intros u w Hu Hw amount Hmin Hpos. split.
  - intros Hlt. by apply (process_chat_insufficient now min_duration db chat u w).
  - intros Hle.
    by apply (process_chat_covered now min_duration db chat u w Hu Hw Hmin Hpos).
Qed.

Lemma wallet_never_negative_witness :
  wallets_nonneg db_running
  /\ wallets_nonneg (deduct_chat_billing db_running chat_running 101).2
  /\ deduct_chat_billing db_running chat_running 101 = (false, db_running)
  /\ wallets_nonneg (handle (timedelta_minutes 10) false 1 db_running).2.
Proof.
  assert (wallets_nonneg db_running) as Hnn.
  { intros u w. unfold db_running; cbn [wallet_minutes].
    destruct (decide (u = 7%positive)) as [->|Hne].
    - rewrite lookup_singleton_eq. intros [= <-]. lia.
    - rewrite lookup_singleton_ne by done. discriminate. }
  destruct (wallet_never_negative (timedelta_minutes 10) false 1 db_running chat_running
              101 1%positive Hnn) as (H1 & _ & H3 & _ & H5 & _).
  split; [exact Hnn|]. split; [exact H1|]. split; [|exact H3].
  apply (H5 7%positive 100); [reflexivity | reflexivity | lia].
Defined.

(** ** Elapsed minutes *)

(** Where the window is not empty the code computes the ceiling.
    [calculate_chat_duration_minutes] is 0 for a chat without
    [started_at]; when the end of the window ([ended_at], or now while it
    is unset) lies after [started_at], it is the ceiling of the elapsed
    time over one minute, hence at least 1 by rounding alone; a chat that
    ended thirty seconds after it started counts 1 minute and owes 1. *)
Theorem elapsed_minutes_ceiling now chat :
  (Chat.started_at chat = None -> calculate_chat_duration_minutes now chat = 0)
  /\ (forall s, Chat.started_at chat = Some s -> s < end_time now chat ->
        let r := calculate_chat_duration_minutes now chat in
        1 <= r
        /\ (r - 1) * timedelta_minutes 1 < end_time now chat - s
           <= r * timedelta_minutes 1)
  /\ (forall T, Chat.started_at chat = Some T ->
        Chat.ended_at chat = Some (T + timedelta_seconds 30) ->
        calculate_chat_duration_minutes now chat = 1
        /\ calculate_chat_billing now chat = 1).
Proof.
  split; [apply duration_unstarted|]. split.
  - intros s Hs Hlt r. subst r. rewrite (duration_running now chat s Hs Hlt).
    pose proof (ceil_minutes_bounds (end_time now chat - s)) as Hb.
    pose proof (ceil_minutes_pos (end_time now chat - s) ltac:(lia)) as Hp.
    unfold timedelta_minutes. lia.
  - intros T Hs He.
    assert (end_time now chat = T + timedelta_seconds 30) as Hend
      by (unfold end_time; by rewrite He).
    assert (calculate_chat_duration_minutes now chat = 1) as Hone.
    { rewrite (duration_running now chat T Hs)
        by (rewrite Hend; unfold timedelta_seconds; lia).
      apply ceil_minutes_unique. rewrite Hend. unfold timedelta_seconds. lia. }
    split; [done|]. by rewrite billing_is_duration.
Qed.

Lemma elapsed_minutes_ceiling_witness :
  calculate_chat_duration_minutes 0 chat_never_started = 0
  /\ 1 <= calculate_chat_duration_minutes 777 (chat_30s 100)
  /\ calculate_chat_duration_minutes 777 (chat_30s 100) = 1
  /\ calculate_chat_billing 777 (chat_30s 100) = 1.
Proof.
  destruct (elapsed_minutes_ceiling 0 chat_never_started) as (H0 & _ & _).
  destruct (elapsed_minutes_ceiling 777 (chat_30s 100)) as (_ & Hc & H30).
  split; [exact (H0 eq_refl)|].
  split.
  - apply (Hc 100 eq_refl). vm_compute. reflexivity.
  - exact (H30 100 eq_refl eq_refl).
Defined.

(** C4, the code against the claim.  The claim, like the docstring
    ("rounded up to nearest minute, minimum 1 minute") and the comment
    "Ensure minimum 1 minute billing for any chat that started and
    ended", promises at least 1 once [started_at] and [ended_at] are both
    set.  The guard [if end_time <= chat.started_at: return 0] comes
    first: a chat whose [ended_at] is not later than its [started_at]
    counts 0 minutes and owes 0, whatever the clock says.  The branch that
    was to raise a 0 to 1 is only reached with a positive window, whose
    ceiling is already at least 1 (see [elapsed_minutes_ceiling]), so it
    never fires. *)
Theorem elapsed_minutes_no_minimum now chat s e :
  Chat.started_at chat = Some s ->
  Chat.ended_at chat = Some e ->
  e <= s ->
  calculate_chat_duration_minutes now chat = 0
  /\ calculate_chat_billing now chat = 0
  /\ ~ (1 <= calculate_chat_duration_minutes now chat).
Proof.
  intros Hs He Hle.
  assert (calculate_chat_duration_minutes now chat = 0) as H0.
  { unfold calculate_chat_duration_minutes. rewrite Hs, He.
    by destruct (Z.leb_spec0 e s). }
  split; [done|]. split; [by rewrite billing_is_duration|].
  rewrite H0. lia.
Qed.

Lemma elapsed_minutes_no_minimum_witness :
  Chat.started_at chat_same_instant = Some 5
  /\ Chat.ended_at chat_same_instant = Some 5
  /\ calculate_chat_duration_minutes 9 chat_same_instant = 0
  /\ calculate_chat_billing 9 chat_same_instant = 0.
Proof.
  destruct (elapsed_minutes_no_minimum 9 chat_same_instant 5 5) as (H0 & H1 & _).
  - reflexivity.
  - reflexivity.
  - lia.
  - split; [reflexivity|]. split; [reflexivity|]. split; [exact H0|exact H1].
Defined.

(** ** Settlement after accrual *)

(** Settlement hands the whole amount owed to the wallet, whatever
    [billed_amount] already records. *)
Lemma settle_charges_whole_amount now db cid chat u w s :
  chats db !! cid = Some chat ->
  Chat.is_billed chat = false ->
  Chat.started_at chat = Some s ->
  Chat.user chat = Some u ->
  wallet_minutes db !! u = Some w ->
  0 < calculate_chat_billing now chat <= w ->
  let r := calculate_and_deduct_chat_billing now db cid in
  r.1 = true
  /\ wallet_minutes r.2 !! u = Some (w - calculate_chat_billing now chat).
Proof.
  intros Hc Hb Hs Hu Hw [Hpos Hle]. cbn zeta.
  rewrite (settle_started now db cid chat s Hc Hb Hs).
  set (owed := calculate_chat_billing now chat) in *.
  set (db1 := match Chat.ended_at chat with
              | Some _ => db
              | None => update_chat cid (Chat.set_ended_at (Some now)) db
              end).
  assert (wallet_minutes db1 = wallet_minutes db) as Hw1
    by (subst db1; by destruct (Chat.ended_at chat)).
  assert (Chat.user (closed_at now chat) = Some u) as Hu1
    by (unfold closed_at; by destruct (Chat.ended_at chat)).
  destruct (Z.ltb_spec0 0 owed); [|lia].
  rewrite (deduct_sufficient db1 _ owed u w Hu1) by (rewrite ?Hw1; done || lia).
  cbn [fst snd orb]. split; [done|].
  rewrite update_chat_wallet. cbn [wallet_minutes set_wallet_minutes].
  by rewrite lookup_insert_eq.
Qed.

(** C1, the code against the claim.  Ten minutes into an active chat the
    accrual run charges 10 and records [billed_amount = 10]; the chat is
    then ended at that same instant.  The amount owed is 10, of which 10
    is already charged, so the increment is 0; settlement debits 10 again
    and the wallet goes 100, 90, 80. *)
Theorem settlement_recharges_accrued_minutes :
  let t := timedelta_minutes 10 in
  let db1 := (handle t false 1 db_running).2 in
  let db2 := (SessionEndView_post false t 7%positive 1%positive db1).2 in
  wallet_minutes db_running !! 7%positive = Some 100
  /\ wallet_minutes db1 !! 7%positive = Some 90
  /\ Chat.billed_amount <$> chats db1 !! 1%positive = Some 10
  /\ (calculate_chat_billing t <$> chats db1 !! 1%positive) = Some 10
  /\ Chat.status <$> chats db2 !! 1%positive = Some completed
  /\ Chat.is_billed <$> chats db2 !! 1%positive = Some true
  /\ Chat.billed_amount <$> chats db2 !! 1%positive = Some 10
  /\ wallet_minutes db2 !! 7%positive = Some 80.
Proof. vm_compute. repeat split. Qed.

(** * Properties of message submission *)

Lemma Chat_save_fields_lookup now obj fs db :
  chats (Chat_save_fields now obj fs db) !! Chat.id obj
  = (fun row => foldl (Chat.copy_field now obj) row fs) <$> chats db !! Chat.id obj.
Proof. unfold Chat_save_fields. apply update_chat_lookup. Qed.

Lemma Chat_save_fields_lookup_at now obj fs db k :
  Chat.id obj = k ->
  chats (Chat_save_fields now obj fs db) !! k
  = (fun row => foldl (Chat.copy_field now obj) row fs) <$> chats db !! k.
Proof. intros <-. apply Chat_save_fields_lookup. Qed.

Lemma auto_start_session_chats now chat db :
  chats (auto_start_session now chat db) = chats db.
Proof.
  unfold auto_start_session. destruct (scheduled_session_for db chat) as [s|]; [|done].
  by destruct (UpcomingSession.actual_start_time s).
Qed.

Lemma auto_start_session_wallet now chat db :
  wallet_minutes (auto_start_session now chat db) = wallet_minutes db.
Proof.
  unfold auto_start_session. destruct (scheduled_session_for db chat) as [s|]; [|done].
  by destruct (UpcomingSession.actual_start_time s).
Qed.

Lemma check_chat_wallet_balance_chats dwm db u :
  chats (check_chat_wallet_balance dwm db u).2 = chats db.
Proof.
  unfold check_chat_wallet_balance. destruct u as [u|]; [|done].
  destruct (wallet_minutes db !! u); cbn; by destruct (_ <? 1).
Qed.

Lemma check_chat_wallet_balance_counsellors dwm db u :
  counsellor_users (check_chat_wallet_balance dwm db u).2 = counsellor_users db.
Proof.
  unfold check_chat_wallet_balance. destruct u as [u|]; [|done].
  destruct (wallet_minutes db !! u); cbn; by destruct (_ <? 1).
Qed.

(** A requester message on an active chat changes nothing but the
    instance's [last_user_activity]: the one-hour test reads the value
    that was just set to [now], so it never holds, and nothing is saved. *)
Lemma user_branch_active dwm now chat db :
  Chat.status chat = active ->
  user_branch dwm now chat db
  = (Chat.set_last_user_activity (Some now) chat, false, db).
Proof.
  intros Hst. unfold user_branch.
  destruct chat as [i u c st cr sa ea la ua ba dm ib bp]. simpl in *. subst st.
  unfold timedelta_hours.
  destruct la as [prev|]; simpl.
  - destruct (prev <? now - timedelta_minutes 5); simpl;
      by destruct (Z.ltb_spec0 now (now - 1 * 3600000000)); [lia|].
  - by destruct (Z.ltb_spec0 now (now - 1 * 3600000000)); [lia|].
Qed.

(** The same for an inactive chat whose requester returns after more than
    five minutes: the instance is switched to active, but the activation
    block is then skipped, so the flag stays false and nothing is saved. *)
Lemma user_branch_inactive_stale dwm now chat db prev :
  Chat.status chat = inactive ->
  Chat.last_user_activity chat = Some prev ->
  prev < now - timedelta_minutes 5 ->
  user_branch dwm now chat db
  = (Chat.set_ended_at None
       (Chat.set_status active (Chat.set_last_user_activity (Some now) chat)),
     false, db).
Proof.
  intros Hst Hla Hlt. unfold user_branch.
  destruct chat as [i u c st cr sa ea la ua ba dm ib bp]. simpl in *. subst st la.
  destruct (Z.ltb_spec0 prev (now - timedelta_minutes 5)); [|lia]. simpl.
  unfold timedelta_hours.
  by destruct (Z.ltb_spec0 now (now - 1 * 3600000000)); [lia|].
Qed.

Lemma save_message_fresh dwm now self db text cmid chat :
  chats db !! self_chat_id self = Some chat ->
  is_duplicate now db (Chat.id chat) (self_user self) text cmid = false ->
  save_message dwm now self db text cmid
  = let '(chat', act, db1) :=
      if opt_user_eqb (Chat.user chat) (Some (self_user self))
      then user_branch dwm now chat db
      else let '(chat', db1) := counsellor_branch now chat db in (chat', false, db1) in
    let '(m, db2) :=
      create_message now db1 (Chat.id chat) (self_user self) text cmid in
    (Saved m act, set_self_chat (Some chat') self, db2).
Proof.
  intros Hc Hdup. unfold save_message, is_duplicate in *. rewrite Hc.
  apply orb_false_iff in Hdup as [H1 H2]. by rewrite H1, H2.
Qed.

Lemma save_message_duplicate dwm now self db text cmid chat :
  chats db !! self_chat_id self = Some chat ->
  is_duplicate now db (Chat.id chat) (self_user self) text cmid = true ->
  save_message dwm now self db text cmid = (Duplicate, self, db).
Proof.
  intros Hc Hdup. unfold save_message, is_duplicate in *. rewrite Hc.
  apply orb_true_iff in Hdup as [H1|H2].
  - by rewrite H1.
  - rewrite H2. by destruct (truthy cmid && is_Some_b _).
Qed.

(** No requester message ever closes an active chat: whatever the age of
    the last activity, the stored row is left as it was and the message
    is appended to the still active chat. *)
Lemma active_chat_never_auto_closed dwm now self db text cmid chat :
  chats db !! self_chat_id self = Some chat ->
  Chat.user chat = Some (self_user self) ->
  Chat.status chat = active ->
  let r := save_message dwm now self db text cmid in
  chats r.2 = chats db /\ wallet_minutes r.2 = wallet_minutes db.
Proof.
  intros Hc Hu Hst. cbn zeta.
  destruct (is_duplicate now db (Chat.id chat) (self_user self) text cmid) eqn:Hd.
  - by rewrite (save_message_duplicate dwm now self db text cmid chat Hc Hd).
  - rewrite (save_message_fresh dwm now self db text cmid chat Hc Hd).
    rewrite Hu, opt_user_eqb_refl.
    by rewrite (user_branch_active dwm now chat db Hst).
Qed.

(** C2, the code against the claim.  The chat is active and its requester
    was last heard 61 minutes ago; the requester sends a message.  The
    message is stored, but the chat is not closed: the stored row is
    untouched (still active, no [ended_at], not billed), no wallet moves,
    and the consumer's cached instance is active too. *)
Theorem stale_active_chat_is_not_closed dwm :
  let now := timedelta_minutes 61 in
  let r := save_message dwm now requester_conn db_running "hello" (Some "c1"%string) in
  Chat.status chat_running = active
  /\ Chat.last_user_activity chat_running = Some (now - timedelta_minutes 61)
  /\ r.1.1 = Saved (ChatMessage.mk 1 1 7%positive "hello" (Some "c1"%string) now) false
  /\ chats r.2 !! 1%positive = Some chat_running
  /\ wallet_minutes r.2 = wallet_minutes db_running
  /\ Chat.status <$> self_chat r.1.2 = Some active
  /\ Chat.ended_at <$> self_chat r.1.2 = Some None.
Proof. vm_compute. repeat split. Qed.

(** C7, the code against the claim.  The chat is inactive and its
    requester was last heard ten minutes ago; the requester sends a
    message.  [chat_was_activated] comes back false and the stored row
    stays inactive with its [ended_at]: only the instance in memory was
    switched to active, and it is never saved. *)
Theorem stale_inactive_chat_is_not_activated dwm :
  let now := timedelta_minutes 10 in
  let r := save_message dwm now requester_conn db_inactive "hello" (Some "c1"%string) in
  Chat.status chat_inactive = inactive
  /\ r.1.1 = Saved (ChatMessage.mk 1 1 7%positive "hello" (Some "c1"%string) now) false
  /\ chats r.2 !! 1%positive = Some chat_inactive
  /\ Chat.status <$> self_chat r.1.2 = Some active.
Proof. vm_compute. repeat split. Qed.

(** ** A counsellor is sending *)

Lemma create_message_chats now db cid sender text cmid :
  chats (create_message now db cid sender text cmid).2 = chats db.
Proof. done. Qed.

Lemma counsellor_branch_id now chat db :
  Chat.id (counsellor_branch now chat db).1 = Chat.id chat.
Proof.
  unfold counsellor_branch.
  destruct (Chat.last_user_activity chat) as [last|]; [|done].
  destruct (Status_eqb (Chat.status chat) active); [|done].
  destruct (last <? now - timedelta_minutes 5); [|done].
  destruct chat as [i u c st cr sa ea la ua ba dm ib bp].
  by destruct ea, sa.
Qed.

Lemma counsellor_branch_stale now chat db last :
  Chat.status chat = active ->
  Chat.last_user_activity chat = Some last ->
  last < now - timedelta_minutes 5 ->
  exists chat',
    counsellor_branch now chat db
    = (chat',
       Chat_save_fields now chat'
         [Chat.f_status; Chat.f_ended_at; Chat.f_started_at; Chat.f_updated_at] db)
    /\ Chat.id chat' = Chat.id chat
    /\ Chat.status chat' = inactive
    /\ Chat.ended_at chat'
       = Some (or_else (Chat.ended_at chat) (last + timedelta_minutes 5)).
Proof.
  intros Hst Hla Hlt. unfold counsellor_branch. rewrite Hla, Hst.
  cbn [Status_eqb].
  destruct (Z.ltb_spec0 last (now - timedelta_minutes 5)); [|lia].
  eexists. split; [reflexivity|].
  destruct chat as [i u c st cr sa ea la ua ba dm ib bp].
  by destruct ea, sa.
Qed.

Lemma counsellor_branch_not_activating now chat db k row :
  chats (counsellor_branch now chat db).2 !! k = Some row ->
  Chat.status row = active ->
  exists row0, chats db !! k = Some row0 /\ Chat.status row0 = active.
Proof.
  intros Hrow Hact.
  destruct (Chat.last_user_activity chat) as [last|] eqn:Hla;
    [|unfold counsellor_branch in Hrow; rewrite Hla in Hrow; eauto].
  destruct (decide (Chat.status chat = active)) as [Hst|Hst]; cycle 1.
  { unfold counsellor_branch in Hrow. apply Status_eqb_neq in Hst.
    rewrite Hla, Hst in Hrow. eauto. }
  destruct (Z.lt_ge_cases last (now - timedelta_minutes 5)) as [Hlt|Hge]; cycle 1.
  { unfold counsellor_branch in Hrow. rewrite Hla, Hst in Hrow.
    cbn [Status_eqb] in Hrow.
    destruct (Z.ltb_spec0 last (now - timedelta_minutes 5)); [lia|]. eauto. }
  destruct (counsellor_branch_stale now chat db last Hst Hla Hlt)
    as (chat' & Heq & Hid & Hst' & _).
  rewrite Heq in Hrow. cbn [snd] in Hrow.
  destruct (decide (Chat.id chat' = k)) as [<-|Hne].
  - rewrite Chat_save_fields_lookup in Hrow.
    destruct (chats db !! Chat.id chat') as [row0|]; [|done].
    cbn in Hrow. injection Hrow as <-. cbn in Hact. congruence.
  - unfold Chat_save_fields in Hrow.
    rewrite update_chat_lookup_ne in Hrow by done. eauto.
Qed.

(** C6. When the sender is not the requester, no row that was not active
    becomes active; and when the chat is active and the requester's last
    activity is more than five minutes old, a message that is not a
    duplicate is stored ([chat_was_activated] false) and leaves the row
    inactive, with [ended_at] equal to the last requester activity plus
    five minutes if it was unset (and as it was otherwise). *)
Theorem counsellor_message_marks_inactive dwm now self db text cmid chat :
  chats db !! self_chat_id self = Some chat ->
  Chat.id chat = self_chat_id self ->
  Chat.user chat <> Some (self_user self) ->
  let r := save_message dwm now self db text cmid in
  (forall k row, chats r.2 !! k = Some row -> Chat.status row = active ->
     exists row0, chats db !! k = Some row0 /\ Chat.status row0 = active)
  /\ (forall last,
        Chat.status chat = active ->
        Chat.last_user_activity chat = Some last ->
        last < now - timedelta_minutes 5 ->
        is_duplicate now db (Chat.id chat) (self_user self) text cmid = false ->
        exists row m,
          r.1.1 = Saved m false
          /\ chats r.2 !! self_chat_id self = Some row
          /\ Chat.status row = inactive
          /\ Chat.ended_at row
             = Some (or_else (Chat.ended_at chat) (last + timedelta_minutes 5))).
Proof.
  intros Hc Hid Hu. cbn zeta.
  pose proof (opt_user_eqb_neq _ _ Hu) as Hnu.
  split.
  - intros k row.
    destruct (is_duplicate now db (Chat.id chat) (self_user self) text cmid) eqn:Hd.
    + rewrite (save_message_duplicate dwm now self db text cmid chat Hc Hd). eauto.
    + rewrite (save_message_fresh dwm now self db text cmid chat Hc Hd), Hnu.
      pose proof (counsellor_branch_not_activating now chat db k row) as Hna.
      destruct (counsellor_branch now chat db) as [chat' db1]. apply Hna.
  - intros last Hst Hla Hlt Hd.
    rewrite (save_message_fresh dwm now self db text cmid chat Hc Hd), Hnu.
    destruct (counsellor_branch_stale now chat db last Hst Hla Hlt)
      as (chat' & -> & Hid' & Hst' & Hend').
    cbn [fst snd create_message chats set_messages].
    rewrite <- Hid, <- Hid', Chat_save_fields_lookup, Hid', Hid, Hc.
    eexists _, _. split; [reflexivity|]. split; [reflexivity|]. by cbn.
Qed.

Lemma counsellor_message_marks_inactive_witness :
  let now := timedelta_minutes 6 in
  let r := save_message 0 now counsellor_conn db_running "hi" None in
  exists row m,
    r.1.1 = Saved m false
    /\ chats r.2 !! 1%positive = Some row
    /\ Chat.status row = inactive
    /\ Chat.ended_at row = Some (timedelta_minutes 5).
Proof.
  destruct (counsellor_message_marks_inactive 0 (timedelta_minutes 6)
              counsellor_conn db_running "hi" None chat_running eq_refl eq_refl)
    as [_ H]; [discriminate|].
  apply (H 0); [reflexivity | reflexivity | vm_compute; reflexivity | reflexivity].
Defined.

(** ** The requester is sending *)

(** Where the activation block of [save_message] is reached it activates
    the chat: from queued, completed or cancelled, and from inactive when
    the previous requester activity is missing or at most five minutes
    old, the message is stored with [chat_was_activated] true and the row
    ends active with [ended_at] cleared; from queued the first counsellor
    account is assigned when none was, and [started_at] is set to [now]
    if it was unset. *)
Lemma requester_message_activates dwm now self db text cmid chat :
  chats db !! self_chat_id self = Some chat ->
  Chat.id chat = self_chat_id self ->
  Chat.user chat = Some (self_user self) ->
  is_duplicate now db (Chat.id chat) (self_user self) text cmid = false ->
  Chat.status chat <> active ->
  (Chat.status chat = inactive ->
   forall prev, Chat.last_user_activity chat = Some prev ->
                now - timedelta_minutes 5 <= prev) ->
  let r := save_message dwm now self db text cmid in
  exists row m,
    r.1.1 = Saved m true
    /\ chats r.2 !! self_chat_id self = Some row
    /\ Chat.status row = active
    /\ Chat.ended_at row = None
    /\ Chat.last_user_activity row = Some now
    /\ (Chat.status chat = queued ->
        Chat.counsellor row
        = match Chat.counsellor chat with
          | Some c => Some c
          | None => head (counsellor_users db)
          end
        /\ Chat.started_at row = Some (or_else (Chat.started_at chat) now)).
Proof.
  intros Hc Hid Hu Hd Hna Hfresh. cbn zeta.
  rewrite (save_message_fresh dwm now self db text cmid chat Hc Hd).
  rewrite Hu, opt_user_eqb_refl.
  assert (exists chat' db1,
    user_branch dwm now chat db = (chat', true, db1)
    /\ exists row, chats db1 !! self_chat_id self = Some row
    /\ Chat.status row = active
    /\ Chat.ended_at row = None
    /\ Chat.last_user_activity row = Some now
    /\ (Chat.status chat = queued ->
        Chat.counsellor row
        = match Chat.counsellor chat with
          | Some c => Some c
          | None => head (counsellor_users db)
          end
        /\ Chat.started_at row = Some (or_else (Chat.started_at chat) now)))
    as (chat' & db1 & -> & row & Hrow & Hprops).
  { rewrite <- Hid in *. clear Hd Hu Hid.
    destruct chat as [i u c st cr sa ea la ua ba dm ib bp]. cbn in *.
    unfold user_branch. cbn.
    destruct st; [ | done | | | ]; cbn.
    - (* queued *)
      destruct la as [prev|]; cbn;
        rewrite ?check_chat_wallet_balance_counsellors;
        destruct c as [c|], sa as [s|], (counsellor_users db) as [|a l]; cbn;
        eexists _, _; (split; [reflexivity|]);
        rewrite ?auto_start_session_chats, (Chat_save_fields_lookup_at _ _ _ _ i) by done;
        cbn;
        rewrite check_chat_wallet_balance_chats, Hc; cbn;
        eexists; (split; [reflexivity|]); by cbn.
    - (* inactive *)
      destruct la as [prev|]; cbn.
      + specialize (Hfresh eq_refl prev eq_refl).
        destruct (Z.ltb_spec0 prev (now - timedelta_minutes 5)); [lia|]. cbn.
        destruct c as [c|]; cbn; eexists _, _; (split; [reflexivity|]);
          rewrite ?auto_start_session_chats, (Chat_save_fields_lookup_at _ _ _ _ i) by done;
        cbn;
          rewrite Hc; cbn; eexists; (split; [reflexivity|]); by cbn.
      + destruct c as [c|]; cbn; eexists _, _; (split; [reflexivity|]);
          rewrite ?auto_start_session_chats, (Chat_save_fields_lookup_at _ _ _ _ i) by done;
        cbn;
          rewrite Hc; cbn; eexists; (split; [reflexivity|]); by cbn.
    - (* completed *)
      destruct la as [prev|], c as [c|]; cbn; eexists _, _; (split; [reflexivity|]);
        rewrite ?auto_start_session_chats, (Chat_save_fields_lookup_at _ _ _ _ i) by done;
        cbn;
        rewrite Hc; cbn; eexists; (split; [reflexivity|]); by cbn.
    - (* cancelled *)
      destruct la as [prev|], c as [c|]; cbn; eexists _, _; (split; [reflexivity|]);
        rewrite ?auto_start_session_chats, (Chat_save_fields_lookup_at _ _ _ _ i) by done;
        cbn;
        rewrite Hc; cbn; eexists; (split; [reflexivity|]); by cbn. }
  cbn. eexists _, _. split; [reflexivity|]. by split.
Qed.

(** ** Duplicate submissions *)






Lemma auto_start_session_messages now chat db :
  messages (auto_start_session now chat db) = messages db.
Proof.
  unfold auto_start_session. destruct (scheduled_session_for db chat) as [s|]; [|done].
  by destruct (UpcomingSession.actual_start_time s).
Qed.

Lemma check_chat_wallet_balance_messages dwm db u :
  messages (check_chat_wallet_balance dwm db u).2 = messages db.
Proof.
  unfold check_chat_wallet_balance. destruct u as [u|]; [|done].
  destruct (wallet_minutes db !! u); cbn; by destruct (_ <? 1).
Qed.

Lemma counsellor_branch_messages now chat db :
  messages (counsellor_branch now chat db).2 = messages db.
Proof.
  unfold counsellor_branch.
  destruct (Chat.last_user_activity chat) as [last|]; [|done].
  destruct (Status_eqb (Chat.status chat) active); [|done].
  by destruct (last <? now - timedelta_minutes 5).
Qed.

Lemma user_branch_messages dwm now chat db :
  messages (user_branch dwm now chat db).2 = messages db.
Proof.
  destruct (decide (Chat.status chat = active)) as [Hst|Hst];
    [by rewrite user_branch_active|].
  destruct chat as [i u c st cr sa ea la ua ba dm ib bp]. cbn in Hst.
  destruct st; [ | done | | | ].
  - unfold user_branch. cbn.
    destruct la as [prev|]; cbn;
      destruct c as [c|], sa as [s|],
        (counsellor_users (check_chat_wallet_balance dwm db u).2) as [|a l]; cbn;
      rewrite ?auto_start_session_messages; cbn;
      apply check_chat_wallet_balance_messages.
  - destruct la as [prev|].
    + destruct (Z.lt_ge_cases prev (now - timedelta_minutes 5)) as [Hlt|Hge].
      * rewrite (user_branch_inactive_stale dwm now _ db prev); done.
      * unfold user_branch. cbn.
        destruct (Z.ltb_spec0 prev (now - timedelta_minutes 5)); [lia|]. cbn.
        destruct c as [c|]; cbn; by rewrite ?auto_start_session_messages.
    + unfold user_branch. cbn.
      destruct c as [c|]; cbn; by rewrite ?auto_start_session_messages.
  - unfold user_branch. cbn.
    destruct la as [prev|], c as [c|]; cbn; by rewrite ?auto_start_session_messages.
  - unfold user_branch. cbn.
    destruct la as [prev|], c as [c|]; cbn; by rewrite ?auto_start_session_messages.
Qed.





(** * Properties of [SessionEndView.post] *)

(** C3, the claim as written fails.  An active chat without a
    scheduled-session record is ended at minute 10 (answer "ended",
    billed 10 for 10 minutes); the same request repeated one second later
    is answered with the 400 "is currently completed and cannot be
    ended", not with an already-ended outcome. *)
Lemma end_twice_counterexample :
  let t := timedelta_minutes 10 in
  let first := SessionEndView_post false t 7%positive 1%positive db_running in
  let second :=
    SessionEndView_post false (t + timedelta_seconds 1) 7%positive 1%positive first.2 in
  first.1 = ChatEnded 1 (Some t) 600 10 (Some (10, 10))
  /\ Chat.status <$> chats first.2 !! 1%positive = Some completed
  /\ second.1 = CannotBeEnded 1 completed
  /\ is_error second.1 = true.
Proof. vm_compute. repeat split. Qed.

(** ** Ending the same chat twice *)

Lemma deduct_sessions db chat amt :
  sessions (deduct_chat_billing db chat amt).2 = sessions db.
Proof.
  unfold deduct_chat_billing.
  destruct (Chat.user chat) as [u|]; [|done].
  destruct (amt <=? 0); [done|].
  destruct (wallet_minutes db !! u) as [w|]; cbn;
    by destruct (_ <? amt).
Qed.

(** Settlement touches only billing columns and [ended_at] of one row. *)
Lemma settle_standing now db cid row :
  chats db !! cid = Some row ->
  sessions (calculate_and_deduct_chat_billing now db cid).2 = sessions db
  /\ exists row',
       chats (calculate_and_deduct_chat_billing now db cid).2 !! cid = Some row'
       /\ same_standing row row'.
Proof.
  intros Hc.
  destruct (Chat.is_billed row) eqn:Hb.
  { unfold calculate_and_deduct_chat_billing. rewrite Hc, Hb. cbn.
    split; [done|]. by exists row. }
  destruct (Chat.started_at row) as [s|] eqn:Hs; cycle 1.
  { unfold calculate_and_deduct_chat_billing. rewrite Hc, Hb, Hs. cbn [snd].
    split; [done|]. rewrite update_chat_lookup, Hc. by eexists. }
  rewrite (settle_started now db cid row s Hc Hb Hs).
  set (owed := calculate_chat_billing now row).
  set (minutes := calculate_chat_duration_minutes now row).
  set (db1 := match Chat.ended_at row with
              | Some _ => db
              | None => update_chat cid (Chat.set_ended_at (Some now)) db
              end).
  assert (sessions db1 = sessions db) as Hs1
    by (subst db1; by destruct (Chat.ended_at row)).
  assert (chats db1 !! cid = Some (closed_at now row)) as Hc1.
  { subst db1. unfold closed_at. destruct (Chat.ended_at row); [done|].
    by rewrite update_chat_lookup, Hc. }
  assert (same_standing row (closed_at now row)) as Hst1
    by (unfold closed_at; by destruct (Chat.ended_at row)).
  set (d := if 0 <? owed
            then deduct_chat_billing db1 (closed_at now row) owed
            else (true, db1)).
  assert (sessions d.2 = sessions db /\ chats d.2 = chats db1) as [Hsd Hcd].
  { subst d. destruct (0 <? owed); [|done].
    by rewrite deduct_sessions, deduct_chats. }
  destruct (d.1 || (owed =? 0)); cbn [snd];
    (split; [done|]); rewrite update_chat_lookup, Hcd, Hc1;
    eexists; (split; [reflexivity|]);
    destruct Hst1 as (? & ? & ? & ?); by repeat split.
Qed.

(** The first request ends an open chat that has no scheduled-session
    record; repeating the request, at any later time, is refused and
    leaves the store exactly as the first request left it: one
    settlement, no second debit. *)
Lemma end_chat_twice nf t1 t2 u sid db chat :
  find_session_by_id db u sid = None ->
  chats db !! sid = Some chat ->
  Chat.id chat = sid ->
  Chat.status chat = active \/ Chat.status chat = inactive ->
  Chat.user chat = Some u \/ Chat.counsellor chat = Some u ->
  is_Some (Chat.user chat) ->
  is_Some (Chat.counsellor chat) ->
  find_session_for_pair db chat = None ->
  let first := SessionEndView_post nf t1 u sid db in
  let second := SessionEndView_post nf t2 u sid first.2 in
  is_error first.1 = false
  /\ second = (CannotBeEnded sid completed, first.2).
Proof.
  intros Hnone Hc Hid Hopen Hparty [requester Hreq] [assignee Hass] Hpair.
  cbn zeta.
  (* the first request takes the branch that ends the chat directly *)
  assert (SessionEndView_post nf t1 u sid db = end_chat_directly t1 chat db) as ->.
  { unfold SessionEndView_post. rewrite Hnone, Hc.
    assert (opt_user_eqb (Chat.user chat) (Some u)
            || is_Some_b (Chat.counsellor chat)
               && opt_user_eqb (Chat.counsellor chat) (Some u) = true) as ->.
    { destruct Hparty as [-> | Hcu].
      - by rewrite opt_user_eqb_refl.
      - rewrite Hcu, opt_user_eqb_refl. cbn. by rewrite orb_true_r. }
    cbn [negb].
    assert (is_Some_b (Chat.user chat) && is_Some_b (Chat.counsellor chat) = true)
      as -> by (by rewrite Hreq, Hass).
    rewrite Hpair, Hass.
    by destruct Hopen as [-> | ->]. }
  (* the instance that is saved *)
  set (closed :=
    match Chat.started_at
            match Chat.ended_at (Chat.set_status completed chat) with
            | Some _ => Chat.set_status completed chat
            | None => Chat.set_ended_at (Some t1) (Chat.set_status completed chat)
            end with
    | Some _ =>
        match Chat.ended_at (Chat.set_status completed chat) with
        | Some _ => Chat.set_status completed chat
        | None => Chat.set_ended_at (Some t1) (Chat.set_status completed chat)
        end
    | None =>
        Chat.set_started_at (Some t1)
          match Chat.ended_at (Chat.set_status completed chat) with
          | Some _ => Chat.set_status completed chat
          | None => Chat.set_ended_at (Some t1) (Chat.set_status completed chat)
          end
    end).
  assert (Chat.id closed = sid /\ Chat.user closed = Chat.user chat
          /\ Chat.counsellor closed = Chat.counsellor chat
          /\ Chat.status closed = completed) as (Hcid & Hcu & Hcc & Hcs).
  { subst closed. clear -Hid.
    destruct chat as [i u0 c st cr sa ea la ua ba dm ib bp]. cbn in *.
    by destruct ea, sa. }
  set (db0 := Chat_save t1 closed db).
  assert (sessions db0 = sessions db) as Hs0 by done.
  assert (chats db0 !! sid = Some (Chat.set_updated_at t1 closed)) as Hc0.
  { subst db0. unfold Chat_save. cbn. by rewrite Hcid, lookup_insert_eq. }
  set (db1 := match chats db0 !! Chat.id closed with
              | Some row =>
                  if Chat.is_billed row then db0
                  else (calculate_and_deduct_chat_billing t1 db0 (Chat.id closed)).2
              | None => db0
              end).
  assert (sessions db1 = sessions db
          /\ exists row, chats db1 !! sid = Some row
               /\ same_standing (Chat.set_updated_at t1 closed) row)
    as (Hs1 & row & Hrow & Hst).
  { subst db1. rewrite Hcid, Hc0.
    destruct (Chat.is_billed (Chat.set_updated_at t1 closed)).
    - split; [done|]. by eexists.
    - destruct (settle_standing t1 db0 sid _ Hc0) as (Hsess & row & Hr & Hst).
      split; [by rewrite Hsess|]. by exists row. }
  destruct Hst as (Hrid & Hru & Hrc & Hrs). cbn in Hrid, Hru, Hrc, Hrs.
  assert (exists resp, end_chat_directly t1 chat db = (resp, db1)
                       /\ is_error resp = false) as (resp & -> & Herr).
  { unfold end_chat_directly. fold closed. fold db0. fold db1.
    rewrite Hcid, Hrow. destruct (Chat.started_at row), (Chat.ended_at row);
      eexists; by split. }
  split; [done|]. cbn [fst snd].
  (* the second request *)
  unfold SessionEndView_post.
  assert (find_session_by_id db1 u sid = None) as ->
    by (unfold find_session_by_id in *; by rewrite Hs1).
  rewrite Hrow.
  assert (opt_user_eqb (Chat.user row) (Some u)
          || is_Some_b (Chat.counsellor row)
             && opt_user_eqb (Chat.counsellor row) (Some u) = true) as ->.
  { rewrite <- Hru, <- Hrc, Hcu, Hcc. destruct Hparty as [-> | Hcu'].
    - by rewrite opt_user_eqb_refl.
    - rewrite Hcu', opt_user_eqb_refl. cbn. by rewrite orb_true_r. }
  cbn [negb].
  assert (find_session_for_pair db1 row = None) as Hpair1.
  { unfold find_session_for_pair in *.
    by rewrite Hs1, <- Hru, <- Hrc, Hcu, Hcc. }
  rewrite Hpair1.
  assert (Chat.counsellor row = Some assignee) as Hra by congruence.
  assert (Chat.status row = completed) as Hrst by congruence.
  rewrite Hra, Hrst. cbn.
  destruct (is_Some_b (Chat.user row)); cbn; by rewrite <- Hrid, Hcid.
Qed.

(** * Further properties of the billing engine *)

Lemma ceil_minutes_mono (d1 d2 : Z) : d1 <= d2 -> ceil_minutes d1 <= ceil_minutes d2.
Proof.
  intros Hle. pose proof (ceil_minutes_bounds d1). pose proof (ceil_minutes_bounds d2).
  nia.
Qed.

(** X5. The minutes counted for a chat never go down as time passes, and
    once [ended_at] is set they do not depend on the clock at all; the
    estimate shown to the user is these minutes at one rupee each. *)
Theorem duration_grows_until_ended now1 now2 chat :
  now1 <= now2 ->
  calculate_chat_duration_minutes now1 chat <= calculate_chat_duration_minutes now2 chat
  /\ (is_Some (Chat.ended_at chat) ->
      calculate_chat_duration_minutes now1 chat
      = calculate_chat_duration_minutes now2 chat)
  /\ estimated_amount (get_chat_estimated_cost now1 chat)
     <= estimated_amount (get_chat_estimated_cost now2 chat)
  /\ estimated_amount (get_chat_estimated_cost now2 chat)
     = est_duration_minutes (get_chat_estimated_cost now2 chat).
Proof.
  intros Hle.
  assert (calculate_chat_duration_minutes now1 chat
          <= calculate_chat_duration_minutes now2 chat) as Hmono.
  { destruct (Chat.started_at chat) as [s|] eqn:Hs;
      [|by rewrite !duration_unstarted].
    assert (end_time now1 chat <= end_time now2 chat) as He
      by (unfold end_time; destruct (Chat.ended_at chat); lia).
    destruct (Z.lt_ge_cases s (end_time now1 chat)) as [H1|H1].
    - rewrite (duration_running now1 chat s Hs H1).
      rewrite (duration_running now2 chat s Hs) by lia.
      apply ceil_minutes_mono. lia.
    - rewrite (duration_not_after now1 chat s Hs H1). apply duration_nonneg. }
  split; [done|]. split.
  - intros [e He]. unfold calculate_chat_duration_minutes. by rewrite He.
  - unfold get_chat_estimated_cost. cbn. rewrite !billing_is_duration. by split.
Qed.

Lemma duration_grows_until_ended_witness :
  calculate_chat_duration_minutes (timedelta_minutes 3) chat_running
  <= calculate_chat_duration_minutes (timedelta_minutes 7) chat_running
  /\ calculate_chat_duration_minutes 1 chat_done
     = calculate_chat_duration_minutes 999 chat_done.
Proof.
  split.
  - apply (duration_grows_until_ended (timedelta_minutes 3) (timedelta_minutes 7)
             chat_running). vm_compute. discriminate.
  - destruct (duration_grows_until_ended 1 999 chat_done) as (_ & H & _);
      [lia|]. apply H. by eexists.
Defined.

(** X1. A settlement that goes through is recorded exactly: for a
    started, not yet billed chat whose requester can pay, the wallet
    loses the amount owed and no other wallet moves; the row ends billed,
    with [billed_amount] the amount owed, [duration_minutes] the minutes
    counted, [billing_processed_at] the time of the call, [ended_at] the
    end of the billed window, and its status as before. *)
Theorem settle_success_is_recorded now db cid chat u w s :
  chats db !! cid = Some chat ->
  Chat.is_billed chat = false ->
  Chat.started_at chat = Some s ->
  Chat.user chat = Some u ->
  wallet_minutes db !! u = Some w ->
  calculate_chat_billing now chat <= w ->
  let owed := calculate_chat_billing now chat in
  let r := calculate_and_deduct_chat_billing now db cid in
  r.1 = true
  /\ wallet_minutes r.2 !! u = Some (w - owed)
  /\ (forall u', u' <> u -> wallet_minutes r.2 !! u' = wallet_minutes db !! u')
  /\ exists row,
       chats r.2 !! cid = Some row
       /\ Chat.is_billed row = true
       /\ Chat.billed_amount row = owed
       /\ Chat.duration_minutes row = calculate_chat_duration_minutes now chat
       /\ Chat.billing_processed_at row = Some now
       /\ Chat.ended_at row = Some (end_time now chat)
       /\ Chat.status row = Chat.status chat.
Proof.
  intros Hc Hb Hs Hu Hw Hle. cbn zeta.
  rewrite (settle_started now db cid chat s Hc Hb Hs).
  set (owed := calculate_chat_billing now chat) in *.
  set (minutes := calculate_chat_duration_minutes now chat).
  set (db1 := match Chat.ended_at chat with
              | Some _ => db
              | None => update_chat cid (Chat.set_ended_at (Some now)) db
              end).
  assert (wallet_minutes db1 = wallet_minutes db) as Hw1
    by (subst db1; by destruct (Chat.ended_at chat)).
  assert (chats db1 !! cid = Some (closed_at now chat)) as Hc1.
  { subst db1. unfold closed_at. destruct (Chat.ended_at chat); [done|].
    by rewrite update_chat_lookup, Hc. }
  assert (Chat.user (closed_at now chat) = Some u) as Hu1
    by (unfold closed_at; by destruct (Chat.ended_at chat)).
  assert (Chat.ended_at (closed_at now chat) = Some (end_time now chat)
          /\ Chat.status (closed_at now chat) = Chat.status chat) as [Hend Hst]
    by (unfold closed_at, end_time; destruct (Chat.ended_at chat) eqn:He; by split).
  assert (0 <= owed) as Hnn
    by (subst owed; rewrite billing_is_duration; apply duration_nonneg).
  destruct (Z.ltb_spec0 0 owed) as [Hpos|Hzero].
  - rewrite (deduct_sufficient db1 _ owed u w Hu1) by (rewrite ?Hw1; done || lia).
    cbn [fst snd orb]. rewrite update_chat_wallet.
    cbn [wallet_minutes set_wallet_minutes]. rewrite Hw1.
    split; [done|]. split; [by rewrite lookup_insert_eq|].
    split; [by intros u' Hne; rewrite lookup_insert_ne|].
    rewrite update_chat_lookup. cbn [chats set_wallet_minutes]. rewrite Hc1.
    eexists. split; [reflexivity|]. by cbn.
  - assert (owed = 0) as Hz by lia. cbn [fst snd orb].
    rewrite update_chat_wallet, Hw1, Hz, Z.sub_0_r.
    split; [done|]. split; [done|]. split; [done|].
    rewrite update_chat_lookup, Hc1.
    eexists. split; [reflexivity|]. by cbn.
Qed.

Lemma settle_success_is_recorded_witness :
  let r := calculate_and_deduct_chat_billing (timedelta_minutes 4) db_running 1 in
  r.1 = true
  /\ wallet_minutes r.2 !! 7%positive = Some 96
  /\ exists row,
       chats r.2 !! 1%positive = Some row
       /\ Chat.is_billed row = true
       /\ Chat.billed_amount row = 4
       /\ Chat.ended_at row = Some (timedelta_minutes 4).
Proof.
  destruct (settle_success_is_recorded (timedelta_minutes 4) db_running 1%positive
              chat_running 7%positive 100 0 eq_refl eq_refl eq_refl eq_refl eq_refl)
    as (H1 & H2 & _ & row & Hrow & Hb & Ha & _ & _ & He & _).
  - vm_compute. discriminate.
  - split; [exact H1|]. split; [exact H2|]. exists row. by repeat split.
Defined.

(** The store a settlement of a started, unbilled chat leaves behind, in
    both outcomes: the row is the closed instance with the amounts
    recorded, and billed only on success. *)
Lemma settle_started_row now db cid chat s :
  chats db !! cid = Some chat ->
  Chat.is_billed chat = false ->
  Chat.started_at chat = Some s ->
  let owed := calculate_chat_billing now chat in
  let minutes := calculate_chat_duration_minutes now chat in
  let r := calculate_and_deduct_chat_billing now db cid in
  chats r.2 !! cid
  = Some (if r.1
          then finalize_billing now minutes owed (closed_at now chat)
          else record_billing minutes owed (closed_at now chat)).
Proof.
  intros Hc Hb Hs. cbn zeta.
  rewrite (settle_started now db cid chat s Hc Hb Hs).
  set (owed := calculate_chat_billing now chat).
  set (db1 := match Chat.ended_at chat with
              | Some _ => db
              | None => update_chat cid (Chat.set_ended_at (Some now)) db
              end).
  assert (chats db1 !! cid = Some (closed_at now chat)) as Hc1.
  { subst db1. unfold closed_at. destruct (Chat.ended_at chat); [done|].
    by rewrite update_chat_lookup, Hc. }
  set (d := if 0 <? owed
            then deduct_chat_billing db1 (closed_at now chat) owed
            else (true, db1)).
  assert (chats d.2 = chats db1) as Hcd
    by (subst d; destruct (0 <? owed); [apply deduct_chats | done]).
  destruct (d.1 || (owed =? 0)); cbn [fst snd];
    by rewrite update_chat_lookup, Hcd, Hc1.
Qed.

(** X2. Settlement happens once: after a call that returned [True], any
    later call for the same chat returns [True] again and leaves the
    store, wallets included, exactly as it found it. *)
Theorem settle_once_only now later db cid :
  (calculate_and_deduct_chat_billing now db cid).1 = true ->
  calculate_and_deduct_chat_billing later
    (calculate_and_deduct_chat_billing now db cid).2 cid
  = (true, (calculate_and_deduct_chat_billing now db cid).2).
Proof.
  intros Hok.
  destruct (chats db !! cid) as [chat|] eqn:Hc; cycle 1.
  { unfold calculate_and_deduct_chat_billing in Hok. by rewrite Hc in Hok. }
  destruct (Chat.is_billed chat) eqn:Hb.
  { assert (calculate_and_deduct_chat_billing now db cid = (true, db)) as ->
      by (unfold calculate_and_deduct_chat_billing; by rewrite Hc, Hb).
    cbn [snd]. unfold calculate_and_deduct_chat_billing. by rewrite Hc, Hb. }
  destruct (Chat.started_at chat) as [s|] eqn:Hs; cycle 1.
  { assert (calculate_and_deduct_chat_billing now db cid
            = (true, update_chat cid (mark_billed_zero now) db)) as ->
      by (unfold calculate_and_deduct_chat_billing; by rewrite Hc, Hb, Hs).
    unfold calculate_and_deduct_chat_billing. cbn [snd].
    by rewrite update_chat_lookup, Hc. }
  pose proof (settle_started_row now db cid chat s Hc Hb Hs) as Hrow.
  cbn zeta in Hrow. rewrite Hok in Hrow.
  unfold calculate_and_deduct_chat_billing at 1. by rewrite Hrow.
Qed.

Lemma settle_once_only_witness :
  let db1 := (calculate_and_deduct_chat_billing (timedelta_minutes 4) db_running 1).2 in
  calculate_and_deduct_chat_billing (timedelta_minutes 9) db1 1 = (true, db1)
  /\ wallet_minutes db1 !! 7%positive = Some 96.
Proof.
  split; [|reflexivity].
  apply (settle_once_only (timedelta_minutes 4) (timedelta_minutes 9) db_running
           1%positive).
  reflexivity.
Defined.

(** X4. [deduct_chat_billing] reaches nothing but the wallet of the
    chat's own requester: chats, messages, sessions and every other
    account's wallet are left alone, whatever the amount and whether or
    not the deduction succeeds; without a requester, or for an amount
    that is not positive, the store is not touched at all. *)
Theorem deduct_touches_one_wallet db chat amt :
  let r := deduct_chat_billing db chat amt in
  chats r.2 = chats db
  /\ messages r.2 = messages db
  /\ sessions r.2 = sessions db
  /\ (forall u, Chat.user chat <> Some u ->
        wallet_minutes r.2 !! u = wallet_minutes db !! u)
  /\ (Chat.user chat = None -> r = (false, db))
  /\ (is_Some (Chat.user chat) -> amt <= 0 -> r = (true, db)).
Proof.
  cbn zeta. split; [apply deduct_chats|].
  unfold deduct_chat_billing.
  destruct (Chat.user chat) as [u0|]; cycle 1.
  { repeat split; try done; by intros []. }
  destruct (Z.leb_spec0 amt 0).
  { by repeat split. }
  destruct (wallet_minutes db !! u0) as [w|] eqn:Hw.
  - destruct (w <? amt); cbn; repeat split; try done; try lia.
    intros u Hne. rewrite lookup_insert_ne; [done|congruence].
  - destruct (0 <? amt); cbn; repeat split; try done; try lia.
    + intros u Hne. rewrite lookup_insert_ne; [done|congruence].
    + intros u Hne. rewrite !lookup_insert_ne; [done|congruence..].
Qed.

Lemma deduct_touches_one_wallet_witness :
  wallet_minutes (deduct_chat_billing db_running chat_running 30).2 !! 9%positive
  = wallet_minutes db_running !! 9%positive
  /\ deduct_chat_billing db_running chat_never_started (-3) = (true, db_running).
Proof.
  split.
  - destruct (deduct_touches_one_wallet db_running chat_running 30)
      as (_ & _ & _ & H & _). by apply H.
  - destruct (deduct_touches_one_wallet db_running chat_never_started (-3))
      as (_ & _ & _ & _ & _ & H). apply H; [by eexists | lia].
Defined.

(** * Further properties of the accrual run *)

Lemma process_chat_check_only now min_duration db chat :
  (process_chat now true min_duration db chat).2 = db.
Proof.
  unfold process_chat.
  destruct (_ <? min_duration); [done|].
  destruct (0 <? _); [|done].
  by destruct (Chat.user chat).
Qed.

(** X6. With [--check-only] the accrual run writes nothing: the store
    after the run is the store before it. *)
Theorem check_only_run_changes_nothing now min_duration db :
  (handle now true min_duration db).2 = db.
Proof.
  unfold handle. generalize (active_chats db) as cs.
  intros cs. induction cs as [|chat rest IH]; [done|].
  cbn [handle_loop].
  pose proof (process_chat_check_only now min_duration db chat) as H1.
  destruct (process_chat now true min_duration db chat) as [o db1].
  cbn in H1. subst db1.
  by destruct (handle_loop now true min_duration rest db) as [os db2].
Qed.

Lemma same_but_accrued_refl a : same_but_accrued a a.
Proof. by destruct a. Qed.

Lemma same_but_accrued_trans a b c :
  same_but_accrued a b -> same_but_accrued b c -> same_but_accrued a c.
Proof.
  unfold same_but_accrued. destruct a, b, c. cbn. intros [= -> -> -> -> -> -> -> -> -> -> ->].
  by intros [= -> -> -> -> -> -> -> -> -> -> ->].
Qed.

Lemma process_chat_rows now check_only min_duration db chat k :
  option_Forall2 same_but_accrued
    (chats db !! k) (chats (process_chat now check_only min_duration db chat).2 !! k).
Proof.
  assert (option_Forall2 same_but_accrued (chats db !! k) (chats db !! k)) as Hrefl.
  { destruct (chats db !! k); constructor. apply same_but_accrued_refl. }
  unfold process_chat.
  destruct (_ <? min_duration); [done|].
  destruct (0 <? _); [|done].
  destruct (Chat.user chat) as [u|]; [|done].
  destruct check_only; [done|].
  destruct (wallet_minutes db !! u) as [w|]; [|done].
  destruct (_ <=? w); [|done].
  cbn [snd]. unfold Chat_save_fields, update_chat. cbn [chats set_chats set_wallet_minutes].
  set (obj := Chat.set_duration_minutes _ _).
  change (Chat.id obj) with (Chat.id chat).
  destruct (decide (Chat.id chat = k)) as [<-|Hne].
  - rewrite lookup_alter_eq.
    destruct (chats db !! Chat.id chat) as [row|]; constructor.
    by destruct row.
  - by rewrite lookup_alter_ne.
Qed.

Lemma handle_loop_rows now check_only min_duration cs db k :
  option_Forall2 same_but_accrued
    (chats db !! k) (chats (handle_loop now check_only min_duration cs db).2 !! k).
Proof.
  revert db. induction cs as [|chat rest IH]; intros db.
  - cbn [handle_loop snd].
    destruct (chats db !! k); constructor. apply same_but_accrued_refl.
  - cbn [handle_loop].
    pose proof (process_chat_rows now check_only min_duration db chat k) as H1.
    destruct (process_chat now check_only min_duration db chat) as [o db1].
    specialize (IH db1).
    destruct (handle_loop now check_only min_duration rest db1) as [os db2].
    cbn [snd] in *.
    destruct H1 as [a b Hab|]; inversion IH as [b' c Hbc|]; subst; constructor.
    by eapply same_but_accrued_trans.
Qed.

(** X7. The accrual run writes two columns and nothing else: every chat
    is still there afterwards with the status, [is_billed], [started_at],
    [ended_at], parties and [last_user_activity] it had, and no chat
    appears. In particular the run never closes a chat and never marks
    one billed. *)
Theorem accrual_writes_only_amounts now check_only min_duration db k row' :
  chats (handle now check_only min_duration db).2 !! k = Some row' ->
  exists row,
    chats db !! k = Some row
    /\ Chat.status row' = Chat.status row
    /\ Chat.is_billed row' = Chat.is_billed row
    /\ Chat.started_at row' = Chat.started_at row
    /\ Chat.ended_at row' = Chat.ended_at row
    /\ Chat.user row' = Chat.user row
    /\ Chat.counsellor row' = Chat.counsellor row
    /\ Chat.last_user_activity row' = Chat.last_user_activity row
    /\ Chat.billing_processed_at row' = Chat.billing_processed_at row.
Proof.
  intros Hrow'.
  pose proof (handle_loop_rows now check_only min_duration (active_chats db) db k) as H.
  fold (handle now check_only min_duration db) in H. rewrite Hrow' in H.
  inversion H as [row r Hsame Heq|]; subst. exists row. split; [done|].
  unfold same_but_accrued in Hsame. rewrite Hsame. by destruct row.
Qed.

Lemma accrual_writes_only_amounts_witness :
  exists row,
    chats (handle (timedelta_minutes 10) false 1 db_running).2 !! 1%positive = Some row
    /\ Chat.status row = active
    /\ Chat.is_billed row = false
    /\ Chat.ended_at row = None.
Proof.
  assert (exists row', chats (handle (timedelta_minutes 10) false 1 db_running).2
                       !! 1%positive = Some row') as [row' Hrow']
    by (vm_compute; eauto).
  destruct (accrual_writes_only_amounts (timedelta_minutes 10) false 1 db_running
              1%positive row' Hrow') as (row & Hrow & Hst & Hb & _ & He & _).
  exists row'. injection Hrow as <-. by repeat split.
Defined.

(** ** Running the accrual twice *)

Lemma process_chat_quiet now min_duration db chat :
  ~ accrual_due now min_duration db chat ->
  (process_chat now false min_duration db chat).2 = db.
Proof.
  intros Hnd. unfold process_chat.
  destruct (Z.ltb_spec0 (calculate_chat_duration_minutes now chat) min_duration);
    [done|].
  destruct (Z.ltb_spec0 0
              (calculate_chat_billing now chat - or_zero (Chat.billed_amount chat)));
    [|done].
  destruct (Chat.user chat) as [u|] eqn:Hu; [|done].
  destruct (wallet_minutes db !! u) as [w|] eqn:Hw; [|done].
  destruct (Z.leb_spec0
              (calculate_chat_billing now chat - or_zero (Chat.billed_amount chat)) w);
    [|done].
  exfalso. apply Hnd. split; [lia|]. split; [done|]. by exists u, w.
Qed.

Lemma process_chat_due now min_duration db chat :
  accrual_due now min_duration db chat ->
  exists u w,
    Chat.user chat = Some u /\ wallet_minutes db !! u = Some w
    /\ (process_chat now false min_duration db chat).2
       = Chat_save_fields now
           (Chat.set_duration_minutes (calculate_chat_duration_minutes now chat)
              (Chat.set_billed_amount (calculate_chat_billing now chat) chat))
           [Chat.f_billed_amount; Chat.f_duration_minutes]
           (set_wallet_minutes
              (<[u := w - (calculate_chat_billing now chat
                           - or_zero (Chat.billed_amount chat))]>
                 (wallet_minutes db)) db)
    /\ 0 < calculate_chat_billing now chat - or_zero (Chat.billed_amount chat) <= w.
Proof.
  intros (Hmin & Hpos & u & w & Hu & Hw & Hle). exists u, w.
  split; [done|]. split; [done|]. split; [|lia].
  unfold process_chat.
  destruct (Z.ltb_spec0 (calculate_chat_duration_minutes now chat) min_duration);
    [lia|].
  destruct (Z.ltb_spec0 0
              (calculate_chat_billing now chat - or_zero (Chat.billed_amount chat)));
    [|lia].
  rewrite Hu, Hw.
  by destruct (Z.leb_spec0
                 (calculate_chat_billing now chat - or_zero (Chat.billed_amount chat)) w);
    [|lia].
Qed.

Lemma accrual_due_dec now min_duration db chat :
  accrual_due now min_duration db chat \/ ~ accrual_due now min_duration db chat.
Proof.
  unfold accrual_due.
  destruct (Z.le_gt_cases min_duration (calculate_chat_duration_minutes now chat));
    [|right; lia].
  destruct (Z.lt_ge_cases 0
              (calculate_chat_billing now chat - or_zero (Chat.billed_amount chat)));
    [|right; lia].
  destruct (Chat.user chat) as [u|]; [|right; by intros (_ & _ & ? & ? & ? & _)].
  destruct (wallet_minutes db !! u) as [w|] eqn:Hw; cycle 1.
  { right. intros (_ & _ & u' & w' & [= <-] & Hw' & _). congruence. }
  destruct (Z.le_gt_cases
              (calculate_chat_billing now chat - or_zero (Chat.billed_amount chat)) w).
  - left. split; [done|]. split; [done|]. by exists u, w.
  - right. intros (_ & _ & u' & w' & [= <-] & Hw' & Hle).
    assert (w' = w) by congruence. lia.
Qed.

Lemma wallets_not_raised_refl db : wallets_not_raised db db.
Proof. intros u. by destruct (wallet_minutes db !! u). Qed.

Lemma wallets_not_raised_trans a b c :
  wallets_not_raised a b -> wallets_not_raised b c -> wallets_not_raised a c.
Proof.
  intros Hab Hbc u. specialize (Hab u). specialize (Hbc u).
  destruct (wallet_minutes a !! u), (wallet_minutes b !! u),
    (wallet_minutes c !! u); try done. lia.
Qed.

Lemma process_chat_not_raised now min_duration db chat :
  wallets_not_raised db (process_chat now false min_duration db chat).2.
Proof.
  destruct (accrual_due_dec now min_duration db chat) as [Hd|Hnd]; cycle 1.
  { rewrite process_chat_quiet by done. apply wallets_not_raised_refl. }
  destruct (process_chat_due now min_duration db chat Hd)
    as (u & w & Hu & Hw & -> & Hamt).
  intros u'. rewrite Chat_save_fields_wallet. cbn [wallet_minutes set_wallet_minutes].
  destruct (decide (u = u')) as [<-|Hne].
  - rewrite Hw, lookup_insert_eq. lia.
  - rewrite lookup_insert_ne by done. by destruct (wallet_minutes db !! u').
Qed.

Lemma handle_loop_not_raised now min_duration cs db :
  wallets_not_raised db (handle_loop now false min_duration cs db).2.
Proof.
  revert db. induction cs as [|chat rest IH]; intros db;
    [apply wallets_not_raised_refl|].
  cbn [handle_loop].
  pose proof (process_chat_not_raised now min_duration db chat) as H1.
  destruct (process_chat now false min_duration db chat) as [o db1].
  specialize (IH db1).
  destruct (handle_loop now false min_duration rest db1) as [os db2].
  by eapply wallets_not_raised_trans.
Qed.

Lemma not_due_stays_not_due now min_duration db db' chat :
  wallets_not_raised db db' ->
  ~ accrual_due now min_duration db chat ->
  ~ accrual_due now min_duration db' chat.
Proof.
  intros Hnr Hnd (Hmin & Hpos & u & w' & Hu & Hw' & Hle). apply Hnd.
  split; [done|]. split; [done|]. specialize (Hnr u). rewrite Hw' in Hnr.
  destruct (wallet_minutes db !! u) as [w|] eqn:Hw; [|done].
  exists u, w. repeat split; [done..|lia].
Qed.

Lemma process_chat_other_rows now min_duration db chat k :
  Chat.id chat <> k ->
  chats (process_chat now false min_duration db chat).2 !! k = chats db !! k.
Proof.
  intros Hne.
  destruct (accrual_due_dec now min_duration db chat) as [Hd|Hnd];
    [|by rewrite process_chat_quiet].
  destruct (process_chat_due now min_duration db chat Hd) as (u & w & _ & _ & -> & _).
  unfold Chat_save_fields. by rewrite update_chat_lookup_ne.
Qed.

Lemma handle_loop_other_rows now min_duration cs db k :
  k ∉ Chat.id <$> cs ->
  chats (handle_loop now false min_duration cs db).2 !! k = chats db !! k.
Proof.
  revert db. induction cs as [|chat rest IH]; intros db Hk; [done|].
  cbn [handle_loop]. rewrite fmap_cons, not_elem_of_cons in Hk. destruct Hk as [Hne Hk].
  pose proof (process_chat_other_rows now min_duration db chat k ltac:(done)) as H1.
  destruct (process_chat now false min_duration db chat) as [o db1].
  specialize (IH db1 Hk).
  destruct (handle_loop now false min_duration rest db1) as [os db2].
  cbn [snd] in *. congruence.
Qed.

(** After its own step a chat is no longer due: either it was not due, or
    its row now records the whole amount. *)
Lemma process_chat_settles now min_duration db chat :
  chats db !! Chat.id chat = Some chat ->
  exists row,
    chats (process_chat now false min_duration db chat).2 !! Chat.id chat = Some row
    /\ ~ accrual_due now min_duration (process_chat now false min_duration db chat).2 row.
Proof.
  intros Hrow.
  destruct (accrual_due_dec now min_duration db chat) as [Hd|Hnd]; cycle 1.
  { rewrite process_chat_quiet by done. by exists chat. }
  destruct (process_chat_due now min_duration db chat Hd) as (u & w & _ & _ & -> & _).
  rewrite (Chat_save_fields_lookup_at _ _ _ _ (Chat.id chat)) by done.
  cbn [chats set_wallet_minutes]. rewrite Hrow. eexists. split; [reflexivity|].
  intros (_ & Hpos & _). revert Hpos. clear.
  destruct chat as [i u c st cr sa ea la ua ba dm ib bp]. cbn.
  set (b := calculate_chat_billing now _).
  replace (calculate_chat_billing now _) with b by done.
  unfold or_zero. destruct (Z.eqb_spec b 0); lia.
Qed.

Lemma handle_loop_settles now min_duration cs db :
  NoDup (Chat.id <$> cs) ->
  (forall c, c ∈ cs -> chats db !! Chat.id c = Some c) ->
  forall c, c ∈ cs ->
    exists row,
      chats (handle_loop now false min_duration cs db).2 !! Chat.id c = Some row
      /\ ~ accrual_due now min_duration
             (handle_loop now false min_duration cs db).2 row.
Proof.
  revert db. induction cs as [|chat rest IH]; intros db Hnd Hrows c Hin;
    [by apply elem_of_nil in Hin|].
  rewrite fmap_cons in Hnd. apply NoDup_cons in Hnd as [Hfresh Hnd].
  cbn [handle_loop].
  pose proof (process_chat_settles now min_duration db chat
                (Hrows chat ltac:(left))) as Hhead.
  pose proof (fun k => process_chat_other_rows now min_duration db chat k) as Hother.
  destruct (process_chat now false min_duration db chat) as [o db1]. cbn [snd] in *.
  assert (forall c2, c2 ∈ rest -> chats db1 !! Chat.id c2 = Some c2) as Hrows1.
  { intros c2 Hc2. rewrite Hother; [apply Hrows; by right|].
    intros Heq. apply Hfresh. rewrite Heq. by apply list_elem_of_fmap_2. }
  specialize (IH db1 Hnd Hrows1).
  pose proof (handle_loop_not_raised now min_duration rest db1) as Hnr.
  pose proof (handle_loop_other_rows now min_duration rest db1 (Chat.id chat) Hfresh)
    as Hkeep.
  destruct (handle_loop now false min_duration rest db1) as [os db2]. cbn [snd] in *.
  apply elem_of_cons in Hin as [->|Hin]; [|by apply IH].
  destruct Hhead as (row & Hrow & Hq). exists row. split; [congruence|].
  by eapply not_due_stays_not_due.
Qed.

Lemma handle_loop_quiet now min_duration cs db :
  (forall c, c ∈ cs -> ~ accrual_due now min_duration db c) ->
  (handle_loop now false min_duration cs db).2 = db.
Proof.
  induction cs as [|chat rest IH]; intros Hq; [done|].
  cbn [handle_loop].
  pose proof (process_chat_quiet now min_duration db chat (Hq chat ltac:(left))) as H1.
  destruct (process_chat now false min_duration db chat) as [o db1].
  cbn [snd] in H1. subst db1.
  specialize (IH (fun c Hc => Hq c ltac:(by right))).
  by destruct (handle_loop now false min_duration rest db) as [os db2].
Qed.

Lemma elem_of_active_chats db c :
  c ∈ active_chats db <->
  is_active_started c = true /\ exists k, chats db !! k = Some c.
Proof.
  unfold active_chats. rewrite list_elem_of_In, List.filter_In, <- list_elem_of_In.
  rewrite list_elem_of_fmap. split.
  - intros [([k c'] & -> & Hin) Hp]. split; [done|]. exists k.
    by apply elem_of_map_to_list.
  - intros [Hp [k Hk]]. split; [|done]. exists (k, c). split; [done|].
    by apply elem_of_map_to_list.
Qed.

Lemma filtered_ids_NoDup (P : Chat.t -> bool) (l : list (positive * Chat.t)) :
  (forall p, p ∈ l -> Chat.id p.2 = p.1) ->
  NoDup l.*1 ->
  NoDup (Chat.id <$> List.filter P l.*2).
Proof.
  induction l as [|[k c] l IH]; intros Hwf Hnd; [constructor|].
  cbn in Hnd. apply NoDup_cons in Hnd as [Hfresh Hnd].
  assert (NoDup (Chat.id <$> List.filter P l.*2)) as IH'
    by (apply IH; [intros p Hp; apply Hwf; by right | done]).
  cbn. destruct (P c); [|done]. cbn. apply NoDup_cons. split; [|done].
  pose proof (Hwf (k, c) ltac:(left)) as Hkc. cbn in Hkc. rewrite Hkc.
  intros Hin. apply list_elem_of_fmap in Hin as (c' & Hid & Hc').
  apply list_elem_of_In, List.filter_In in Hc' as [Hc' _].
  apply list_elem_of_In, list_elem_of_fmap in Hc' as ([k' c''] & -> & Hp).
  apply Hfresh. pose proof (Hwf (k', c'') ltac:(by right)) as Hk'. cbn in Hid, Hk'.
  rewrite Hid, Hk'. apply list_elem_of_fmap. by exists (k', c'').
Qed.

(** X8. Running the accrual again at the same instant is free: in a
    store whose rows sit under their own ids, the second run finds
    nothing to charge and leaves the store exactly as the first run left
    it, whatever the first run did (charged, found too little balance,
    no profile, or skipped). *)
Theorem accrual_rerun_is_free now min_duration db :
  store_wf db ->
  let db1 := (handle now false min_duration db).2 in
  (handle now false min_duration db1).2 = db1.
Proof.
  intros Hwf. cbn zeta.
  set (db1 := (handle now false min_duration db).2).
  unfold handle at 1. apply handle_loop_quiet.
  intros c1 Hc1. apply elem_of_active_chats in Hc1 as [Hact [k Hk]].
  pose proof (handle_loop_rows now false min_duration (active_chats db) db k) as Hrows.
  fold (handle now false min_duration db) in Hrows. fold db1 in Hrows.
  rewrite Hk in Hrows. inversion Hrows as [c0 r Hsame Hc0|]; subst r.
  symmetry in Hc0.
  assert (Chat.id c0 = k) as Hid by (by apply Hwf).
  assert (is_active_started c0 = true) as Hact0.
  { unfold same_but_accrued in Hsame. rewrite Hsame in Hact.
    by destruct c0. }
  assert (c0 ∈ active_chats db) as Hin
    by (apply elem_of_active_chats; eauto).
  destruct (handle_loop_settles now min_duration (active_chats db) db) with (c := c0)
    as (row & Hrow & Hq); [| |done|].
  - unfold active_chats. apply filtered_ids_NoDup.
    + intros [k' c'] Hp. apply elem_of_map_to_list in Hp. by apply Hwf.
    + apply NoDup_fst_map_to_list.
  - intros c Hc. apply elem_of_active_chats in Hc as [_ [k' Hk']].
    by rewrite (Hwf _ _ Hk').
  - fold (handle now false min_duration db) in Hrow, Hq. fold db1 in Hrow, Hq.
    rewrite Hid, Hk in Hrow. by injection Hrow as ->.
Qed.

Lemma accrual_rerun_is_free_witness :
  let db1 := (handle (timedelta_minutes 10) false 1 db_running).2 in
  wallet_minutes db1 !! 7%positive = Some 90
  /\ (handle (timedelta_minutes 10) false 1 db1).2 = db1.
Proof.
  split; [reflexivity|].
  apply (accrual_rerun_is_free (timedelta_minutes 10) 1 db_running).
  intros k c. unfold db_running. cbn [chats].
  destruct (decide (k = 1%positive)) as [->|Hne].
  - rewrite lookup_singleton_eq. by intros [= <-].
  - by rewrite lookup_singleton_ne.
Defined.

(** ** Pay as you go *)

Lemma duration_mono now1 now2 chat :
  now1 <= now2 ->
  calculate_chat_duration_minutes now1 chat <= calculate_chat_duration_minutes now2 chat.
Proof.
  intros Hle. destruct (Chat.started_at chat) as [s|] eqn:Hs;
    [|by rewrite !duration_unstarted].
  assert (end_time now1 chat <= end_time now2 chat) as He
    by (unfold end_time; destruct (Chat.ended_at chat); lia).
  destruct (Z.lt_ge_cases s (end_time now1 chat)) as [H1|H1].
  - rewrite (duration_running now1 chat s Hs H1).
    rewrite (duration_running now2 chat s Hs) by lia.
    apply ceil_minutes_mono. lia.
  - rewrite (duration_not_after now1 chat s Hs H1). apply duration_nonneg.
Qed.

Lemma accrued_row_duration now chat d b :
  calculate_chat_duration_minutes now
    (Chat.set_duration_minutes d (Chat.set_billed_amount b chat))
  = calculate_chat_duration_minutes now chat.
Proof. by destruct chat. Qed.

Lemma accrued_row_billing now chat d b :
  calculate_chat_billing now
    (Chat.set_duration_minutes d (Chat.set_billed_amount b chat))
  = calculate_chat_billing now chat.
Proof. by rewrite !billing_is_duration, accrued_row_duration. Qed.

(** One accrual step on the stored row, when it is due. *)
Lemma process_chat_due_row now min_duration db chat u w :
  chats db !! Chat.id chat = Some chat ->
  Chat.user chat = Some u ->
  wallet_minutes db !! u = Some w ->
  accrual_due now min_duration db chat ->
  let amount := calculate_chat_billing now chat - or_zero (Chat.billed_amount chat) in
  let r := process_chat now false min_duration db chat in
  wallet_minutes r.2 !! u = Some (w - amount)
  /\ chats r.2 !! Chat.id chat
     = Some (Chat.set_duration_minutes (calculate_chat_duration_minutes now chat)
               (Chat.set_billed_amount (calculate_chat_billing now chat) chat)).
Proof.
  intros Hrow Hu Hw Hd. cbn zeta.
  destruct (process_chat_due now min_duration db chat Hd)
    as (u' & w' & Hu' & Hw' & -> & _).
  assert (u' = u) as -> by congruence. assert (w' = w) as -> by congruence.
  rewrite Chat_save_fields_wallet. cbn [wallet_minutes set_wallet_minutes].
  rewrite lookup_insert_eq. split; [done|].
  rewrite (Chat_save_fields_lookup_at _ _ _ _ (Chat.id chat)) by done.
  cbn [chats set_wallet_minutes]. rewrite Hrow. cbn. by destruct chat.
Qed.

(** X9. The accrual charges increments that add up.  A chat with
    nothing recorded yet is visited at [t1] and again at [t2 >= t1] (each
    time as the row then stored); if by [t2] it has reached the minimum
    duration and the wallet could pay for all of it, then after the
    second visit the wallet has lost exactly the amount owed at [t2] and
    the row records that amount, whatever the first visit did. *)
Theorem accrual_pays_as_you_go t1 t2 min_duration db chat u w :
  chats db !! Chat.id chat = Some chat ->
  Chat.user chat = Some u ->
  wallet_minutes db !! u = Some w ->
  Chat.billed_amount chat = 0 ->
  t1 <= t2 ->
  min_duration <= calculate_chat_duration_minutes t2 chat ->
  calculate_chat_billing t2 chat <= w ->
  exists row1 row2,
    let db1 := (process_chat t1 false min_duration db chat).2 in
    let db2 := (process_chat t2 false min_duration db1 row1).2 in
    chats db1 !! Chat.id chat = Some row1
    /\ chats db2 !! Chat.id chat = Some row2
    /\ wallet_minutes db2 !! u = Some (w - calculate_chat_billing t2 chat)
    /\ Chat.billed_amount row2 = calculate_chat_billing t2 chat.
Proof.
  intros Hrow Hu Hw Hzero Ht Hmin Hle.
  pose proof (duration_mono t1 t2 chat Ht) as Hmono.
  rewrite <- !billing_is_duration in Hmono.
  pose proof (duration_nonneg t1 chat) as Hnn1. rewrite <- billing_is_duration in Hnn1.
  set (b1 := calculate_chat_billing t1 chat) in *.
  set (b2 := calculate_chat_billing t2 chat) in *.
  destruct (accrual_due_dec t1 min_duration db chat) as [Hd1|Hq1].
  - (* charged at t1 *)
    pose proof Hd1 as (_ & Hpos1 & _). rewrite Hzero in Hpos1. cbn in Hpos1.
    fold b1 in Hpos1.
    destruct (process_chat_due_row t1 min_duration db chat u w Hrow Hu Hw Hd1)
      as [Hw1 Hrow1].
    cbn zeta in Hw1, Hrow1. rewrite Hzero in Hw1. cbn in Hw1. fold b1 in Hw1, Hrow1.
    rewrite Z.sub_0_r in Hw1.
    set (row1 := Chat.set_duration_minutes _ (Chat.set_billed_amount b1 chat)) in *.
    set (db1 := (process_chat t1 false min_duration db chat).2) in *.
    assert (Chat.id row1 = Chat.id chat /\ Chat.user row1 = Some u
            /\ Chat.billed_amount row1 = b1) as (Hid1 & Hu1 & Hb1)
      by (subst row1; by destruct chat).
    assert (calculate_chat_billing t2 row1 = b2) as Hbill1
      by apply accrued_row_billing.
    assert (calculate_chat_duration_minutes t2 row1
            = calculate_chat_duration_minutes t2 chat) as Hdur1
      by apply accrued_row_duration.
    assert (or_zero b1 = b1) as Hor
      by (unfold or_zero; destruct (Z.eqb_spec b1 0); lia).
    exists row1.
    destruct (Z.lt_ge_cases b1 b2) as [Hlt|Hge].
    + assert (accrual_due t2 min_duration db1 row1) as Hd2.
      { split; [by rewrite Hdur1|]. rewrite Hbill1, Hb1, Hor.
        split; [lia|]. exists u, (w - b1). repeat split; [done..|lia]. }
      destruct (process_chat_due_row t2 min_duration db1 row1 u (w - b1))
        as [Hw2 Hrow2]; [by rewrite Hid1 | done..|].
      cbn zeta in Hw2, Hrow2. rewrite Hbill1, Hb1, Hor, Hid1 in *.
      eexists. split; [done|]. split; [exact Hrow2|].
      split; [rewrite Hw2; f_equal; lia|]. by destruct row1.
    + assert (b2 = b1) as Heq by lia.
      assert (~ accrual_due t2 min_duration db1 row1) as Hq2.
      { intros (_ & Hpos & _). rewrite Hbill1, Hb1, Hor in Hpos. lia. }
      exists row1. cbn zeta. rewrite process_chat_quiet by done.
      split; [done|]. split; [done|]. rewrite Heq. by split.
  - (* nothing charged at t1 *)
    exists chat. cbn zeta. rewrite (process_chat_quiet t1) by done.
    pose proof (duration_nonneg t2 chat) as Hnn2.
    rewrite <- billing_is_duration in Hnn2. fold b2 in Hnn2.
    destruct (Z.lt_ge_cases 0 b2) as [Hpos|Hz].
    + assert (accrual_due t2 min_duration db chat) as Hd2.
      { split; [done|]. rewrite Hzero. cbn. fold b2.
        split; [lia|]. exists u, w. repeat split; [done..|lia]. }
      destruct (process_chat_due_row t2 min_duration db chat u w Hrow Hu Hw Hd2)
        as [Hw2 Hrow2].
      cbn zeta in Hw2, Hrow2. rewrite Hzero in Hw2. cbn in Hw2. fold b2 in Hw2, Hrow2.
      eexists. split; [done|]. split; [exact Hrow2|].
      split; [rewrite Hw2; f_equal; lia|]. by destruct chat.
    + assert (b2 = 0) as Hb2 by lia.
      assert (~ accrual_due t2 min_duration db chat) as Hq2.
      { intros (_ & Hp & _). rewrite Hzero in Hp. cbn in Hp. fold b2 in Hp. lia. }
      exists chat. rewrite process_chat_quiet by done.
      split; [done|]. split; [done|]. rewrite Hb2, Z.sub_0_r. by split.
Qed.

Lemma accrual_pays_as_you_go_witness :
  exists row1 row2,
    let db1 := (process_chat (timedelta_minutes 3) false 1 db_running chat_running).2 in
    let db2 := (process_chat (timedelta_minutes 8) false 1 db1 row1).2 in
    chats db1 !! Chat.id chat_running = Some row1
    /\ chats db2 !! Chat.id chat_running = Some row2
    /\ wallet_minutes db2 !! 7%positive = Some (100 - 8)
    /\ Chat.billed_amount row2 = 8.
Proof.
  assert (calculate_chat_billing (timedelta_minutes 8) chat_running = 8) as E
    by (vm_compute; reflexivity).
  destruct (accrual_pays_as_you_go (timedelta_minutes 3) (timedelta_minutes 8) 1
              db_running chat_running 7%positive 100)
    as (row1 & row2 & H).
  - vm_compute; reflexivity.
  - reflexivity.
  - vm_compute; reflexivity.
  - reflexivity.
  - vm_compute; discriminate.
  - vm_compute; discriminate.
  - vm_compute; discriminate.
  - rewrite E in H. exists row1, row2. exact H.
Defined.

(** * Further properties of message submission *)

Lemma find_recent_duplicate_found now db cid sender text m :
  m ∈ messages db ->
  ChatMessage.chat m = cid -> ChatMessage.sender m = sender ->
  ChatMessage.text m = text ->
  now - timedelta_seconds 2 <= ChatMessage.created_at m ->
  is_Some_b (find_recent_duplicate now db cid sender text) = true.
Proof.
  intros Hin <- <- <- Hrecent. unfold find_recent_duplicate.
  destruct (List.find _ (messages db)) eqn:Hfind; [done|].
  apply list_elem_of_In in Hin.
  pose proof (List.find_none _ _ Hfind m Hin) as Hf. cbn beta in Hf.
  rewrite !Pos.eqb_refl, String.eqb_refl in Hf. cbn in Hf.
  by destruct (Z.leb_spec0 (now - timedelta_seconds 2) (ChatMessage.created_at m)).
Qed.

(** X12. The fallback for frames without a client_message_id: the same
    text from the same sender in the same chat, stored at most two
    seconds ago, makes the submission a duplicate that changes nothing.
    A frame that does carry an id not seen before is never compared by
    text: it is stored even if the same text arrived a moment ago. *)
Theorem resend_without_key_is_duplicate dwm now self db text cmid chat :
  chats db !! self_chat_id self = Some chat ->
  (forall m0,
     truthy cmid = false ->
     m0 ∈ messages db ->
     ChatMessage.chat m0 = Chat.id chat ->
     ChatMessage.sender m0 = self_user self ->
     ChatMessage.text m0 = text ->
     now - timedelta_seconds 2 <= ChatMessage.created_at m0 ->
     save_message dwm now self db text cmid = (Duplicate, self, db))
  /\ (truthy cmid = true ->
      find_by_client_id db (Chat.id chat) (self_user self) cmid = None ->
      exists m act, (save_message dwm now self db text cmid).1.1 = Saved m act
                    /\ ChatMessage.text m = text).
Proof.
  intros Hc. split.
  - intros m0 Ht Hin Hchat Hsender Htext Hrecent.
    apply (save_message_duplicate dwm now self db text cmid chat Hc).
    unfold is_duplicate. rewrite Ht. cbn.
    by rewrite (find_recent_duplicate_found now db _ _ text m0).
  - intros Ht Hnone.
    assert (is_duplicate now db (Chat.id chat) (self_user self) text cmid = false)
      as Hd by (unfold is_duplicate; by rewrite Ht, Hnone).
    rewrite (save_message_fresh dwm now self db text cmid chat Hc Hd).
    destruct (if opt_user_eqb _ _ then _ else _) as [[chat' act] db1].
    cbn. by eexists _, _.
Qed.

Lemma resend_without_key_is_duplicate_witness :
  let db := (save_message 0 10 requester_conn db_running "hello" None).2 in
  let self := mkConsumer 1 7%positive (Some chat_running) true in
  save_message 0 (10 + timedelta_seconds 2) self db "hello" None = (Duplicate, self, db)
  /\ exists m act,
       (save_message 0 11 self db "hello" (Some "k9"%string)).1.1 = Saved m act
       /\ ChatMessage.text m = "hello"%string.
Proof.
  cbn zeta.
  set (db := (save_message 0 10 requester_conn db_running "hello" None).2).
  set (self := mkConsumer 1 7%positive (Some chat_running) true).
  split.
  - destruct (resend_without_key_is_duplicate 0 (10 + timedelta_seconds 2) self db
                "hello" None chat_running eq_refl) as [H _].
    apply (H (ChatMessage.mk 1 1 7%positive "hello" None 10)).
    + reflexivity.
    + vm_compute. apply list_elem_of_here.
    + reflexivity.
    + reflexivity.
    + reflexivity.
    + vm_compute. discriminate.
  - destruct (resend_without_key_is_duplicate 0 11 self db "hello"
                (Some "k9"%string) chat_running eq_refl) as [_ H].
    apply H; reflexivity.
Defined.

(** X13. The message log is append-only under [save_message]: a call
    that reports a saved message has added exactly that message at the
    end of the log, from this sender, in this chat, with the submitted
    text and key and the time of the call; a call that reports a
    duplicate or raises leaves the whole store as it was. *)
Theorem message_log_is_append_only dwm now self db text cmid :
  let r := save_message dwm now self db text cmid in
  match r.1.1 with
  | Saved m act =>
      messages r.2 = messages db ++ [m]
      /\ ChatMessage.sender m = self_user self
      /\ ChatMessage.text m = text
      /\ ChatMessage.client_message_id m = cmid
      /\ ChatMessage.created_at m = now
      /\ exists chat, chats db !! self_chat_id self = Some chat
                      /\ ChatMessage.chat m = Chat.id chat
  | Duplicate | SaveRaised => r.2 = db
  end.
Proof.
  cbn zeta.
  destruct (chats db !! self_chat_id self) as [chat|] eqn:Hc;
    [|by unfold save_message; rewrite Hc].
  destruct (is_duplicate now db (Chat.id chat) (self_user self) text cmid) eqn:Hd.
  { by rewrite (save_message_duplicate dwm now self db text cmid chat Hc Hd). }
  rewrite (save_message_fresh dwm now self db text cmid chat Hc Hd).
  assert (exists chat' act db1,
    (if opt_user_eqb (Chat.user chat) (Some (self_user self))
     then user_branch dwm now chat db
     else let '(chat', db1) := counsellor_branch now chat db in (chat', false, db1))
    = (chat', act, db1) /\ messages db1 = messages db)
    as (chat' & act & db1 & -> & Hm).
  { destruct (opt_user_eqb _ _).
    - pose proof (user_branch_messages dwm now chat db) as Hm.
      destruct (user_branch dwm now chat db) as [[chat' act] db1]. eauto.
    - pose proof (counsellor_branch_messages now chat db) as Hm.
      destruct (counsellor_branch now chat db) as [chat' db1]. eauto. }
  cbn. rewrite Hm. repeat split; eauto.
Qed.

(** X14. Messages sent by the requester over the socket do not refresh
    the stored [last_user_activity] of an active chat (the row is not
    saved on that path).  So when the stored value is more than five
    minutes old, the next counsellor message marks the chat inactive,
    with [ended_at] five minutes after that stored value, no matter how
    recently the requester wrote. *)
Theorem requester_messages_do_not_refresh_activity
    dwm t1 t2 (req csl : Consumer) db text1 cmid1 text2 cmid2 chat last :
  chats db !! self_chat_id req = Some chat ->
  Chat.id chat = self_chat_id req ->
  self_chat_id csl = self_chat_id req ->
  Chat.user chat = Some (self_user req) ->
  Chat.user chat <> Some (self_user csl) ->
  Chat.status chat = active ->
  Chat.last_user_activity chat = Some last ->
  last < t2 - timedelta_minutes 5 ->
  let db1 := (save_message dwm t1 req db text1 cmid1).2 in
  is_duplicate t2 db1 (Chat.id chat) (self_user csl) text2 cmid2 = false ->
  chats db1 !! self_chat_id req = Some chat
  /\ exists row m,
       (save_message dwm t2 csl db1 text2 cmid2).1.1 = Saved m false
       /\ chats (save_message dwm t2 csl db1 text2 cmid2).2 !! self_chat_id req
          = Some row
       /\ Chat.status row = inactive
       /\ Chat.ended_at row
          = Some (or_else (Chat.ended_at chat) (last + timedelta_minutes 5)).
Proof.
  intros Hc Hid Hsame Hreq Hcsl Hst Hla Hlt db1 Hd.
  destruct (active_chat_never_auto_closed dwm t1 req db text1 cmid1 chat Hc Hreq Hst)
    as [Hchats _].
  fold db1 in Hchats.
  assert (chats db1 !! self_chat_id csl = Some chat) as Hc1
    by (by rewrite Hsame, Hchats).
  split; [by rewrite Hchats|].
  rewrite (save_message_fresh dwm t2 csl db1 text2 cmid2 chat Hc1 Hd).
  rewrite (opt_user_eqb_neq _ _ Hcsl).
  destruct (counsellor_branch_stale t2 chat db1 last Hst Hla Hlt)
    as (chat' & -> & Hid' & Hst' & Hend').
  cbn [fst snd create_message chats set_messages].
  rewrite <- Hid, <- Hid', Chat_save_fields_lookup, Hid', Hid, Hchats, Hc.
  eexists _, _. split; [reflexivity|]. split; [reflexivity|]. by cbn.
Qed.

Lemma requester_messages_do_not_refresh_activity_witness :
  let t1 := timedelta_minutes 6 in
  let t2 := timedelta_minutes 6 + timedelta_seconds 1 in
  let db1 := (save_message 0 t1 requester_conn db_running "still here" None).2 in
  exists row m,
    (save_message 0 t2 counsellor_conn db1 "hello?" None).1.1 = Saved m false
    /\ chats (save_message 0 t2 counsellor_conn db1 "hello?" None).2 !! 1%positive
       = Some row
    /\ Chat.status row = inactive
    /\ Chat.ended_at row = Some (timedelta_minutes 5).
Proof.
  cbn zeta.
  destruct (requester_messages_do_not_refresh_activity 0 (timedelta_minutes 6)
              (timedelta_minutes 6 + timedelta_seconds 1) requester_conn
              counsellor_conn db_running "still here" None "hello?" None
              chat_running 0) as [_ H].
  - reflexivity.
  - reflexivity.
  - reflexivity.
  - reflexivity.
  - discriminate.
  - reflexivity.
  - reflexivity.
  - vm_compute. reflexivity.
  - vm_compute. reflexivity.
  - exact H.
Defined.

(** ** What the gateway lets through *)

Lemma lstrip_no_leading_space (s : str) : starts_with_space (lstrip s) = false.
Proof.
  induction s as [|a s IH]; [done|]. cbn [lstrip].
  destruct (is_space a) eqn:Ha; [done|]. cbn [starts_with_space]. exact Ha.
Qed.

Lemma lstrip_fixed (s : str) : starts_with_space s = false -> lstrip s = s.
Proof. destruct s as [|a s]; [done|]. cbn [starts_with_space lstrip]. by intros ->. Qed.

Lemma lstrip_suffix (s : str) : exists p, s = p ++ lstrip s.
Proof.
  induction s as [|a s [p Hp]]; [by exists []|]. cbn [lstrip].
  destruct (is_space a).
  - exists (a :: p). cbn [app]. by rewrite <- Hp.
  - by exists [].
Qed.

Lemma lstrip_all_space (s : str) : forallb is_space s = true -> lstrip s = [].
Proof.
  induction s as [|a s IH]; [done|]. cbn [forallb lstrip].
  intros [Ha Hs]%andb_true_iff. rewrite Ha. by apply IH.
Qed.

Lemma strip_all_space (s : str) : forallb is_space s = true -> strip s = [].
Proof. intros H. unfold strip. by rewrite (lstrip_all_space s H). Qed.

Lemma strip_no_surrounding_space (s : str) :
  starts_with_space (strip s) = false /\ ends_with_space (strip s) = false.
Proof.
  unfold strip, ends_with_space. rewrite rev_involutive.
  split; [|apply lstrip_no_leading_space].
  set (r := rev (lstrip s)).
  destruct (lstrip_suffix r) as [p Hp].
  set (t := lstrip r) in *.
  assert (lstrip s = rev t ++ rev p) as Hs.
  { rewrite <- (rev_involutive (lstrip s)). fold r. rewrite Hp.
    apply rev_app_distr. }
  destruct (rev t) as [|a rt] eqn:Hrt; [done|].
  pose proof (lstrip_no_leading_space s) as Hl. rewrite Hs in Hl. exact Hl.
Qed.

Lemma strip_idempotent (s : str) : strip (strip s) = strip s.
Proof.
  destruct (strip_no_surrounding_space s) as [Hl Hr].
  unfold strip at 1. rewrite (lstrip_fixed _ Hl).
  unfold ends_with_space in Hr. rewrite (lstrip_fixed _ Hr).
  apply rev_involutive.
Qed.

(** The encoding on three samples: one, two and three bytes. *)
Lemma utf8_samples :
  utf8 (str_of_string "hi") = "hi"%string
  /\ utf8 [160%N]
     = String (ascii_of_N 194) (String (ascii_of_N 160) EmptyString)
  /\ utf8 [8364%N]
     = String (ascii_of_N 226)
         (String (ascii_of_N 130) (String (ascii_of_N 172) EmptyString)).
Proof. vm_compute. repeat split. Qed.

(** A code point written in base 64: the encoding spreads these digits
    over its bytes. *)
Lemma utf8_bytes_digits (c : codepoint) :
  exists d0 d1 d2 d3 : N,
    (d0 < 64 /\ d1 < 64 /\ d2 < 64
     /\ c = d0 + 64 * d1 + 4096 * d2 + 262144 * d3
     /\ utf8_bytes c
        = if c <? 128 then [c]
          else if c <? 2048 then [192 + (d1 + 64 * d2 + 4096 * d3); 128 + d0]
          else if c <? 65536 then [224 + (d2 + 64 * d3); 128 + d1; 128 + d0]
          else [240 + d3; 128 + d2; 128 + d1; 128 + d0])%N.
Proof.
  exists (c mod 64)%N, ((c / 64) mod 64)%N, ((c / 4096) mod 64)%N, (c / 262144)%N.
  assert (c / 4096 = c / 64 / 64)%N as H2 by (by rewrite N.Div0.div_div).
  assert (c / 262144 = c / 64 / 64 / 64)%N as H3 by (by rewrite !N.Div0.div_div).
  pose proof (N.mod_upper_bound c 64 ltac:(done)) as B0.
  pose proof (N.mod_upper_bound (c / 64) 64 ltac:(done)) as B1.
  pose proof (N.mod_upper_bound (c / 64 / 64) 64 ltac:(done)) as B2.
  pose proof (N.div_mod c 64 ltac:(done)) as E0.
  pose proof (N.div_mod (c / 64) 64 ltac:(done)) as E1.
  pose proof (N.div_mod (c / 64 / 64) 64 ltac:(done)) as E2.
  unfold utf8_bytes. rewrite H2, H3.
  set (q1 := (c / 64)%N) in *. set (r0 := (c mod 64)%N) in *.
  set (q2 := (q1 / 64)%N) in *. set (r1 := (q1 mod 64)%N) in *.
  set (q3 := (q2 / 64)%N) in *. set (r2 := (q2 mod 64)%N) in *.
  split; [done|]. split; [done|]. split; [done|]. split; [lia|].
  destruct (c <? 128)%N; [done|].
  destruct (c <? 2048)%N; [repeat f_equal; lia|].
  destruct (c <? 65536)%N; repeat f_equal; lia.
Qed.

Lemma utf8_bytes_small c :
  (c < 1114112)%N -> Forall (fun b => (b < 256)%N) (utf8_bytes c).
Proof.
  intros Hc.
  destruct (utf8_bytes_digits c) as (d0 & d1 & d2 & d3 & ? & ? & ? & ? & ->).
  destruct (N.ltb_spec c 128);
    [|destruct (N.ltb_spec c 2048); [|destruct (N.ltb_spec c 65536)]];
    repeat (apply List.Forall_cons; [lia|]); apply List.Forall_nil.
Qed.

(** The first byte tells how many bytes follow, so an encoded text is
    read back one code point at a time. *)
Lemma utf8_bytes_prefix c1 c2 r1 r2 :
  (c1 < 1114112)%N -> (c2 < 1114112)%N ->
  utf8_bytes c1 ++ r1 = utf8_bytes c2 ++ r2 -> c1 = c2 /\ r1 = r2.
Proof.
  intros H1 H2.
  destruct (utf8_bytes_digits c1) as (a0 & a1 & a2 & a3 & ? & ? & ? & ? & ->).
  destruct (utf8_bytes_digits c2) as (b0 & b1 & b2 & b3 & ? & ? & ? & ? & ->).
  destruct (N.ltb_spec c1 128);
    [|destruct (N.ltb_spec c1 2048); [|destruct (N.ltb_spec c1 65536)]];
    (destruct (N.ltb_spec c2 128);
     [|destruct (N.ltb_spec c2 2048); [|destruct (N.ltb_spec c2 65536)]]);
    cbn [app]; intros Heq; injection Heq as Heq; simplify_eq;
    try (split; [|done]); lia.
Qed.

Lemma utf8_flat_inj (s1 s2 : str) :
  Forall (fun c => (c < 1114112)%N) s1 ->
  Forall (fun c => (c < 1114112)%N) s2 ->
  s1 ≫= utf8_bytes = s2 ≫= utf8_bytes -> s1 = s2.
Proof.
  intros H1. revert s2. induction H1 as [|c1 s1 Hc1 _ IH]; intros s2 H2 Heq.
  - destruct H2 as [|c2 s2 Hc2 _]; [done|]. exfalso.
    cbn in Heq. unfold utf8_bytes in Heq.
    destruct (c2 <? 128)%N; [done|]. destruct (c2 <? 2048)%N; [done|].
    by destruct (c2 <? 65536)%N.
  - destruct H2 as [|c2 s2 Hc2 H2].
    + exfalso. cbn in Heq. unfold utf8_bytes in Heq.
      destruct (c1 <? 128)%N; [done|]. destruct (c1 <? 2048)%N; [done|].
      by destruct (c1 <? 65536)%N.
    + cbn [mbind list_bind] in Heq.
      apply utf8_bytes_prefix in Heq as [-> Hrest]; [|done|done].
      f_equal. by apply IH.
Qed.

Lemma ascii_of_N_list_inj (l1 l2 : list N) :
  Forall (fun b => (b < 256)%N) l1 -> Forall (fun b => (b < 256)%N) l2 ->
  ascii_of_N <$> l1 = ascii_of_N <$> l2 -> l1 = l2.
Proof.
  intros H1. revert l2. induction H1 as [|a l1 Ha _ IH]; intros l2 H2 Heq.
  - by destruct l2.
  - destruct H2 as [|b l2 Hb H2]; [done|]. cbn in Heq. injection Heq as He Hr.
    f_equal; [|by apply IH].
    rewrite <- (N_ascii_embedding a Ha), <- (N_ascii_embedding b Hb). by rewrite He.
Qed.

Lemma utf8_flat_small (s : str) :
  Forall (fun c => (c < 1114112)%N) s ->
  Forall (fun b => (b < 256)%N) (s ≫= utf8_bytes).
Proof.
  induction 1 as [|c s Hc _ IH]; [constructor|].
  cbn [mbind list_bind]. apply Forall_app. split; [by apply utf8_bytes_small|done].
Qed.

(** Two texts (code points up to U+10FFFF) with the same bytes are the
    same text: comparing stored texts compares the texts. *)
Lemma utf8_inj (s1 s2 : str) :
  Forall (fun c => (c < 1114112)%N) s1 ->
  Forall (fun c => (c < 1114112)%N) s2 ->
  utf8 s1 = utf8 s2 -> s1 = s2.
Proof.
  intros H1 H2 Heq. unfold utf8 in Heq.
  apply (f_equal String.list_ascii_of_string) in Heq.
  rewrite !String.list_ascii_of_string_of_list_ascii in Heq.
  apply ascii_of_N_list_inj in Heq; [|by apply utf8_flat_small..].
  by apply utf8_flat_inj.
Qed.

(** X10. What [receive] refuses, it refuses whole.  A frame whose
    message consists of white space only (in the sense of
    [str.isspace], the empty message included) is dropped in silence;
    one whose stripped message has more than 5000 characters gets the
    single "too long" error frame; one for a chat row that has
    disappeared gets a single error frame.  In all three cases nothing
    is broadcast and the store and the consumer are untouched. *)
Theorem receive_refusals_change_nothing dwm now self db message cmid :
  (forallb is_space message = true ->
   receive dwm now self db message cmid = ([], [], self, db))
  /\ (5000 < len (strip message) ->
      receive dwm now self db message cmid
      = ([ErrorFrame err_too_long], [], self, db))
  /\ (strip message <> [] ->
      len (strip message) <= 5000 ->
      chats db !! self_chat_id self = None ->
      exists frame,
        receive dwm now self db message cmid = ([ErrorFrame frame], [], self, db)).
Proof.
  unfold receive. repeat split.
  - intros Hall. by rewrite (strip_all_space message Hall).
  - intros Hlong. destruct (decide (strip message = [])) as [He|Hne].
    + rewrite He in Hlong. unfold len in Hlong. cbn in Hlong. lia.
    + rewrite bool_decide_false by done.
      by destruct (Z.ltb_spec0 5000 (len (strip message))).
  - intros Hne Hlen Hmissing.
    rewrite bool_decide_false by done.
    destruct (Z.ltb_spec0 5000 (len (strip message))); [lia|].
    destruct (self_chat self) as [cached|] eqn:Hcache.
    + unfold save_message. rewrite Hmissing. by eexists.
    + unfold get_chat_and_check_access. rewrite Hmissing. by eexists.
Qed.

Lemma receive_refusals_change_nothing_witness :
  receive 0 5 requester_conn db_running [160%N; 32%N; 8232%N] (Some "k1"%string)
  = ([], [], requester_conn, db_running)
  /\ (exists frame,
         receive 0 5 (mkConsumer 5 7%positive (Some chat_running) true) db_running
           (str_of_string "hi") None
         = ([ErrorFrame frame], [], mkConsumer 5 7%positive (Some chat_running) true,
            db_running)).
Proof.
  split.
  - destruct (receive_refusals_change_nothing 0 5 requester_conn db_running
                [160%N; 32%N; 8232%N] (Some "k1"%string)) as (H & _).
    apply H. vm_compute. reflexivity.
  - destruct (receive_refusals_change_nothing 0 5
                (mkConsumer 5 7%positive (Some chat_running) true) db_running
                (str_of_string "hi") None) as (_ & _ & H).
    apply H.
    + vm_compute. discriminate.
    + vm_compute. discriminate.
    + reflexivity.
Defined.




(** The white space that is removed is Unicode's: a message wrapped in
    no-break spaces is stored without them, and 1667 euro signs are
    1667 characters. *)
Lemma receive_strips_unicode_space :
  ChatMessage.text
    <$> messages
          (receive 0 5 (mkConsumer 1 7%positive (Some chat_running) true) db_running
             ([160%N] ++ str_of_string "hi" ++ [160%N]) None).2
  = ["hi"%string]
  /\ len (strip (replicate 1667 8364%N)) = 1667.
Proof. vm_compute. split; reflexivity. Qed.

(** * Properties of the wallet endpoints *)

Lemma get_or_create_profile_spec dwm u db :
  let r := get_or_create_profile dwm u db in
  r.1 = default dwm (wallet_minutes db !! u)
  /\ wallet_minutes r.2 !! u = Some r.1
  /\ (forall u', u' <> u -> wallet_minutes r.2 !! u' = wallet_minutes db !! u')
  /\ chats r.2 = chats db /\ messages r.2 = messages db
  /\ sessions r.2 = sessions db /\ counsellor_users r.2 = counsellor_users db.
Proof.
  unfold get_or_create_profile.
  destruct (wallet_minutes db !! u) as [w|] eqn:E; cbn.
  - by rewrite E.
  - rewrite lookup_insert_eq. repeat split; try done.
    intros u' Hne. by rewrite lookup_insert_ne.
Qed.

(** X16. A recharge credits exactly what it read, to one wallet.  An
    accepted request adds the positive integer taken from [amount] (or
    from [minutes] when [amount] is missing or falsy) to the caller's
    balance, a missing profile counting with the column default; no
    other wallet, chat, message or session is touched.  A refused
    request leaves the whole store as it was. *)
Theorem recharge_credits_exactly dwm u amount minutes db :
  let r := WalletRechargeView_post dwm u amount minutes db in
  match r.1 with
  | RechargeOk w =>
      (exists v a,
          py_or amount minutes = Some v /\ rv_int v = Some a /\ 0 < a
          /\ w = default dwm (wallet_minutes db !! u) + a)
      /\ wallet_minutes r.2 !! u = Some w
      /\ (forall u', u' <> u -> wallet_minutes r.2 !! u' = wallet_minutes db !! u')
      /\ chats r.2 = chats db /\ messages r.2 = messages db
      /\ sessions r.2 = sessions db
  | RechargeRequired | RechargeNotPositive | RechargeInvalid => r.2 = db
  end.
Proof.
  unfold WalletRechargeView_post.
  destruct (py_or amount minutes) as [v|]; [|done].
  destruct (rv_int v) as [a|] eqn:Ha; [|done].
  destruct (Z.leb_spec a 0) as [Hle|Hlt]; [done|].
  pose proof (get_or_create_profile_spec dwm u db) as H.
  destruct (get_or_create_profile dwm u db) as [bal db1].
  cbn in H. destruct H as (Hbal & _ & Hothers & Hc & Hm & Hs & _).
  cbn. rewrite lookup_insert_eq. split; [|split; [|split]].
  - exists v, a. by rewrite Hbal.
  - done.
  - intros u' Hne. rewrite lookup_insert_ne by done. by apply Hothers.
  - done.
Qed.

(** X17. A usage charge never overdraws.  An accepted request debits
    minutes times the rate of the service, for 1 to 240 minutes, from a
    balance that reached the minimum of the service and covers the
    charge, so the new balance is not negative; a request refused for
    its balance reports that balance and leaves it in the wallet.  No
    other wallet, chat, message or session is touched. *)
Theorem usage_never_overdraws dwm u service_name minutes db :
  let r := WalletUsageView_post dwm u service_name minutes db in
  let before := default dwm (wallet_minutes db !! u) in
  match r.1 with
  | UsageOk s m rate charged w =>
      1 <= m <= 240 /\ rate = SERVICE_RATE_MAP s /\ charged = m * rate
      /\ SERVICE_MIN_BALANCE_MAP s <= before
      /\ w = before - charged /\ 0 <= w
      /\ wallet_minutes r.2 !! u = Some w
  | UsageBelowMinimum w _ | UsageInsufficient w _ =>
      w = before /\ wallet_minutes r.2 !! u = Some before
  | UsageInvalid => r.2 = db
  end
  /\ (forall u', u' <> u -> wallet_minutes r.2 !! u' = wallet_minutes db !! u')
  /\ chats r.2 = chats db /\ messages r.2 = messages db
  /\ sessions r.2 = sessions db.
Proof.
  unfold WalletUsageView_post, WalletUsageSerializer.
  set (choice := if String.eqb service_name "call" then Some service_call
                 else if String.eqb service_name "chat" then Some service_chat
                 else None).
  destruct choice as [s|]; [|done].
  destruct (Z.leb_spec 1 minutes) as [H1|H1]; [|done].
  destruct (Z.leb_spec minutes 240) as [H2|H2]; [|done].
  cbn [andb].
  pose proof (get_or_create_profile_spec dwm u db) as H.
  destruct (get_or_create_profile dwm u db) as [bal db1].
  cbn in H. destruct H as (Hbal & Hu & Hothers & Hc & Hm & Hs & _).
  destruct (Z.ltb_spec bal (SERVICE_MIN_BALANCE_MAP s)) as [Hmin|Hmin].
  { cbn. rewrite <- Hbal. done. }
  destruct (Z.ltb_spec bal (minutes * SERVICE_RATE_MAP s)) as [Hch|Hch].
  { cbn. rewrite <- Hbal. done. }
  cbn. rewrite lookup_insert_eq, <- Hbal.
  split; [repeat split; try done; lia|].
  split; [|done].
  intros u' Hne. rewrite lookup_insert_ne by done. by apply Hothers.
Qed.

(** The wallet endpoints keep every balance non-negative: where no
    wallet is negative and the column default is not negative, none is
    negative after a recharge or a usage charge, whatever the request. *)
Theorem wallet_endpoints_keep_wallets_nonneg dwm u amount minutes
    service_name m db :
  0 <= dwm ->
  wallets_nonneg db ->
  wallets_nonneg (WalletRechargeView_post dwm u amount minutes db).2
  /\ wallets_nonneg (WalletUsageView_post dwm u service_name m db).2.
Proof.
  intros Hd Hnn.
  assert (Hins : forall db1 w0,
             0 <= w0 ->
             (forall u' w', wallet_minutes db1 !! u' = Some w' -> 0 <= w') ->
             wallets_nonneg
               (set_wallet_minutes (<[u := w0]> (wallet_minutes db1)) db1)).
  { intros db1 w0 Hw0 H1 u' w'. cbn.
    destruct (decide (u' = u)) as [->|Hne].
    - rewrite lookup_insert_eq. intros [= <-]. done.
    - rewrite lookup_insert_ne by done. apply H1. }
  assert (Hgoc : let r := get_or_create_profile dwm u db in
                 0 <= r.1 /\ wallets_nonneg r.2).
  { unfold get_or_create_profile.
    destruct (wallet_minutes db !! u) as [w|] eqn:E; cbn.
    - split; [eauto|done].
    - split; [done|]. by apply Hins. }
  cbn zeta in Hgoc.
  split.
  - unfold WalletRechargeView_post.
    destruct (py_or amount minutes) as [v|]; [|done].
    destruct (rv_int v) as [a|]; [|done].
    destruct (Z.leb_spec a 0) as [Hle|Hlt]; [done|].
    destruct (get_or_create_profile dwm u db) as [bal db1].
    cbn in Hgoc. destruct Hgoc as [Hbal Hnn1].
    cbn [snd]. apply Hins; [lia|done].
  - unfold WalletUsageView_post.
    destruct (WalletUsageSerializer service_name m) as [[s m']|]; [|done].
    destruct (get_or_create_profile dwm u db) as [bal db1].
    cbn in Hgoc. destruct Hgoc as [Hbal Hnn1].
    destruct (Z.ltb_spec bal (SERVICE_MIN_BALANCE_MAP s)) as [Hmin|Hmin]; [done|].
    destruct (Z.ltb_spec bal (m' * SERVICE_RATE_MAP s)) as [Hch|Hch]; [done|].
    cbn [snd]. apply Hins; [lia|done].
Qed.

Lemma db_running_wallets_nonneg : wallets_nonneg db_running.
Proof.
  intros u w. unfold db_running; cbn [wallet_minutes].
  destruct (decide (u = 7%positive)) as [->|Hne].
  - rewrite lookup_singleton_eq. intros [= <-]. lia.
  - rewrite lookup_singleton_ne by done. discriminate.
Qed.

Lemma wallet_endpoints_keep_wallets_nonneg_witness :
  0 <= 0
  /\ wallets_nonneg db_running
  /\ wallets_nonneg
       (WalletRechargeView_post 0 7%positive (Some (req_int 50)) None db_running).2
  /\ wallets_nonneg (WalletUsageView_post 0 7%positive "chat" 10 db_running).2.
Proof.
  split; [lia|]. split; [exact db_running_wallets_nonneg|].
  apply wallet_endpoints_keep_wallets_nonneg;
    [lia | exact db_running_wallets_nonneg].
Defined.

(** * Properties of opening and accepting a chat *)

Lemma next_id_above (l : list positive) k :
  k ∈ l ->
  (k < foldr (fun k next => Pos.max (Pos.succ k) next) 1 l)%positive.
Proof.
  induction l as [|a l IH]; intros Hin.
  - by apply elem_of_nil in Hin.
  - apply elem_of_cons in Hin as [->|Hin]; cbn [foldr].
    + lia.
    + specialize (IH Hin). lia.
Qed.

Lemma next_chat_id_fresh db : chats db !! next_chat_id db = None.
Proof.
  destruct (chats db !! next_chat_id db) as [c|] eqn:E; [|done].
  exfalso.
  assert (next_chat_id db ∈ (map_to_list (chats db)).*1) as Hin.
  { apply list_elem_of_fmap. exists (next_chat_id db, c). split; [done|].
    by apply elem_of_map_to_list. }
  apply next_id_above in Hin. fold (next_chat_id db) in Hin. lia.
Qed.

(** X18. A chat is opened only on a funded wallet, and opening costs
    nothing.  A request that creates a chat came from a caller holding
    at least 1 (a missing profile counting with the column default); the
    new row is queued, belongs to the caller and sits under an id no
    chat had, and every chat there was is still there unchanged.  A
    caller below 1 is refused with that balance and no chat is created.
    In every case the caller's wallet holds afterwards what it held
    before, and messages and sessions are untouched. *)
Theorem chat_creation_needs_a_balance dwm blank now u body_valid db :
  let r := ChatCreateView_post dwm blank now u body_valid db in
  let before := default dwm (wallet_minutes db !! u) in
  match r.1 with
  | Created chat =>
      1 <= before /\ body_valid = true
      /\ chats db !! Chat.id chat = None
      /\ Chat.user chat = Some u /\ Chat.status chat = queued
      /\ chats r.2 = <[Chat.id chat := chat]> (chats db)
  | CreateRefused w => w = before /\ before < 1 /\ chats r.2 = chats db
  | CreateInvalid => chats r.2 = chats db
  end
  /\ wallet_minutes r.2 !! u = Some before
  /\ (forall u', u' <> u -> wallet_minutes r.2 !! u' = wallet_minutes db !! u')
  /\ messages r.2 = messages db /\ sessions r.2 = sessions db.
Proof.
  unfold ChatCreateView_post, check_chat_wallet_balance.
  set (g := match wallet_minutes db !! u with
            | Some w => (w, db)
            | None => (dwm, set_wallet_minutes (<[u := dwm]> (wallet_minutes db)) db)
            end).
  pose proof (get_or_create_profile_spec dwm u db) as H.
  unfold get_or_create_profile in H. fold g in H.
  destruct g as [bal db1]. cbn in H.
  destruct H as (Hbal & Hu & Hothers & Hc & Hm & Hs & _).
  rewrite <- Hbal.
  destruct (Z.ltb_spec bal 1) as [Hlt|Hge]; cbn.
  { by rewrite Hu. }
  destruct body_valid; cbn.
  - rewrite Hu, Hc. repeat split; try done.
    assert (next_chat_id db1 = next_chat_id db) as ->
      by (unfold next_chat_id; by rewrite Hc).
    apply next_chat_id_fresh.
  - by rewrite Hu.
Qed.

Lemma accept_columns now u (chat : Chat.t) :
  foldl
    (Chat.copy_field now
       (Chat.set_started_at (Some now)
          (Chat.set_status active (Chat.set_counsellor (Some u) chat))))
    chat
    [Chat.f_counsellor; Chat.f_status; Chat.f_started_at; Chat.f_updated_at]
  = Chat.set_updated_at now
      (Chat.set_started_at (Some now)
         (Chat.set_status active (Chat.set_counsellor (Some u) chat))).
Proof. by destruct chat. Qed.

(** What an accepted request did, for a row stored under its own id. *)
Lemma accept_accepted now u chat_id db chat :
  u ∈ counsellor_users db ->
  chats db !! chat_id = Some chat ->
  Chat.id chat = chat_id ->
  Chat.status chat = queued ->
  is_Some (Chat.user chat) ->
  let row :=
    Chat.set_updated_at now
      (Chat.set_started_at (Some now)
         (Chat.set_status active (Chat.set_counsellor (Some u) chat))) in
  ChatAcceptView_patch now u chat_id db
  = (Accepted row, set_chats (alter (fun _ => row) chat_id (chats db)) db).
Proof.
  intros Hu Hc Hid Hst [r Hr]. cbn zeta. unfold ChatAcceptView_patch.
  rewrite bool_decide_true by done. cbn [negb]. rewrite Hc, Hst, Hr. cbn [Status_eqb negb].
  set (obj := Chat.set_started_at (Some now)
                (Chat.set_status active (Chat.set_counsellor (Some u) chat))).
  assert (Chat.id obj = chat_id) as Hobj by (subst obj; by destruct chat).
  rewrite (Chat_save_fields_lookup_at now obj _ db chat_id Hobj), Hc.
  cbn [fmap option_fmap option_map]. subst obj. rewrite accept_columns.
  f_equal. unfold Chat_save_fields, update_chat. f_equal.
  assert (Chat.id (Chat.set_started_at (Some now)
                     (Chat.set_status active (Chat.set_counsellor (Some u) chat)))
          = chat_id) as -> by (by destruct chat).
  apply map_eq. intros k. destruct (decide (k = chat_id)) as [->|Hne].
  - rewrite !lookup_alter_eq, Hc. cbn [fmap option_fmap option_map].
    by rewrite accept_columns.
  - by rewrite !lookup_alter_ne.
Qed.

(** X19. Accepting assigns the counsellor and starts the clock, and
    nothing else.  In a store whose rows sit under their own ids, an
    accepted request came from a counsellor and found the chat queued;
    the stored row is the old one with this counsellor, status active
    and [started_at] at the time of the call, every other chat is
    unchanged.  A request that is not accepted changes nothing.  Wallets,
    messages and sessions are never touched: no balance is asked for and
    nothing is charged at this point. *)
Theorem accept_assigns_and_starts_clock now u chat_id db :
  store_wf db ->
  let r := ChatAcceptView_patch now u chat_id db in
  match r.1 with
  | Accepted row =>
      u ∈ counsellor_users db
      /\ (exists chat,
             chats db !! chat_id = Some chat /\ Chat.status chat = queued
             /\ row = Chat.set_updated_at now
                        (Chat.set_started_at (Some now)
                           (Chat.set_status active
                              (Chat.set_counsellor (Some u) chat))))
      /\ chats r.2 !! chat_id = Some row
      /\ (forall k, k <> chat_id -> chats r.2 !! k = chats db !! k)
  | AcceptForbidden | AcceptNotFound | AcceptRaised => r.2 = db
  end
  /\ wallet_minutes r.2 = wallet_minutes db
  /\ messages r.2 = messages db /\ sessions r.2 = sessions db.
Proof.
  intros Hwf. cbn zeta.
  destruct (decide (u ∈ counsellor_users db)) as [Hu|Hu]; cycle 1.
  { unfold ChatAcceptView_patch. by rewrite bool_decide_false by done. }
  destruct (chats db !! chat_id) as [chat|] eqn:Hc; cycle 1.
  { unfold ChatAcceptView_patch. by rewrite bool_decide_true, Hc by done. }
  destruct (decide (Chat.status chat = queued)) as [Hst|Hst]; cycle 1.
  { unfold ChatAcceptView_patch. rewrite bool_decide_true, Hc by done.
    cbn [negb]. by destruct (Chat.status chat). }
  destruct (Chat.user chat) as [r|] eqn:Hr; cycle 1.
  { unfold ChatAcceptView_patch. rewrite bool_decide_true, Hc, Hst, Hr by done.
    done. }
  rewrite (accept_accepted now u chat_id db chat Hu Hc (Hwf _ _ Hc) Hst)
    by (by rewrite Hr).
  cbn. rewrite lookup_alter_eq, Hc. cbn. repeat split; try done.
  - by exists chat.
  - intros k Hne. by rewrite lookup_alter_ne.
Qed.

(** X20. A chat is accepted once.  After an accepted request, a second
    request for the same chat, from any account at any time, is turned
    away (not found for a counsellor, forbidden for anyone else) and
    leaves the store as the first request left it: the first counsellor
    keeps the chat and the clock is not restarted. *)
Theorem accept_is_first_come now1 now2 u1 u2 chat_id db row :
  store_wf db ->
  (ChatAcceptView_patch now1 u1 chat_id db).1 = Accepted row ->
  let db1 := (ChatAcceptView_patch now1 u1 chat_id db).2 in
  ChatAcceptView_patch now2 u2 chat_id db1
  = (if is_counselor db u2 then AcceptNotFound else AcceptForbidden, db1)
  /\ chats db1 !! chat_id = Some row
  /\ Chat.counsellor row = Some u1 /\ Chat.started_at row = Some now1.
Proof.
  intros Hwf Hacc. cbn zeta.
  destruct (decide (u1 ∈ counsellor_users db)) as [Hu|Hu]; cycle 1.
  { unfold ChatAcceptView_patch in Hacc.
    by rewrite bool_decide_false in Hacc by done. }
  destruct (chats db !! chat_id) as [chat|] eqn:Hc; cycle 1.
  { unfold ChatAcceptView_patch in Hacc.
    by rewrite bool_decide_true, Hc in Hacc by done. }
  destruct (decide (Chat.status chat = queued)) as [Hst|Hst]; cycle 1.
  { unfold ChatAcceptView_patch in Hacc.
    rewrite bool_decide_true, Hc in Hacc by done.
    cbn [negb] in Hacc. by destruct (Chat.status chat). }
  destruct (Chat.user chat) as [r|] eqn:Hr; cycle 1.
  { unfold ChatAcceptView_patch in Hacc.
    by rewrite bool_decide_true, Hc, Hst, Hr in Hacc by done. }
  rewrite (accept_accepted now1 u1 chat_id db chat Hu Hc (Hwf _ _ Hc) Hst) in *
    by (by rewrite Hr).
  cbn [fst snd] in *. injection Hacc as <-.
  split; [|split; [|split]].
  - set (db1 := set_chats _ db).
    assert (counsellor_users db1 = counsellor_users db) as Hcu by done.
    assert (exists row, chats db1 !! chat_id = Some row
                        /\ Chat.status row = active) as (row & Hrow & Hact).
    { eexists. subst db1. cbn [chats set_chats].
      rewrite lookup_alter_eq, Hc. cbn [fmap option_fmap option_map].
      split; [reflexivity|]. by destruct chat. }
    unfold ChatAcceptView_patch, is_counselor. rewrite Hcu.
    destruct (bool_decide (u2 ∈ counsellor_users db)); [|done]. cbn [negb].
    by rewrite Hrow, Hact.
  - cbn. by rewrite lookup_alter_eq, Hc.
  - by destruct chat.
  - by destruct chat.
Qed.

Lemma db_running_wf : store_wf db_running.
Proof.
  intros k c. unfold db_running. cbn [chats].
  destruct (decide (k = 1%positive)) as [->|Hne].
  - rewrite lookup_singleton_eq. by intros [= <-].
  - by rewrite lookup_singleton_ne.
Qed.

Lemma db_queued_wf : store_wf db_queued.
Proof.
  intros k c. unfold db_queued. cbn [chats].
  destruct (decide (k = 2%positive)) as [->|Hne].
  - rewrite lookup_singleton_eq. by intros [= <-].
  - by rewrite lookup_singleton_ne.
Qed.

Lemma accept_assigns_and_starts_clock_witness :
  store_wf db_queued
  /\ (ChatAcceptView_patch 5 9%positive 2%positive db_queued).1
     = Accepted
         (Chat.mk 2 (Some 7%positive) (Some 9%positive) active (Some 0) (Some 5)
            None None 5 0 0 false None)
  /\ wallet_minutes (ChatAcceptView_patch 5 9%positive 2%positive db_queued).2
     = wallet_minutes db_queued.
Proof.
  pose proof (accept_assigns_and_starts_clock 5 9%positive 2%positive db_queued
                db_queued_wf) as H.
  cbn zeta in H. destruct H as (_ & Hw & _).
  split; [exact db_queued_wf|]. split; [vm_compute; reflexivity|exact Hw].
Defined.

Lemma accept_is_first_come_witness :
  let db1 := (ChatAcceptView_patch 5 9%positive 2%positive db_queued).2 in
  ChatAcceptView_patch 60 9%positive 2%positive db1 = (AcceptNotFound, db1).
Proof.
  assert ((ChatAcceptView_patch 5 9%positive 2%positive db_queued).1
          = Accepted
              (Chat.mk 2 (Some 7%positive) (Some 9%positive) active (Some 0)
                 (Some 5) None None 5 0 0 false None)) as Hacc
    by (vm_compute; reflexivity).
  destruct (accept_is_first_come 5 60 9%positive 9%positive 2%positive db_queued _
              db_queued_wf Hacc) as [H _].
  exact H.
Defined.

(** * Further properties of [SessionEndView.post] *)

(** The request is routed to the branch that ends the chat directly. *)
Lemma post_ends_directly nf now u sid db chat :
  find_session_by_id db u sid = None ->
  chats db !! sid = Some chat ->
  Chat.status chat = active \/ Chat.status chat = inactive ->
  Chat.user chat = Some u \/ Chat.counsellor chat = Some u ->
  is_Some (Chat.user chat) ->
  is_Some (Chat.counsellor chat) ->
  find_session_for_pair db chat = None ->
  SessionEndView_post nf now u sid db = end_chat_directly now chat db.
Proof.
  intros Hnone Hc Hopen Hparty [requester Hreq] [assignee Hass] Hpair.
  unfold SessionEndView_post. rewrite Hnone, Hc.
  assert (opt_user_eqb (Chat.user chat) (Some u)
          || is_Some_b (Chat.counsellor chat)
             && opt_user_eqb (Chat.counsellor chat) (Some u) = true) as ->.
  { destruct Hparty as [-> | Hcu].
    - by rewrite opt_user_eqb_refl.
    - rewrite Hcu, opt_user_eqb_refl. cbn. by rewrite orb_true_r. }
  cbn [negb].
  assert (is_Some_b (Chat.user chat) && is_Some_b (Chat.counsellor chat) = true)
    as -> by (by rewrite Hreq, Hass).
  rewrite Hpair, Hass.
  by destruct Hopen as [-> | ->].
Qed.

(** Whole seconds against microseconds: the minutes in the response are
    the billed minutes or one less. *)
Lemma reported_minutes_bounds (d : Z) :
  0 < d ->
  let secs := Z.quot d 1000000 in
  - ((- secs) / 60) <= ceil_minutes d <= - ((- secs) / 60) + 1.
Proof.
  intros Hd. cbn zeta. rewrite Z.quot_div_nonneg by lia.
  pose proof (ceil_minutes_bounds d) as Hc.
  pose proof (Z.div_mod d 1000000 ltac:(lia)) as H1.
  pose proof (Z.mod_pos_bound d 1000000 ltac:(lia)) as H2.
  set (secs := d / 1000000) in *.
  pose proof (Z.div_mod (- secs) 60 ltac:(lia)) as H3.
  pose proof (Z.mod_pos_bound (- secs) 60 ltac:(lia)) as H4.
  set (q := (- secs) / 60) in *.
  lia.
Qed.

(** Ending a started chat whose requester can pay: the billed window
    runs from [started_at] to [ended_at], or to the time of the call
    when [ended_at] is not set. *)
Lemma end_chat_directly_charges now chat db r w s :
  Chat.is_billed chat = false ->
  Chat.started_at chat = Some s ->
  Chat.user chat = Some r ->
  wallet_minutes db !! r = Some w ->
  s < end_time now chat ->
  ceil_minutes (end_time now chat - s) <= w ->
  let e := end_chat_directly now chat db in
  let owed := ceil_minutes (end_time now chat - s) in
  let secs := Z.quot (end_time now chat - s) 1000000 in
  e.1 = ChatEnded (Chat.id chat) (Some (end_time now chat)) secs
          (- ((- secs) / 60)) (Some (owed, owed))
  /\ wallet_minutes e.2 !! r = Some (w - owed)
  /\ exists row,
       chats e.2 !! Chat.id chat = Some row
       /\ Chat.status row = completed /\ Chat.is_billed row = true
       /\ Chat.billed_amount row = owed
       /\ Chat.ended_at row = Some (end_time now chat).
Proof.
  intros Hb Hs Hu Hw Hlt Hle. cbn zeta.
  set (stop := end_time now chat) in *.
  unfold end_chat_directly.
  match goal with |- context [Chat_save now ?c db] => set (closed := c) end.
  assert (closed
          = Chat.set_ended_at (Some stop) (Chat.set_status completed chat))
    as Hclosed.
  { subst closed stop. unfold end_time.
    destruct chat as [i u0 c st cr sa ea la ua ba dm ib bp]. cbn in Hs. subst sa.
    by destruct ea. }
  clearbody closed. subst closed.
  set (closed := Chat.set_ended_at (Some stop) (Chat.set_status completed chat)).
  set (row0 := Chat.set_updated_at now closed).
  set (db0 := Chat_save now closed db).
  assert (Chat.id closed = Chat.id chat) as Hid by done.
  assert (chats db0 !! Chat.id chat = Some row0) as Hc0.
  { subst db0. unfold Chat_save. cbn [chats set_chats]. rewrite Hid.
    by rewrite lookup_insert_eq. }
  assert (wallet_minutes db0 !! r = Some w) as Hw0 by done.
  assert (Chat.is_billed row0 = false) as Hb0 by done.
  assert (Chat.started_at row0 = Some s) as Hs0 by done.
  assert (Chat.user row0 = Some r) as Hu0 by done.
  assert (end_time now row0 = stop) as Hstop by done.
  assert (closed_at now row0 = row0) as Hcl by done.
  assert (calculate_chat_duration_minutes now row0 = ceil_minutes (stop - s))
    as Hdur.
  { rewrite (duration_running now row0 s Hs0); rewrite Hstop; done. }
  assert (calculate_chat_billing now row0 = ceil_minutes (stop - s)) as Hbill
    by (by rewrite billing_is_duration).
  pose proof (ceil_minutes_pos (stop - s) ltac:(lia)) as Hpos.
  rewrite Hid, Hc0, Hb0.
  destruct (settle_charges_whole_amount now db0 (Chat.id chat) row0 r w s Hc0 Hb0
              Hs0 Hu0 Hw0) as [Hok Hwal]; [rewrite Hbill; lia|].
  pose proof (settle_started_row now db0 (Chat.id chat) row0 s Hc0 Hb0 Hs0) as Hrow.
  cbn zeta in Hrow. rewrite Hok, Hbill, Hdur, Hcl in Hrow.
  rewrite Hbill in Hwal.
  set (db1 := (calculate_and_deduct_chat_billing now db0 (Chat.id chat)).2) in *.
  unfold billing_info_of. rewrite Hrow.
  assert (Chat.started_at
            (finalize_billing now (ceil_minutes (stop - s))
               (ceil_minutes (stop - s)) row0) = Some s) as -> by done.
  assert (Chat.ended_at
            (finalize_billing now (ceil_minutes (stop - s))
               (ceil_minutes (stop - s)) row0) = Some stop) as Hend by done.
  rewrite Hend.
  split; [reflexivity|]. split; [exact Hwal|].
  eexists. split; [exact Hrow|]. by repeat split.
Qed.

Lemma deduct_short db chat amt u w :
  Chat.user chat = Some u -> wallet_minutes db !! u = Some w ->
  0 < amt -> w < amt ->
  deduct_chat_billing db chat amt = (false, db).
Proof.
  intros Hu Hw Hpos Hlt. unfold deduct_chat_billing. rewrite Hu, Hw.
  destruct (Z.leb_spec0 amt 0); [lia|].
  by destruct (Z.ltb_spec0 w amt); [|lia].
Qed.

(** Settlement of a started chat whose requester cannot pay fails and
    keeps every wallet. *)
Lemma settle_short now db cid chat u w s :
  chats db !! cid = Some chat ->
  Chat.is_billed chat = false ->
  Chat.started_at chat = Some s ->
  Chat.user chat = Some u ->
  wallet_minutes db !! u = Some w ->
  0 < calculate_chat_billing now chat ->
  w < calculate_chat_billing now chat ->
  let r := calculate_and_deduct_chat_billing now db cid in
  r.1 = false /\ wallet_minutes r.2 = wallet_minutes db.
Proof.
  intros Hc Hb Hs Hu Hw Hpos Hlt. cbn zeta.
  rewrite (settle_started now db cid chat s Hc Hb Hs).
  set (owed := calculate_chat_billing now chat) in *.
  set (db1 := match Chat.ended_at chat with
              | Some _ => db
              | None => update_chat cid (Chat.set_ended_at (Some now)) db
              end).
  assert (wallet_minutes db1 = wallet_minutes db) as Hw1
    by (subst db1; by destruct (Chat.ended_at chat)).
  assert (Chat.user (closed_at now chat) = Some u) as Hu1
    by (unfold closed_at; by destruct (Chat.ended_at chat)).
  destruct (Z.ltb_spec0 0 owed); [|lia].
  rewrite (deduct_short db1 _ owed u w Hu1) by (rewrite ?Hw1; done || lia).
  destruct (Z.eqb_spec owed 0); [lia|].
  cbn [fst snd orb]. split; [done|]. by rewrite update_chat_wallet.
Qed.

(** Ending a started chat whose requester cannot pay: the chat is closed
    with the amount owed on its row, nothing is charged and the response
    carries no billing. *)
Lemma end_chat_directly_unpaid now chat db r w s :
  Chat.is_billed chat = false ->
  Chat.started_at chat = Some s ->
  Chat.user chat = Some r ->
  wallet_minutes db !! r = Some w ->
  s < end_time now chat ->
  w < ceil_minutes (end_time now chat - s) ->
  let e := end_chat_directly now chat db in
  let owed := ceil_minutes (end_time now chat - s) in
  let secs := Z.quot (end_time now chat - s) 1000000 in
  e.1 = ChatEnded (Chat.id chat) (Some (end_time now chat)) secs
          (- ((- secs) / 60)) None
  /\ wallet_minutes e.2 = wallet_minutes db
  /\ exists row,
       chats e.2 !! Chat.id chat = Some row
       /\ Chat.status row = completed /\ Chat.is_billed row = false
       /\ Chat.billed_amount row = owed
       /\ Chat.ended_at row = Some (end_time now chat).
Proof.
  intros Hb Hs Hu Hw Hlt Hshort. cbn zeta.
  set (stop := end_time now chat) in *.
  unfold end_chat_directly.
  match goal with |- context [Chat_save now ?c db] => set (closed := c) end.
  assert (closed
          = Chat.set_ended_at (Some stop) (Chat.set_status completed chat))
    as Hclosed.
  { subst closed stop. unfold end_time.
    destruct chat as [i u0 c st cr sa ea la ua ba dm ib bp]. cbn in Hs. subst sa.
    by destruct ea. }
  clearbody closed. subst closed.
  set (closed := Chat.set_ended_at (Some stop) (Chat.set_status completed chat)).
  set (row0 := Chat.set_updated_at now closed).
  set (db0 := Chat_save now closed db).
  assert (Chat.id closed = Chat.id chat) as Hid by done.
  assert (chats db0 !! Chat.id chat = Some row0) as Hc0.
  { subst db0. unfold Chat_save. cbn [chats set_chats]. rewrite Hid.
    by rewrite lookup_insert_eq. }
  assert (wallet_minutes db0 !! r = Some w) as Hw0 by done.
  assert (Chat.is_billed row0 = false) as Hb0 by done.
  assert (Chat.started_at row0 = Some s) as Hs0 by done.
  assert (Chat.user row0 = Some r) as Hu0 by done.
  assert (end_time now row0 = stop) as Hstop by done.
  assert (closed_at now row0 = row0) as Hcl by done.
  assert (calculate_chat_duration_minutes now row0 = ceil_minutes (stop - s))
    as Hdur.
  { rewrite (duration_running now row0 s Hs0); rewrite Hstop; done. }
  assert (calculate_chat_billing now row0 = ceil_minutes (stop - s)) as Hbill
    by (by rewrite billing_is_duration).
  pose proof (ceil_minutes_pos (stop - s) ltac:(lia)) as Hpos.
  rewrite Hid, Hc0, Hb0.
  destruct (settle_short now db0 (Chat.id chat) row0 r w s Hc0 Hb0 Hs0 Hu0 Hw0)
    as [Hok Hwal]; [rewrite Hbill; lia|rewrite Hbill; lia|].
  pose proof (settle_started_row now db0 (Chat.id chat) row0 s Hc0 Hb0 Hs0) as Hrow.
  cbn zeta in Hrow. rewrite Hok, Hbill, Hdur, Hcl in Hrow.
  set (db1 := (calculate_and_deduct_chat_billing now db0 (Chat.id chat)).2) in *.
  unfold billing_info_of. rewrite Hrow.
  assert (Chat.started_at
            (record_billing (ceil_minutes (stop - s)) (ceil_minutes (stop - s)) row0)
          = Some s) as -> by done.
  assert (Chat.ended_at
            (record_billing (ceil_minutes (stop - s)) (ceil_minutes (stop - s)) row0)
          = Some stop) as Hend by done.
  assert (Chat.is_billed
            (record_billing (ceil_minutes (stop - s)) (ceil_minutes (stop - s)) row0)
          = false) as Hunbilled by done.
  rewrite Hend, Hunbilled.
  split; [reflexivity|]. split; [exact Hwal|].
  eexists. split; [exact Hrow|]. by repeat split.
Qed.

(** X22. Ending a started chat charges the billed window once, or not
    at all, and says so.  The conditions: the id names no session record
    of the caller and names a chat stored under its own id; the chat is
    active or inactive, the caller is its requester or its counsellor,
    it has a requester and a counsellor, the pair has no session record,
    the chat is not yet billed and has a [started_at]; the window, which
    runs from [started_at] to [ended_at], or to the time of the call
    when [ended_at] is not set, is not empty; and the requester has a
    wallet.  Then the row ends completed, with [ended_at] at the end of
    the window and the minutes of the window, rounded up, as its
    [billed_amount].  When the wallet holds at least those minutes it
    loses exactly them, the row is marked billed and the response
    reports that billing; otherwise the wallet is left as it is, the row
    stays unbilled and the response carries no billing.  For a chat that
    was marked inactive the window therefore stops where that mark put
    [ended_at], however late the request comes.  The [duration_minutes]
    of the response is computed from whole seconds and can be one less
    than the minutes of the window, never more and never less than
    that. *)
Theorem ending_open_chat_charges_window nf now u sid db chat r w s :
  find_session_by_id db u sid = None ->
  chats db !! sid = Some chat ->
  Chat.id chat = sid ->
  Chat.status chat = active \/ Chat.status chat = inactive ->
  Chat.user chat = Some u \/ Chat.counsellor chat = Some u ->
  Chat.user chat = Some r ->
  is_Some (Chat.counsellor chat) ->
  find_session_for_pair db chat = None ->
  Chat.is_billed chat = false ->
  Chat.started_at chat = Some s ->
  wallet_minutes db !! r = Some w ->
  s < end_time now chat ->
  let e := SessionEndView_post nf now u sid db in
  let owed := ceil_minutes (end_time now chat - s) in
  let paid := owed <=? w in
  (exists secs reported,
      e.1 = ChatEnded sid (Some (end_time now chat)) secs reported
              (if paid then Some (owed, owed) else None)
      /\ reported <= owed <= reported + 1)
  /\ wallet_minutes e.2 !! r = Some (if paid then w - owed else w)
  /\ exists row,
       chats e.2 !! sid = Some row
       /\ Chat.status row = completed /\ Chat.is_billed row = paid
       /\ Chat.billed_amount row = owed
       /\ Chat.ended_at row = Some (end_time now chat).
Proof.
  intros Hnone Hc Hid Hopen Hparty Hr Hass Hpair Hb Hs Hw Hlt. cbn zeta.
  rewrite (post_ends_directly nf now u sid db chat Hnone Hc Hopen Hparty)
    by (done || by rewrite Hr).
  destruct (Z.leb_spec0 (ceil_minutes (end_time now chat - s)) w) as [Hle|Hgt].
  - destruct (end_chat_directly_charges now chat db r w s Hb Hs Hr Hw Hlt Hle)
      as (Hresp & Hwal & Hrow).
    rewrite Hid in *. split; [|by split].
    eexists _, _. split; [exact Hresp|].
    apply reported_minutes_bounds. lia.
  - assert (w < ceil_minutes (end_time now chat - s)) as Hshort by lia.
    destruct (end_chat_directly_unpaid now chat db r w s Hb Hs Hr Hw Hlt Hshort)
      as (Hresp & Hwal & Hrow).
    rewrite Hid in *. split; [|split; [by rewrite Hwal|done]].
    eexists _, _. split; [exact Hresp|].
    apply reported_minutes_bounds. lia.
Qed.

(** A chat ended after 61 seconds on a wallet of 100 costs 2; the same
    chat on an empty wallet (closed three minutes in, the request coming
    an hour later) costs nothing and stays unbilled with 3 owed. *)
Lemma ending_open_chat_charges_window_witness :
  (let e := SessionEndView_post false (timedelta_seconds 61) 7%positive 1%positive
              db_running in
   e.1 = ChatEnded 1 (Some (timedelta_seconds 61)) 61 2 (Some (2, 2))
   /\ wallet_minutes e.2 !! 7%positive = Some 98)
  /\ (let e := SessionEndView_post false (timedelta_hours 1) 7%positive 1%positive
                 db_inactive_empty_wallet in
      wallet_minutes e.2 !! 7%positive = Some 0
      /\ Chat.is_billed <$> chats e.2 !! 1%positive = Some false
      /\ Chat.billed_amount <$> chats e.2 !! 1%positive = Some 3).
Proof.
  split.
  - destruct (ending_open_chat_charges_window false (timedelta_seconds 61)
                7%positive 1%positive db_running chat_running 7%positive 100 0)
      as (_ & Hwal & _).
    + reflexivity.
    + reflexivity.
    + reflexivity.
    + by left.
    + by left.
    + reflexivity.
    + by eexists.
    + reflexivity.
    + reflexivity.
    + reflexivity.
    + reflexivity.
    + vm_compute. reflexivity.
    + split; [vm_compute; reflexivity|]. exact Hwal.
  - destruct (ending_open_chat_charges_window false (timedelta_hours 1)
                7%positive 1%positive db_inactive_empty_wallet
                chat_inactive_3min 7%positive 0 0)
      as (_ & Hwal & row & Hrow & _ & Hbilled & Hamount & _).
    + reflexivity.
    + reflexivity.
    + reflexivity.
    + by right.
    + by left.
    + reflexivity.
    + by eexists.
    + reflexivity.
    + reflexivity.
    + reflexivity.
    + reflexivity.
    + vm_compute. reflexivity.
    + cbn zeta. split; [exact Hwal|]. rewrite Hrow. cbn [fmap option_fmap option_map].
      split; [by rewrite Hbilled|by rewrite Hamount].
Defined.

(** X21. From acceptance to the bill.  The conditions: the store keeps
    chat rows under their own ids and holds no session record; the chat
    is queued, has a requester, is not billed and has no [ended_at]; a
    counsellor account accepts it at [t0]; the requester or that
    counsellor ends it at a later [t1]; and the requester has a wallet.
    Then what is owed is the minutes between the two instants, rounded
    up, whatever [started_at] the queued row carried before: a wallet
    that holds at least that much loses exactly that much and the
    response reports it as billed; a wallet that holds less is left as
    it is and the response carries no billing. *)
Theorem accepted_chat_is_billed_from_acceptance nf t0 t1 c u chat_id db chat r w :
  store_wf db ->
  c ∈ counsellor_users db ->
  chats db !! chat_id = Some chat ->
  Chat.status chat = queued ->
  Chat.user chat = Some r ->
  u = r \/ u = c ->
  Chat.is_billed chat = false ->
  Chat.ended_at chat = None ->
  wallet_minutes db !! r = Some w ->
  sessions db = [] ->
  t0 < t1 ->
  let db1 := (ChatAcceptView_patch t0 c chat_id db).2 in
  let e := SessionEndView_post nf t1 u chat_id db1 in
  let owed := ceil_minutes (t1 - t0) in
  let paid := owed <=? w in
  (exists secs reported,
      e.1 = ChatEnded chat_id (Some t1) secs reported
              (if paid then Some (owed, owed) else None))
  /\ wallet_minutes e.2 !! r = Some (if paid then w - owed else w).
Proof.
  intros Hwf Hc Hchat Hst Hr Hu Hb He Hw Hsess Hlt. cbn zeta.
  pose proof (Hwf _ _ Hchat) as Hid.
  rewrite (accept_accepted t0 c chat_id db chat Hc Hchat Hid Hst)
    by (by rewrite Hr).
  cbn [snd].
  match goal with
  | |- context [SessionEndView_post nf t1 u chat_id ?d] => set (db1 := d)
  end.
  pose (row := Chat.set_updated_at t0
                 (Chat.set_started_at (Some t0)
                    (Chat.set_status active (Chat.set_counsellor (Some c) chat)))).
  assert (chats db1 !! chat_id = Some row) as Hrow.
  { subst db1. cbn [chats set_chats]. by rewrite lookup_alter_eq, Hchat. }
  assert (sessions db1 = []) as Hs1 by done.
  assert (wallet_minutes db1 !! r = Some w) as Hw1 by done.
  assert (Chat.user row = Some r) as Hur by (subst row; by destruct chat).
  assert (Chat.counsellor row = Some c) as Hcr by (subst row; by destruct chat).
  assert (end_time t1 row = t1) as Hend.
  { subst row. unfold end_time. destruct chat. cbn in He. by subst. }
  assert (Chat.is_billed row = false) as Hbr
    by (subst row; destruct chat; cbn in Hb; by subst).
  assert (Chat.started_at row = Some t0) as Hsr by (subst row; by destruct chat).
  assert (Chat.id row = chat_id) as Hidr by (subst row; by destruct chat).
  rewrite (post_ends_directly nf t1 u chat_id db1 row); cycle 1.
  { unfold find_session_by_id. by rewrite Hs1. }
  { done. }
  { left. subst row. by destruct chat. }
  { rewrite Hur, Hcr. destruct Hu as [-> | ->]; [by left|by right]. }
  { by rewrite Hur. }
  { by rewrite Hcr. }
  { unfold find_session_for_pair. by rewrite Hs1. }
  destruct (Z.leb_spec0 (ceil_minutes (t1 - t0)) w) as [Hle|Hgt].
  - destruct (end_chat_directly_charges t1 row db1 r w t0 Hbr Hsr Hur Hw1)
      as (Hresp & Hwal & _); [rewrite Hend; lia|by rewrite Hend|].
    rewrite Hend in Hresp, Hwal. rewrite Hidr in Hresp.
    split; [|done]. by eexists _, _.
  - destruct (end_chat_directly_unpaid t1 row db1 r w t0 Hbr Hsr Hur Hw1)
      as (Hresp & Hwal & _); [rewrite Hend; lia|rewrite Hend; lia|].
    rewrite Hend in Hresp. rewrite Hidr in Hresp.
    split; [by eexists _, _|]. by rewrite Hwal.
Qed.

(** Accepted one minute in and ended at minute 4: 3 minutes, paid from a
    wallet of 100. *)
Lemma accepted_chat_is_billed_from_acceptance_witness :
  let db1 := (ChatAcceptView_patch (timedelta_minutes 1) 9%positive 2%positive
                db_queued).2 in
  let e := SessionEndView_post false (timedelta_minutes 4) 7%positive 2%positive
             db1 in
  wallet_minutes e.2 !! 7%positive = Some 97.
Proof.
  destruct (accepted_chat_is_billed_from_acceptance false (timedelta_minutes 1)
              (timedelta_minutes 4) 9%positive 7%positive 2%positive db_queued
              chat_queued 7%positive 100 db_queued_wf) as [_ H].
  - vm_compute. apply list_elem_of_here.
  - reflexivity.
  - reflexivity.
  - reflexivity.
  - by left.
  - reflexivity.
  - reflexivity.
  - reflexivity.
  - reflexivity.
  - vm_compute. reflexivity.
  - exact H.
Defined.

(** X23. Ending an open chat that never started costs nothing.  The
    conditions: the id names no session record of the caller and names a
    chat stored under its own id; the chat is active or inactive, the
    caller is its requester or its counsellor, it has a requester and a
    counsellor, the pair has no session record, and the chat is not
    billed and has neither [started_at] nor [ended_at].  Then the handler
    puts [started_at] and [ended_at] at the time of the call, the window
    is empty, and settlement records a zero bill: no wallet changes, the
    row ends completed and billed with amount 0, and the response reports
    0 seconds, 0 minutes and a billing of 0. *)
Theorem ending_unstarted_chat_is_free nf now u sid db chat :
  find_session_by_id db u sid = None ->
  chats db !! sid = Some chat ->
  Chat.id chat = sid ->
  Chat.status chat = active \/ Chat.status chat = inactive ->
  Chat.user chat = Some u \/ Chat.counsellor chat = Some u ->
  is_Some (Chat.user chat) ->
  is_Some (Chat.counsellor chat) ->
  find_session_for_pair db chat = None ->
  Chat.is_billed chat = false ->
  Chat.started_at chat = None ->
  Chat.ended_at chat = None ->
  let e := SessionEndView_post nf now u sid db in
  e.1 = ChatEnded sid (Some now) 0 0 (Some (0, 0))
  /\ wallet_minutes e.2 = wallet_minutes db
  /\ exists row,
       chats e.2 !! sid = Some row
       /\ Chat.status row = completed /\ Chat.is_billed row = true
       /\ Chat.billed_amount row = 0 /\ Chat.started_at row = Some now
       /\ Chat.ended_at row = Some now.
Proof.
  intros Hnone Hc Hid Hopen Hparty Hreq Hass Hpair Hb Hs He. cbn zeta.
  rewrite (post_ends_directly nf now u sid db chat Hnone Hc Hopen Hparty Hreq
             Hass Hpair).
  unfold end_chat_directly.
  match goal with |- context [Chat_save now ?c db] => set (closed := c) end.
  assert (closed
          = Chat.set_started_at (Some now)
              (Chat.set_ended_at (Some now) (Chat.set_status completed chat)))
    as Hclosed.
  { subst closed. destruct chat. cbn in Hs, He. by subst. }
  clearbody closed. subst closed.
  set (closed := Chat.set_started_at (Some now)
                   (Chat.set_ended_at (Some now) (Chat.set_status completed chat))).
  set (row0 := Chat.set_updated_at now closed).
  set (db0 := Chat_save now closed db).
  assert (Chat.id closed = sid) as Hidc by done.
  assert (chats db0 !! sid = Some row0) as Hc0.
  { subst db0. unfold Chat_save. cbn [chats set_chats]. rewrite Hidc.
    by rewrite lookup_insert_eq. }
  assert (Chat.is_billed row0 = false) as Hb0 by done.
  assert (Chat.started_at row0 = Some now) as Hs0 by done.
  assert (calculate_chat_duration_minutes now row0 = 0) as Hdur.
  { apply (duration_not_after now row0 now Hs0). by cbn. }
  assert (calculate_chat_billing now row0 = 0) as Hbill
    by (by rewrite billing_is_duration).
  rewrite Hidc, Hc0, Hb0.
  rewrite (settle_started now db0 sid row0 now Hc0 Hb0 Hs0).
  rewrite Hbill, Hdur.
  assert (Chat.ended_at row0 = Some now) as -> by done.
  cbn [Z.ltb Z.compare fst snd orb Z.eqb].
  rewrite update_chat_lookup, Hc0. cbn [fmap option_fmap option_map].
  unfold billing_info_of. rewrite update_chat_lookup, Hc0.
  cbn [fmap option_fmap option_map].
  assert (Chat.started_at (finalize_billing now 0 0 row0) = Some now) as -> by done.
  assert (Chat.ended_at (finalize_billing now 0 0 row0) = Some now) as -> by done.
  assert (Chat.is_billed (finalize_billing now 0 0 row0) = true) as -> by done.
  rewrite Z.sub_diag. cbn [fst snd].
  split; [reflexivity|]. split; [done|].
  rewrite update_chat_lookup, Hc0. cbn [fmap option_fmap option_map].
  eexists. split; [reflexivity|]. by repeat split.
Qed.

Lemma ending_unstarted_chat_is_free_witness :
  let e := SessionEndView_post false (timedelta_minutes 30) 9%positive 3%positive
             db_active_unstarted in
  e.1 = ChatEnded 3 (Some (timedelta_minutes 30)) 0 0 (Some (0, 0))
  /\ wallet_minutes e.2 = wallet_minutes db_active_unstarted.
Proof.
  destruct (ending_unstarted_chat_is_free false (timedelta_minutes 30) 9%positive
              3%positive db_active_unstarted chat_active_unstarted)
    as (H1 & H2 & _).
  - reflexivity.
  - reflexivity.
  - reflexivity.
  - by left.
  - by right.
  - by eexists.
  - by eexists.
  - reflexivity.
  - reflexivity.
  - reflexivity.
  - reflexivity.
  - split; [exact H1|exact H2].
Defined.

(** ** Refusals and repeated requests *)

Lemma settle_sessions now db cid :
  sessions (calculate_and_deduct_chat_billing now db cid).2 = sessions db.
Proof.
  destruct (chats db !! cid) as [row|] eqn:Hc.
  - by destruct (settle_standing now db cid row Hc) as [H _].
  - unfold calculate_and_deduct_chat_billing. by rewrite Hc.
Qed.

(** The direct branch always answers with [ChatEnded]. *)
Lemma end_chat_directly_no_error now chat db :
  is_error (end_chat_directly now chat db).1 = false.
Proof.
  unfold end_chat_directly.
  match goal with |- context [Chat_save now ?c db] => set (closed := c) end.
  set (db0 := Chat_save now closed db).
  assert (chats db0 !! Chat.id closed = Some (Chat.set_updated_at now closed))
    as Hc0 by (subst db0; unfold Chat_save; cbn; by rewrite lookup_insert_eq).
  rewrite Hc0.
  destruct (Chat.is_billed (Chat.set_updated_at now closed)).
  - rewrite Hc0. generalize (Chat.set_updated_at now closed) as row. intros row.
    destruct (Chat.started_at row), (Chat.ended_at row); reflexivity.
  - destruct (settle_standing now db0 (Chat.id closed) _ Hc0) as (_ & row & -> & _).
    destruct (Chat.started_at row), (Chat.ended_at row); reflexivity.
Qed.

Lemma end_upcoming_session_no_error nf now s db :
  is_error (end_upcoming_session nf now s db).1 = false.
Proof.
  unfold end_upcoming_session.
  destruct (UpcomingSession.actual_end_time s) as [e|],
    (UpcomingSession.session_status s); try done;
    by match goal with
       | |- context [let '(_, _) := ?x in _] => destruct x
       end.
Qed.

(** X24. A refusal from [SessionEndView.post] is whole.  Whenever the
    answer is one of the error responses (not found, forbidden, no
    counsellor, cannot be ended) the store is exactly as before: nothing
    was closed and nothing was charged.  An account that is party to
    neither the session nor the chat under the given id always gets such
    an answer. *)
Theorem end_refusals_change_nothing nf now u sid db :
  let e := SessionEndView_post nf now u sid db in
  (is_error e.1 = true -> e.2 = db)
  /\ (find_session_by_id db u sid = None ->
      (forall chat, chats db !! sid = Some chat ->
                    Chat.user chat <> Some u /\ Chat.counsellor chat <> Some u) ->
      (e.1 = NotFound \/ e.1 = Forbidden) /\ e.2 = db).
Proof.
  cbn zeta. split.
  - unfold SessionEndView_post.
    destruct (find_session_by_id db u sid) as [s|].
    { by rewrite end_upcoming_session_no_error. }
    destruct (chats db !! sid) as [chat|]; [|done].
    destruct (negb _); [done|].
    destruct (if is_Some_b (Chat.user chat) && is_Some_b (Chat.counsellor chat)
              then find_session_for_pair db chat else None) as [s|].
    { by rewrite end_upcoming_session_no_error. }
    destruct (Chat.counsellor chat); [|done].
    destruct (Status_eqb (Chat.status chat) active
              || Status_eqb (Chat.status chat) inactive); [|done].
    by rewrite end_chat_directly_no_error.
  - intros Hnone Hout. unfold SessionEndView_post. rewrite Hnone.
    destruct (chats db !! sid) as [chat|]; [|by split; [left|]].
    destruct (Hout chat eq_refl) as [Hu Hc].
    rewrite (opt_user_eqb_neq _ _ Hu), (opt_user_eqb_neq _ _ Hc), andb_false_r.
    cbn. by split; [right|].
Qed.

Lemma find_after_replace {A} (P : A -> bool) (same : A -> bool) (s s' : A)
    (l : list A) :
  List.find P l = Some s ->
  P s' = true ->
  same s = true ->
  List.find P ((fun r => if same r then s' else r) <$> l) = Some s'.
Proof.
  intros Hfind Hs' Hsame. induction l as [|r l IH]; [done|].
  cbn in Hfind. cbn [fmap list_fmap List.find].
  destruct (same r) eqn:Hr.
  - by rewrite Hs'.
  - destruct (P r) eqn:HP.
    + injection Hfind as ->. congruence.
    + by apply IH.
Qed.

(** Ending a record that is not yet ended: the record is saved as
    completed with the end time of the call, and the billing that follows
    leaves the session table alone. *)
Lemma end_upcoming_session_fresh nf now s db :
  ~ (exists e, UpcomingSession.actual_end_time s = Some e
               /\ UpcomingSession.session_status s
                  = UpcomingSession.session_completed) ->
  let s' :=
    UpcomingSession.mk (UpcomingSession.id s) (UpcomingSession.user s)
      (UpcomingSession.counsellor s) (UpcomingSession.start_time s)
      UpcomingSession.session_completed false
      (Some (or_else (UpcomingSession.actual_start_time s) now)) (Some now) in
  exists billing db',
    end_upcoming_session nf now s db
    = (SessionEnded (UpcomingSession.id s) now billing, db')
    /\ sessions db' = sessions (save_session s' db).
Proof.
  intros Hfresh. cbn zeta. unfold end_upcoming_session.
  assert (forall (X : end_response * DB),
             (exists billing db',
                 X = (SessionEnded (UpcomingSession.id s) now billing, db')
                 /\ sessions db' = sessions (save_session
                      (UpcomingSession.mk (UpcomingSession.id s)
                         (UpcomingSession.user s) (UpcomingSession.counsellor s)
                         (UpcomingSession.start_time s)
                         UpcomingSession.session_completed false
                         (Some (or_else (UpcomingSession.actual_start_time s) now))
                         (Some now)) db)) ->
             exists billing db',
               match UpcomingSession.actual_end_time s,
                     UpcomingSession.session_status s with
               | Some ended, UpcomingSession.session_completed =>
                   (AlreadyEnded (UpcomingSession.id s) ended, db)
               | _, _ => X
               end = (SessionEnded (UpcomingSession.id s) now billing, db')
               /\ sessions db' = sessions (save_session
                    (UpcomingSession.mk (UpcomingSession.id s)
                       (UpcomingSession.user s) (UpcomingSession.counsellor s)
                       (UpcomingSession.start_time s)
                       UpcomingSession.session_completed false
                       (Some (or_else (UpcomingSession.actual_start_time s) now))
                       (Some now)) db)) as Hwrap.
  { intros X HX.
    destruct (UpcomingSession.actual_end_time s) as [e|] eqn:He,
      (UpcomingSession.session_status s) eqn:Hst; try exact HX.
    exfalso. apply Hfresh. by exists e. }
  apply Hwrap. clear Hwrap.
  set (s' := UpcomingSession.mk _ _ _ _ _ _ _ _).
  destruct (is_Some_b (UpcomingSession.user s')
            && is_Some_b (UpcomingSession.counsellor s'));
    [|eexists _, _; split; [reflexivity|done]].
  destruct (open_chat_for_pair nf (save_session s' db) s') as [chat|];
    [|eexists _, _; split; [reflexivity|done]].
  destruct (negb (Chat.is_billed chat) && is_Some_b (Chat.started_at chat));
    [|eexists _, _; split; [reflexivity|done]].
  match goal with |- context [Chat_save now ?c _] => set (closed := c) end.
  set (db0 := Chat_save now closed (save_session s' db)).
  assert (sessions db0 = sessions (save_session s' db)) as Hs0 by done.
  destruct (chats db0 !! Chat.id closed) as [row|]; [|eexists _, _; split; [reflexivity|done]].
  destruct (negb (Chat.is_billed row) && is_Some_b (Chat.started_at row)
            && is_Some_b (Chat.ended_at row)); [|eexists _, _; split; [reflexivity|done]].
  eexists _, _. split; [reflexivity|]. by rewrite settle_sessions.
Qed.

Lemma end_session_twice_fresh nf t1 t2 u sid db s :
  find_session_by_id db u sid = Some s ->
  ~ (exists e, UpcomingSession.actual_end_time s = Some e
               /\ UpcomingSession.session_status s
                  = UpcomingSession.session_completed) ->
  SessionEndView_post nf t2 u sid (end_upcoming_session nf t1 s db).2
  = (AlreadyEnded (UpcomingSession.id s) t1, (end_upcoming_session nf t1 s db).2)
  /\ ((end_upcoming_session nf t1 s db).1 = AlreadyEnded (UpcomingSession.id s) t1
      \/ (t1 = t1
          /\ exists billing,
               (end_upcoming_session nf t1 s db).1
               = SessionEnded (UpcomingSession.id s) t1 billing)).
Proof.
  intros Hfind Hfresh.
  destruct (end_upcoming_session_fresh nf t1 s db Hfresh)
    as (billing & db' & -> & Hsess).
  cbn [fst snd]. split; [|right; split; [done|by exists billing]].
  set (s' := UpcomingSession.mk (UpcomingSession.id s) (UpcomingSession.user s)
               (UpcomingSession.counsellor s) (UpcomingSession.start_time s)
               UpcomingSession.session_completed false
               (Some (or_else (UpcomingSession.actual_start_time s) t1))
               (Some t1)) in *.
  assert (find_session_by_id db' u sid = Some s') as Hfind'.
  { unfold find_session_by_id in *. rewrite Hsess. unfold save_session.
    cbn [sessions set_sessions].
    pose proof Hfind as HP. apply find_some in HP as [_ HP].
    apply (find_after_replace _
             (fun r => Pos.eqb (UpcomingSession.id r) (UpcomingSession.id s'))
             s s' _ Hfind).
    - exact HP.
    - cbn. apply Pos.eqb_refl. }
  unfold SessionEndView_post. rewrite Hfind'.
  by unfold end_upcoming_session.
Qed.

(** X25. A session is ended once.  When the id names a session record
    of the caller, the first request is answered without error, and the
    same request repeated at any later time finds the record ended and
    answers "already ended" with the end time the record was given, which
    is the time of the first request unless the record had been ended
    before; the repeated request leaves the store exactly as the first
    one left it, so nothing is closed or charged a second time. *)
Theorem end_session_twice nf t1 t2 u sid db s :
  find_session_by_id db u sid = Some s ->
  let first := SessionEndView_post nf t1 u sid db in
  let second := SessionEndView_post nf t2 u sid first.2 in
  is_error first.1 = false
  /\ exists ended,
       second = (AlreadyEnded (UpcomingSession.id s) ended, first.2)
       /\ (first.1 = AlreadyEnded (UpcomingSession.id s) ended
           \/ (ended = t1
               /\ exists billing,
                    first.1 = SessionEnded (UpcomingSession.id s) t1 billing)).
Proof.
  intros Hfind. cbn zeta.
  assert (SessionEndView_post nf t1 u sid db = end_upcoming_session nf t1 s db) as ->
    by (unfold SessionEndView_post; by rewrite Hfind).
  split; [apply end_upcoming_session_no_error|].
  pose proof Hfind as HP. unfold find_session_by_id in HP.
  apply find_some in HP as [_ HP].
  destruct (UpcomingSession.actual_end_time s) as [e|] eqn:He.
  - destruct (decide (UpcomingSession.session_status s
                      = UpcomingSession.session_completed)) as [Hst|Hst].
    + exists e.
      assert (end_upcoming_session nf t1 s db
              = (AlreadyEnded (UpcomingSession.id s) e, db)) as ->
        by (unfold end_upcoming_session; by rewrite He, Hst).
      cbn [fst snd]. split; [|by left].
      unfold SessionEndView_post. rewrite Hfind.
      unfold end_upcoming_session. by rewrite He, Hst.
    + exists t1. apply (end_session_twice_fresh nf t1 t2 u sid db s Hfind).
      intros [e' [He' Hst']]. done.
  - exists t1. apply (end_session_twice_fresh nf t1 t2 u sid db s Hfind).
    intros [e' [He' Hst']]. congruence.
Qed.

Lemma end_session_twice_witness :
  let first := SessionEndView_post false (timedelta_minutes 10) 7%positive
                 4%positive db_open_session in
  let second := SessionEndView_post false (timedelta_minutes 25) 7%positive
                  4%positive first.2 in
  first.1 = SessionEnded 4 (timedelta_minutes 10) (Some (10, 10))
  /\ wallet_minutes first.2 !! 7%positive = Some 90
  /\ second = (AlreadyEnded 4 (timedelta_minutes 10), first.2).
Proof.
  destruct (end_session_twice false (timedelta_minutes 10) (timedelta_minutes 25)
              7%positive 4%positive db_open_session session_open eq_refl)
    as (_ & ended & Hsecond & Hfirst).
  assert (ended = timedelta_minutes 10) as ->.
  { destruct Hfirst as [H | [H _]]; [|exact H].
    vm_compute in H. discriminate H. }
  split; [vm_compute; reflexivity|]. split; [vm_compute; reflexivity|].
  exact Hsecond.
Defined.

Lemma end_refusals_change_nothing_witness :
  SessionEndView_post false 777 8%positive 1%positive db_running
  = (Forbidden, db_running).
Proof.
  destruct (end_refusals_change_nothing false 777 8%positive 1%positive db_running)
    as [H _].
  assert ((SessionEndView_post false 777 8%positive 1%positive db_running).1
          = Forbidden) as H1 by (vm_compute; reflexivity).
  rewrite (surjective_pairing (SessionEndView_post false 777 8%positive 1%positive
                                 db_running)).
  rewrite H1 in *. rewrite (H eq_refl). reflexivity.
Defined.

(** * Properties of the REST message endpoints *)

Global Instance message_le_total : Total message_le.
Proof.
  intros a b. unfold message_le, message_leb.
  destruct (Z.ltb_spec (ChatMessage.created_at a) (ChatMessage.created_at b));
    [by left|].
  destruct (Z.ltb_spec (ChatMessage.created_at b) (ChatMessage.created_at a));
    [by right|].
  assert (ChatMessage.created_at a = ChatMessage.created_at b) as -> by lia.
  rewrite Z.eqb_refl. cbn.
  destruct (Pos.leb_spec (ChatMessage.id a) (ChatMessage.id b)); [by left|].
  right. apply Pos.leb_le. lia.
Qed.

Global Instance message_le_trans : Transitive message_le.
Proof.
  intros a b c. unfold message_le, message_leb.
  rewrite !orb_true_iff, !andb_true_iff, !Z.ltb_lt, !Z.eqb_eq, !Pos.leb_le.
  intros [H1|[H1 H1']] [H2|[H2 H2']]; try (left; lia).
  right. split; lia.
Qed.

Lemma never_before_one_hour_ago (now : datetime) :
  (now <? now - timedelta_hours 1) = false.
Proof. unfold timedelta_hours. apply Z.ltb_ge. lia. Qed.

(** What the requester's read writes: the activity stamp, whatever the
    status. *)
Lemma get_queryset_requester now u chat_id db chat :
  chats db !! chat_id = Some chat ->
  Chat.user chat = Some u ->
  ChatMessageListView_get_queryset now u chat_id db
  = (messages_of_chat db chat_id,
     Chat_save_fields now (Chat.set_last_user_activity (Some now) chat)
       [Chat.f_last_user_activity; Chat.f_updated_at] db).
Proof.
  intros Hc Hu. unfold ChatMessageListView_get_queryset.
  rewrite Hc, Hu, opt_user_eqb_refl. cbn [negb andb].
  cbn [Chat.last_user_activity Chat.set_last_user_activity].
  assert (Chat.status (Chat.set_last_user_activity (Some now) chat)
          = Chat.status chat) as -> by done.
  rewrite never_before_one_hour_ago.
  by destruct (Status_eqb (Chat.status chat) active).
Qed.

(** X27. The message list is the chat's log, in order, for its parties
    only.  The account passes exactly when it would be let onto the
    chat's socket ([get_chat_and_check_access]): it then receives every
    stored message of the chat, each once, sorted by creation time and,
    at equal times, by id; any other account receives nothing and leaves
    the store untouched.  Reading never adds, drops or edits a message,
    and never touches a wallet or a session. *)
Theorem message_list_is_the_log_in_order now u chat_id db :
  let r := ChatMessageListView_get_queryset now u chat_id db in
  StronglySorted message_le r.1
  /\ (is_Some (get_chat_and_check_access db u chat_id) ->
      r.1 ≡ₚ List.filter (fun m => Pos.eqb (ChatMessage.chat m) chat_id)
               (messages db))
  /\ (get_chat_and_check_access db u chat_id = None -> r.1 = [] /\ r.2 = db)
  /\ messages r.2 = messages db
  /\ wallet_minutes r.2 = wallet_minutes db
  /\ sessions r.2 = sessions db.
Proof.
  cbn zeta.
  assert (Hsorted : StronglySorted message_le (messages_of_chat db chat_id))
    by (apply StronglySorted_merge_sort; apply _).
  assert (Hperm : messages_of_chat db chat_id
                  ≡ₚ List.filter (fun m => Pos.eqb (ChatMessage.chat m) chat_id)
                       (messages db))
    by apply merge_sort_Permutation.
  unfold get_chat_and_check_access.
  destruct (chats db !! chat_id) as [chat|] eqn:Hc; cycle 1.
  { unfold ChatMessageListView_get_queryset. rewrite Hc. cbn.
    repeat split; try done; try constructor; try (by intros [? ?]). }
  destruct (Chat.user chat) as [requester|] eqn:Hu; cycle 1.
  { unfold ChatMessageListView_get_queryset. rewrite Hc, Hu. cbn.
    repeat split; try done; try constructor; try (by intros [? ?]). }
  destruct (decide (requester = u)) as [->|Hne].
  { rewrite (get_queryset_requester now u chat_id db chat Hc Hu).
    rewrite opt_user_eqb_refl. cbn [orb fst snd].
    repeat split; try done. }
  unfold ChatMessageListView_get_queryset. rewrite Hc, Hu.
  rewrite (opt_user_eqb_neq (Some requester) (Some u)) by congruence.
  cbn [negb andb orb].
  destruct (is_Some_b (Chat.counsellor chat)
            && opt_user_eqb (Chat.counsellor chat) (Some u)); cbn.
  - repeat split; try done.
  - repeat split; try done; try constructor; try (by intros [? ?]).
Qed.

Lemma activity_columns now (chat : Chat.t) :
  foldl (Chat.copy_field now (Chat.set_last_user_activity (Some now) chat)) chat
    [Chat.f_last_user_activity; Chat.f_updated_at]
  = Chat.set_updated_at now (Chat.set_last_user_activity (Some now) chat).
Proof. by destruct chat. Qed.

(** The row the requester's read leaves behind. *)
Lemma reading_activity_row now u chat_id db chat :
  chats db !! chat_id = Some chat ->
  Chat.id chat = chat_id ->
  Chat.user chat = Some u ->
  chats (ChatMessageListView_get_queryset now u chat_id db).2 !! chat_id
  = Some (Chat.set_updated_at now (Chat.set_last_user_activity (Some now) chat)).
Proof.
  intros Hc Hid Hu.
  rewrite (get_queryset_requester now u chat_id db chat Hc Hu). cbn [snd].
  rewrite (Chat_save_fields_lookup_at now _ _ db chat_id) by done.
  rewrite Hc. cbn [fmap option_fmap option_map]. by rewrite activity_columns.
Qed.

(** Reading the messages stamps the requester's activity and does
    nothing else to the chat.  When the requester reads, the stored row
    becomes the old one with [last_user_activity] at the time of the
    call; status, start and end are as before however long the requester
    had been silent, so reading neither closes nor reopens a chat.  When
    anyone else reads, the store is left as it was.  No other chat is
    touched. *)
Theorem reading_refreshes_activity_only now u chat_id db chat :
  chats db !! chat_id = Some chat ->
  Chat.id chat = chat_id ->
  let db' := (ChatMessageListView_get_queryset now u chat_id db).2 in
  (Chat.user chat = Some u ->
   chats db' !! chat_id
   = Some (Chat.set_updated_at now (Chat.set_last_user_activity (Some now) chat)))
  /\ (Chat.user chat <> Some u -> db' = db)
  /\ (forall k, k <> chat_id -> chats db' !! k = chats db !! k)
  /\ exists row,
       chats db' !! chat_id = Some row
       /\ Chat.status row = Chat.status chat
       /\ Chat.started_at row = Chat.started_at chat
       /\ Chat.ended_at row = Chat.ended_at chat.
Proof.
  intros Hc Hid. cbn zeta.
  destruct (decide (Chat.user chat = Some u)) as [Hu|Hu].
  - rewrite (get_queryset_requester now u chat_id db chat Hc Hu). cbn [snd].
    assert (chats (Chat_save_fields now (Chat.set_last_user_activity (Some now) chat)
                     [Chat.f_last_user_activity; Chat.f_updated_at] db) !! chat_id
            = Some (Chat.set_updated_at now
                      (Chat.set_last_user_activity (Some now) chat))) as Hrow.
    { rewrite (Chat_save_fields_lookup_at now _ _ db chat_id) by done.
      rewrite Hc. cbn [fmap option_fmap option_map]. by rewrite activity_columns. }
    split; [done|]. split; [done|]. split.
    + intros k Hne. unfold Chat_save_fields.
      rewrite update_chat_lookup_ne; [done|]. cbn. congruence.
    + eexists. split; [exact Hrow|]. by destruct chat.
  - assert ((ChatMessageListView_get_queryset now u chat_id db).2 = db) as ->.
    { unfold ChatMessageListView_get_queryset. rewrite Hc.
      destruct (Chat.user chat) as [requester|]; [|done].
      rewrite (opt_user_eqb_neq (Some requester) (Some u)) by done.
      cbn [negb andb].
      by destruct (is_Some_b (Chat.counsellor chat)
                   && opt_user_eqb (Chat.counsellor chat) (Some u)). }
    split; [done|]. split; [done|]. split; [done|]. by exists chat.
Qed.

Lemma reading_refreshes_activity_only_witness :
  let db' := (ChatMessageListView_get_queryset (timedelta_hours 3) 7%positive
                1%positive db_running).2 in
  chats db' !! 1%positive
  = Some (Chat.mk 1 (Some 7%positive) (Some 9%positive) active (Some 0) (Some 0)
            None (Some (timedelta_hours 3)) (timedelta_hours 3) 0 0 false None).
Proof.
  destruct (reading_refreshes_activity_only (timedelta_hours 3) 7%positive
              1%positive db_running chat_running eq_refl eq_refl) as [H _].
  exact (H eq_refl).
Defined.

Lemma counsellor_branch_recent now chat db last :
  Chat.last_user_activity chat = Some last ->
  now - timedelta_minutes 5 <= last ->
  counsellor_branch now chat db = (chat, db).
Proof.
  intros Hla Hle. unfold counsellor_branch. rewrite Hla.
  destruct (Status_eqb (Chat.status chat) active); [|done].
  by destruct (Z.ltb_spec0 last (now - timedelta_minutes 5)); [lia|].
Qed.

(** X28. Reading keeps the chat alive.  The requester reads the messages
    of an active chat at [t1]; a counsellor's message that arrives at
    most five minutes later finds the activity stamp fresh and leaves the
    chat active with that stamp.  (A message the requester sends over the
    socket does not have this effect, see X14.) *)
Theorem reading_keeps_the_chat_active dwm t1 t2 req (csl : Consumer) db text
    cmid chat :
  chats db !! self_chat_id csl = Some chat ->
  Chat.id chat = self_chat_id csl ->
  Chat.user chat = Some req ->
  req <> self_user csl ->
  Chat.status chat = active ->
  t2 - timedelta_minutes 5 <= t1 ->
  let db1 := (ChatMessageListView_get_queryset t1 req (self_chat_id csl) db).2 in
  let r := save_message dwm t2 csl db1 text cmid in
  exists row,
    chats r.2 !! self_chat_id csl = Some row
    /\ Chat.status row = active
    /\ Chat.last_user_activity row = Some t1.
Proof.
  intros Hc Hid Hu Hne Hst Hle. cbn zeta.
  pose proof (reading_activity_row t1 req (self_chat_id csl) db chat Hc Hid Hu)
    as Hrow.
  set (db1 := (ChatMessageListView_get_queryset t1 req (self_chat_id csl) db).2)
    in *.
  set (row := Chat.set_updated_at t1 (Chat.set_last_user_activity (Some t1) chat))
    in *.
  exists row.
  assert (Chat.status row = active /\ Chat.last_user_activity row = Some t1
          /\ Chat.user row = Some req) as (Hrs & Hra & Hru)
    by (subst row; by destruct chat).
  split; [|done].
  destruct (is_duplicate t2 db1 (Chat.id row) (self_user csl) text cmid) eqn:Hd.
  { by rewrite (save_message_duplicate dwm t2 csl db1 text cmid row Hrow Hd). }
  rewrite (save_message_fresh dwm t2 csl db1 text cmid row Hrow Hd).
  rewrite Hru, (opt_user_eqb_neq (Some req) (Some (self_user csl))) by congruence.
  rewrite (counsellor_branch_recent t2 row db1 t1 Hra Hle).
  exact Hrow.
Qed.

Lemma reading_keeps_the_chat_active_witness :
  let db1 := (ChatMessageListView_get_queryset (timedelta_minutes 6) 7%positive
                1%positive db_running).2 in
  let r := save_message 0 (timedelta_minutes 10) counsellor_conn db1 "hello?"
             None in
  exists row,
    chats r.2 !! 1%positive = Some row
    /\ Chat.status row = active
    /\ Chat.last_user_activity row = Some (timedelta_minutes 6).
Proof.
  apply (reading_keeps_the_chat_active 0 (timedelta_minutes 6)
           (timedelta_minutes 10) 7%positive counsellor_conn db_running "hello?"
           None chat_running).
  - reflexivity.
  - reflexivity.
  - reflexivity.
  - discriminate.
  - reflexivity.
  - vm_compute. discriminate.
Defined.

Lemma next_message_id_above (l : list ChatMessage.t) m :
  m ∈ l ->
  (ChatMessage.id m
   < foldr (fun m next => Pos.max (Pos.succ (ChatMessage.id m)) next) 1 l)%positive.
Proof.
  induction l as [|a l IH]; intros Hin.
  - by apply elem_of_nil in Hin.
  - apply elem_of_cons in Hin as [->|Hin]; cbn [foldr].
    + lia.
    + specialize (IH Hin). lia.
Qed.

(** A post by a party of an active chat, with a text the serializer
    passes. *)
Lemma post_on_active_chat reopen validate dcmid now u chat_id body text db chat :
  chats db !! chat_id = Some chat ->
  Chat.status chat = active ->
  is_Some (Chat.user chat) ->
  Chat.user chat = Some u \/ Chat.counsellor chat = Some u ->
  validate body = Some text ->
  ChatMessageListView_post reopen validate dcmid now u chat_id body db
  = (Posted (ChatMessage.mk (next_message_id db) (Chat.id chat) u text dcmid now),
     set_messages
       (messages db
        ++ [ChatMessage.mk (next_message_id db) (Chat.id chat) u text dcmid now])
       db).
Proof.
  intros Hc Hst [requester Hr] Hparty Hv. unfold ChatMessageListView_post.
  rewrite Hc, Hr.
  assert (negb (opt_user_eqb (Chat.user chat) (Some u))
          && negb (is_Some_b (Chat.counsellor chat)
                   && opt_user_eqb (Chat.counsellor chat) (Some u)) = false) as Hacc.
  { destruct Hparty as [Hu|Hu]; rewrite Hu, opt_user_eqb_refl; cbn;
      [done|apply andb_false_r]. }
  rewrite <- Hr, Hacc, Hst. cbn [Status_eqb orb andb negb].
  rewrite andb_false_r. cbn [Status_eqb negb]. rewrite Hst. cbn [Status_eqb negb].
  by rewrite Hv.
Qed.

(** X29. The REST endpoint stores every post.  A party of an active chat
    posts the same body twice, at any two instants: both requests are
    answered with a created message, the log grows by exactly these two
    messages, with the same validated text and different ids, and no chat
    row changes (no activity stamp, no status change).  The socket path
    drops such a repeat (X12); this one does not. *)
Theorem rest_post_does_not_deduplicate reopen validate dcmid t1 t2 u chat_id body
    text db chat :
  chats db !! chat_id = Some chat ->
  Chat.status chat = active ->
  is_Some (Chat.user chat) ->
  Chat.user chat = Some u \/ Chat.counsellor chat = Some u ->
  validate body = Some text ->
  let r1 := ChatMessageListView_post reopen validate dcmid t1 u chat_id body db in
  let r2 :=
    ChatMessageListView_post reopen validate dcmid t2 u chat_id body r1.2 in
  exists m1 m2,
    r1.1 = Posted m1 /\ r2.1 = Posted m2
    /\ messages r2.2 = messages db ++ [m1; m2]
    /\ ChatMessage.id m1 <> ChatMessage.id m2
    /\ ChatMessage.text m1 = text /\ ChatMessage.text m2 = text
    /\ ChatMessage.sender m1 = u /\ ChatMessage.sender m2 = u
    /\ chats r2.2 = chats db
    /\ wallet_minutes r2.2 = wallet_minutes db.
Proof.
  intros Hc Hst Hr Hparty Hv. cbn zeta.
  rewrite (post_on_active_chat reopen validate dcmid t1 u chat_id body text db chat
             Hc Hst Hr Hparty Hv).
  cbn [fst snd].
  set (m1 := ChatMessage.mk (next_message_id db) (Chat.id chat) u text dcmid t1).
  set (db1 := set_messages (messages db ++ [m1]) db).
  assert (chats db1 !! chat_id = Some chat) as Hc1 by done.
  rewrite (post_on_active_chat reopen validate dcmid t2 u chat_id body text db1
             chat Hc1 Hst Hr Hparty Hv).
  cbn [fst snd].
  eexists _, _. split; [reflexivity|]. split; [reflexivity|].
  split.
  { cbn [messages set_messages]. subst db1. cbn [messages set_messages].
    by rewrite <- app_assoc. }
  split; [|done].
  pose proof (next_message_id_above (messages db1) m1
                ltac:(apply elem_of_app; right; apply list_elem_of_here)) as Hlt.
  fold (next_message_id db1) in Hlt.
  cbn [ChatMessage.id]. lia.
Qed.

Lemma rest_post_does_not_deduplicate_witness :
  let reopen := fun (_ : datetime) (c : Chat.t) (d : DB) => (c, d) in
  let validate :=
    fun s => match s with EmptyString => None | _ => Some s end in
  let r1 := ChatMessageListView_post reopen validate None 5 7%positive 1%positive
              "hello" db_running in
  let r2 := ChatMessageListView_post reopen validate None 5 7%positive 1%positive
              "hello" r1.2 in
  exists m1 m2,
    r1.1 = Posted m1 /\ r2.1 = Posted m2
    /\ messages r2.2 = [m1; m2]
    /\ ChatMessage.id m1 <> ChatMessage.id m2.
Proof.
  cbn zeta.
  destruct (rest_post_does_not_deduplicate
              (fun (_ : datetime) (c : Chat.t) (d : DB) => (c, d))
              (fun s => match s with EmptyString => None | _ => Some s end)
              None 5 5 7%positive 1%positive "hello" "hello" db_running
              chat_running)
    as (m1 & m2 & H1 & H2 & H3 & H4 & _).
  - reflexivity.
  - reflexivity.
  - by eexists.
  - by left.
  - vm_compute. reflexivity.
  - exists m1, m2. by repeat split.
Defined.

(** X30. A REST post from anyone but the requester changes no chat row.
    Whatever the status of the chat and the silence of the requester, the
    request leaves every chat, wallet and session as it was: it is stored
    only when the chat is active and the sender is its counsellor, and
    then the log grows by that one message; otherwise the whole store is
    unchanged.  In particular a counsellor's post neither marks the chat
    inactive (as a socket message does) nor reopens it. *)
Theorem rest_post_by_others_changes_no_chat reopen validate dcmid now u chat_id
    body db chat :
  chats db !! chat_id = Some chat ->
  Chat.user chat <> Some u ->
  let r := ChatMessageListView_post reopen validate dcmid now u chat_id body db in
  chats r.2 = chats db /\ wallet_minutes r.2 = wallet_minutes db
  /\ sessions r.2 = sessions db
  /\ match r.1 with
     | Posted m =>
         Chat.status chat = active /\ Chat.counsellor chat = Some u
         /\ ChatMessage.sender m = u
         /\ messages r.2 = messages db ++ [m]
     | PostNotFound | PostRaised | PostForbidden | PostNotActive | PostInvalid =>
         r.2 = db
     end.
Proof.
  intros Hc Hu. cbn zeta. unfold ChatMessageListView_post. rewrite Hc.
  destruct (Chat.user chat) as [requester|] eqn:Hr; [|done].
  rewrite (opt_user_eqb_neq (Some requester) (Some u)) by done.
  cbn [negb andb].
  destruct (is_Some_b (Chat.counsellor chat)) eqn:Hsome; [|done].
  cbn [andb].
  destruct (opt_user_eqb (Chat.counsellor chat) (Some u)) eqn:Hcu; [|done].
  apply opt_user_eqb_eq in Hcu. cbn [negb].
  destruct (Status_eqb (Chat.status chat) active) eqn:Hst; [|done].
  apply Status_eqb_eq in Hst. cbn [negb].
  by destruct (validate body).
Qed.

Lemma rest_post_by_others_changes_no_chat_witness :
  let reopen := fun (_ : datetime) (c : Chat.t) (d : DB) => (c, d) in
  let validate :=
    fun s => match s with EmptyString => None | _ => Some s end in
  let r := ChatMessageListView_post reopen validate None (timedelta_hours 2)
             9%positive 1%positive "are you there?" db_running in
  chats r.2 = chats db_running.
Proof.
  cbn zeta.
  destruct (rest_post_by_others_changes_no_chat
              (fun (_ : datetime) (c : Chat.t) (d : DB) => (c, d))
              (fun s => match s with EmptyString => None | _ => Some s end)
              None (timedelta_hours 2) 9%positive 1%positive "are you there?"
              db_running chat_running) as [H _].
  - reflexivity.
  - discriminate.
  - exact H.
Defined.

(** * Properties of [SessionStartView.post] *)

Lemma find_fmap_in {A} (P : A -> bool) (g : A -> A) (l : list A) :
  (forall x, x ∈ l -> P (g x) = P x) ->
  List.find P (g <$> l) = g <$> List.find P l.
Proof.
  induction l as [|a l IH]; intros H; [done|].
  cbn [fmap list_fmap List.find].
  rewrite (H a) by apply list_elem_of_here.
  destruct (P a); [done|].
  apply IH. intros x Hx. apply H. by apply list_elem_of_further.
Qed.

Lemma filter_fmap_in {A} (Q : A -> bool) (g : A -> A) (l : list A) :
  (forall x, x ∈ l -> Q (g x) = Q x) ->
  List.filter Q (g <$> l) = g <$> List.filter Q l.
Proof.
  induction l as [|a l IH]; intros H; [done|].
  cbn [fmap list_fmap List.filter].
  rewrite (H a) by apply list_elem_of_here.
  assert (List.filter Q (g <$> l) = g <$> List.filter Q l) as Hrest
    by (apply IH; intros x Hx; apply H; by apply list_elem_of_further).
  destruct (Q a); cbn [fmap list_fmap]; by rewrite <- Hrest.
Qed.

Lemma first_by_fold_fmap {A} (before : A -> A -> bool) (g : A -> A)
    (L l : list A) (acc : option A) :
  (forall x y, x ∈ L -> y ∈ L -> before (g x) (g y) = before x y) ->
  (forall x, x ∈ l -> x ∈ L) ->
  (forall a, acc = Some a -> a ∈ L) ->
  foldl
    (fun best x =>
       match best with
       | None => Some x
       | Some b => if before x b then Some x else Some b
       end)
    (g <$> acc) (g <$> l)
  = g <$> foldl
            (fun best x =>
               match best with
               | None => Some x
               | Some b => if before x b then Some x else Some b
               end)
            acc l.
Proof.
  intros Hkey. revert acc. induction l as [|x l IH]; intros acc Hl Hacc; [done|].
  cbn [fmap list_fmap foldl].
  assert (x ∈ L) as Hx by (apply Hl, list_elem_of_here).
  assert (forall y, y ∈ l -> y ∈ L) as Hl'
    by (intros y Hy; by apply Hl, list_elem_of_further).
  destruct acc as [b|]; cbn [fmap option_fmap option_map].
  - rewrite (Hkey x b Hx (Hacc b eq_refl)).
    destruct (before x b).
    + apply (IH (Some x) Hl'). by intros a [= <-].
    + apply (IH (Some b) Hl'). by intros a [= <-]; apply Hacc.
  - apply (IH (Some x) Hl'). by intros a [= <-].
Qed.

Lemma first_by_fmap_in {A} (before : A -> A -> bool) (g : A -> A) (l : list A) :
  (forall x y, x ∈ l -> y ∈ l -> before (g x) (g y) = before x y) ->
  first_by before (g <$> l) = g <$> first_by before l.
Proof.
  intros Hkey. unfold first_by.
  by apply (first_by_fold_fmap before g l l None Hkey).
Qed.

Lemma first_by_fold_some {A} (before : A -> A -> bool) (l : list A) b :
  is_Some
    (foldl
       (fun best x =>
          match best with
          | None => Some x
          | Some b => if before x b then Some x else Some b
          end)
       (Some b) l).
Proof.
  revert b. induction l as [|x l IH]; intros b; cbn [foldl]; [by eexists|].
  destruct (before x b); apply IH.
Qed.

Lemma first_by_None {A} (before : A -> A -> bool) (l : list A) :
  first_by before l = None -> l = [].
Proof.
  destruct l as [|x l]; [done|]. unfold first_by. cbn [foldl]. intros H.
  destruct (first_by_fold_some before l x) as [y Hy]. congruence.
Qed.

Lemma first_by_fold_in {A} (before : A -> A -> bool) (l : list A) acc x :
  foldl
    (fun best x =>
       match best with
       | None => Some x
       | Some b => if before x b then Some x else Some b
       end)
    acc l = Some x ->
  x ∈ l \/ acc = Some x.
Proof.
  revert acc. induction l as [|a l IH]; intros acc; cbn [foldl]; [by right|].
  intros H. apply IH in H as [H|H].
  - left. by apply list_elem_of_further.
  - destruct acc as [b|].
    + destruct (before a b); injection H as <-.
      * left. apply list_elem_of_here.
      * by right.
    + injection H as <-. left. apply list_elem_of_here.
Qed.

Lemma first_by_in {A} (before : A -> A -> bool) (l : list A) x :
  first_by before l = Some x -> x ∈ l.
Proof.
  intros H. by apply first_by_fold_in in H as [H|H].
Qed.

Lemma find_app_none {A} (P : A -> bool) (l : list A) a :
  List.find P l = None ->
  List.find P (l ++ [a]) = if P a then Some a else None.
Proof.
  induction l as [|x l IH]; [done|]. cbn [app List.find].
  destruct (P x); [done|]. apply IH.
Qed.

Lemma next_session_id_above (l : list UpcomingSession.t) s :
  s ∈ l ->
  (UpcomingSession.id s
   < foldr (fun s next => Pos.max (Pos.succ (UpcomingSession.id s)) next) 1 l)%positive.
Proof.
  induction l as [|a l IH]; intros Hin.
  - by apply elem_of_nil in Hin.
  - apply elem_of_cons in Hin as [->|Hin]; cbn [foldr].
    + lia.
    + specialize (IH Hin). lia.
Qed.

Lemma fmap_id_in {A} (g : A -> A) (l : list A) :
  (forall x, x ∈ l -> g x = x) -> g <$> l = l.
Proof.
  induction l as [|a l IH]; intros H; [done|].
  cbn [fmap list_fmap]. rewrite (H a) by apply list_elem_of_here.
  f_equal. apply IH. intros x Hx. apply H. by apply list_elem_of_further.
Qed.

(** Saving a new version of a stored session rewrites that row and no
    other, when ids are unique. *)
Lemma save_session_row s s' l x :
  session_ids_unique l ->
  s ∈ l -> x ∈ l ->
  UpcomingSession.id s' = UpcomingSession.id s ->
  (x = s
   /\ (if Pos.eqb (UpcomingSession.id x) (UpcomingSession.id s') then s' else x)
      = s')
  \/ (x <> s
      /\ (if Pos.eqb (UpcomingSession.id x) (UpcomingSession.id s') then s' else x)
         = x).
Proof.
  intros Huniq Hs Hx Hid. rewrite Hid.
  destruct (Pos.eqb_spec (UpcomingSession.id x) (UpcomingSession.id s)) as [He|Hne].
  - left. split; [by apply Huniq|done].
  - right. split; [by intros ->|done].
Qed.

Lemma save_session_same s db :
  session_ids_unique (sessions db) ->
  s ∈ sessions db ->
  save_session s db = db.
Proof.
  intros Huniq Hs. unfold save_session.
  assert ((fun r => if Pos.eqb (UpcomingSession.id r) (UpcomingSession.id s)
                    then s else r) <$> sessions db = sessions db) as ->.
  { apply fmap_id_in. intros x Hx.
    by destruct (save_session_row s s (sessions db) x Huniq Hs Hx eq_refl)
      as [[-> ->]|[_ ->]]. }
  by destruct db.
Qed.

(** Two sessions that [locate_session] cannot tell apart. *)
Lemma start_session_again now s t db :
  UpcomingSession.actual_start_time s = Some t ->
  UpcomingSession.session_status s = UpcomingSession.in_progress ->
  start_session now s db = (AlreadyStarted (UpcomingSession.id s) t, db).
Proof. intros Ht Hst. unfold start_session. by rewrite Ht, Hst. Qed.

Lemma start_session_cases now s db :
  (exists t,
      UpcomingSession.actual_start_time s = Some t
      /\ UpcomingSession.session_status s = UpcomingSession.in_progress
      /\ start_session now s db = (AlreadyStarted (UpcomingSession.id s) t, db))
  \/ start_session now s db
     = (Started (UpcomingSession.id s) now,
        save_session
          (UpcomingSession.mk (UpcomingSession.id s) (UpcomingSession.user s)
             (UpcomingSession.counsellor s) (UpcomingSession.start_time s)
             UpcomingSession.in_progress true (Some now)
             (UpcomingSession.actual_end_time s)) db).
Proof.
  unfold start_session.
  destruct (UpcomingSession.actual_start_time s) as [t|] eqn:Ht,
    (UpcomingSession.session_status s) eqn:Hst;
    try (by right).
  left. by exists t.
Qed.

(** What [locate_session] found is found again once it has been saved as
    started: the same row, by the same route or by its own id, and
    nothing is created a second time. *)
Lemma locate_session_stable blank t1 t2 u sid db s db1 s' :
  session_ids_unique (sessions db) ->
  locate_session blank t1 u sid db = (Some s, db1) ->
  UpcomingSession.id s' = UpcomingSession.id s ->
  UpcomingSession.user s' = UpcomingSession.user s ->
  UpcomingSession.counsellor s' = UpcomingSession.counsellor s ->
  UpcomingSession.start_time s' = UpcomingSession.start_time s ->
  UpcomingSession.session_status s' = UpcomingSession.in_progress ->
  locate_session blank t2 u sid (save_session s' db1)
  = (Some s', save_session s' db1)
  /\ s ∈ sessions db1 /\ session_ids_unique (sessions db1)
  /\ chats db1 = chats db /\ wallet_minutes db1 = wallet_minutes db
  /\ messages db1 = messages db.
Proof.
  intros Huniq Hloc Hid Hus Hco Hst Hprog.
  unfold locate_session in Hloc.
  destruct (find_session_by_id db u sid) as [s0|] eqn:Hfind.
  { (* found by its id *)
    injection Hloc as -> <-.
    pose proof Hfind as HP. apply find_some in HP as [Hin HP].
    apply list_elem_of_In in Hin.
    split; [|by repeat split].
    unfold locate_session.
    assert (find_session_by_id (save_session s' db) u sid = Some s') as ->; [|done].
    unfold find_session_by_id, save_session in *. cbn [sessions set_sessions].
    apply (find_after_replace _
             (fun r => Pos.eqb (UpcomingSession.id r) (UpcomingSession.id s'))
             s s' _ Hfind).
    - by rewrite Hid, Hus, Hco.
    - rewrite Hid. apply Pos.eqb_refl. }
  destruct (chats db !! sid) as [chat|] eqn:Hchat; [|done].
  destruct ((opt_user_eqb (Chat.user chat) (Some u)
             || opt_user_eqb (Chat.counsellor chat) (Some u))
            && is_Some_b (Chat.user chat) && is_Some_b (Chat.counsellor chat))
    eqn:Hparty; [|done].
  assert (forall x, x ∈ sessions db ->
            Pos.eqb (UpcomingSession.id x) sid
            && (opt_user_eqb (UpcomingSession.user x) (Some u)
                || opt_user_eqb (UpcomingSession.counsellor x) (Some u)) = false)
    as Hnone.
  { intros x Hx. apply list_elem_of_In in Hx.
    by apply (find_none _ _ Hfind x Hx). }
  destruct (startable_session_for_pair db chat) as [s0|] eqn:Hpair.
  { (* the session of the chat's pair *)
    injection Hloc as -> <-.
    pose proof Hpair as Hin. unfold startable_session_for_pair in Hin.
    apply first_by_in in Hin. apply list_elem_of_In, filter_In in Hin as [Hin HQ].
    apply list_elem_of_In in Hin.
    split; [|by repeat split].
    pose proof (fun x Hx => save_session_row s s' (sessions db) x Huniq Hin Hx Hid)
      as Hrow.
    unfold locate_session.
    assert (find_session_by_id (save_session s' db) u sid = None) as ->.
    { unfold find_session_by_id, save_session. cbn [sessions set_sessions].
      rewrite find_fmap_in.
      - unfold find_session_by_id in Hfind. by rewrite Hfind.
      - intros x Hx.
        destruct (Hrow x Hx) as [[-> ->]|[_ ->]]; [|done].
        by rewrite Hid, Hus, Hco. }
    assert (chats (save_session s' db) = chats db) as -> by done.
    rewrite Hchat, Hparty.
    assert (startable_session_for_pair (save_session s' db) chat = Some s') as ->;
      [|done].
    unfold startable_session_for_pair, save_session in *.
    cbn [sessions set_sessions].
    rewrite filter_fmap_in; cycle 1.
    { intros x Hx.
      destruct (Hrow x Hx) as [[-> ->]|[_ ->]]; [|done].
      rewrite HQ, Hus, Hco, Hprog.
      apply andb_true_iff in HQ as [HQ _]. rewrite HQ. cbn.
      apply orb_true_r. }
    rewrite first_by_fmap_in; cycle 1.
    { intros x y Hx Hy.
      apply list_elem_of_In, filter_In in Hx as [Hx _].
      apply list_elem_of_In, filter_In in Hy as [Hy _].
      apply list_elem_of_In in Hx, Hy.
      unfold session_before.
      destruct (Hrow x Hx) as [[-> ->]|[_ ->]],
        (Hrow y Hy) as [[-> ->]|[_ ->]];
        by rewrite ?Hid, ?Hst. }
    rewrite Hpair. cbn [fmap option_fmap option_map].
    by rewrite Hid, Pos.eqb_refl. }
  (* a session is created for the chat's pair *)
  injection Hloc as <- <-. cbn [sessions set_sessions chats wallet_minutes messages].
  set (s0 := UpcomingSession.mk (next_session_id db) (Chat.user chat)
               (Chat.counsellor chat) t1 UpcomingSession.scheduled
               (UpcomingSession.is_confirmed blank)
               (UpcomingSession.actual_start_time blank)
               (UpcomingSession.actual_end_time blank)) in *.
  assert (forall x, x ∈ sessions db -> UpcomingSession.id x <> UpcomingSession.id s0)
    as Hfresh.
  { intros x Hx He. apply next_session_id_above in Hx.
    fold (next_session_id db) in Hx. cbn in He. lia. }
  assert (List.filter
            (fun s =>
               opt_user_eqb (UpcomingSession.user s) (Chat.user chat)
               && opt_user_eqb (UpcomingSession.counsellor s) (Chat.counsellor chat)
               && (bool_decide (UpcomingSession.session_status s
                                = UpcomingSession.scheduled)
                   || bool_decide (UpcomingSession.session_status s
                                   = UpcomingSession.in_progress)))
            (sessions db) = []) as Hempty
    by (by apply (first_by_None session_before)).
  assert (session_ids_unique (sessions db ++ [s0])) as Huniq1.
  { intros a b Ha Hb He.
    apply elem_of_app in Ha as [Ha|Ha], Hb as [Hb|Hb].
    - by apply Huniq.
    - apply list_elem_of_singleton in Hb as ->. by apply Hfresh in Ha.
    - apply list_elem_of_singleton in Ha as ->. symmetry in He.
      by apply Hfresh in Hb.
    - apply list_elem_of_singleton in Ha as ->.
      by apply list_elem_of_singleton in Hb as ->. }
  split; [|repeat split; try done;
            apply elem_of_app; right; apply list_elem_of_here].
  assert (sessions (save_session s' (set_sessions (sessions db ++ [s0]) db))
          = sessions db ++ [s']) as Hsaved.
  { unfold save_session. cbn [sessions set_sessions].
    rewrite fmap_app. cbn [fmap list_fmap]. rewrite Hid, Pos.eqb_refl.
    f_equal. apply fmap_id_in. intros x Hx.
    destruct (Pos.eqb_spec (UpcomingSession.id x) (UpcomingSession.id s0));
      [by apply Hfresh in Hx|done]. }
  set (db2 := save_session s' (set_sessions (sessions db ++ [s0]) db)) in *.
  assert (chats db2 = chats db) as Hc2 by done.
  unfold locate_session.
  assert (find_session_by_id db2 u sid
          = if Pos.eqb (UpcomingSession.id s') sid
               && (opt_user_eqb (UpcomingSession.user s') (Some u)
                   || opt_user_eqb (UpcomingSession.counsellor s') (Some u))
            then Some s' else None) as ->.
  { unfold find_session_by_id in *. rewrite Hsaved.
    by rewrite (find_app_none _ (sessions db) s' Hfind). }
  destruct (Pos.eqb (UpcomingSession.id s') sid
            && (opt_user_eqb (UpcomingSession.user s') (Some u)
                || opt_user_eqb (UpcomingSession.counsellor s') (Some u)));
    [done|].
  rewrite Hc2, Hchat, Hparty.
  assert (startable_session_for_pair db2 chat = Some s') as ->; [|done].
  unfold startable_session_for_pair. rewrite Hsaved.
  rewrite List.filter_app, Hempty. cbn [app List.filter].
  rewrite Hus, Hco, Hprog. cbn [UpcomingSession.user UpcomingSession.counsellor s0].
  by rewrite !opt_user_eqb_refl.
Qed.

Lemma locate_session_none blank now u sid db db1 :
  locate_session blank now u sid db = (None, db1) -> db1 = db.
Proof.
  unfold locate_session.
  destruct (find_session_by_id db u sid); [done|].
  destruct (chats db !! sid) as [chat|]; [|by intros [= <-]].
  destruct (_ && _); [|by intros [= <-]].
  by destruct (startable_session_for_pair db chat).
Qed.

(** X26. A session is started once.  In a store where session ids are
    unique, whatever the first request answered, the same request
    repeated at any later time answers "already started" with the same
    session and the start time the first request reported, and leaves the
    store as the first request left it: the start stamp is not moved and
    no second session is created for the chat.  A request that finds no
    session changes nothing.  Starting never touches a chat, a wallet or
    a message. *)
Theorem start_session_twice blank t1 t2 u sid db :
  session_ids_unique (sessions db) ->
  let first := SessionStartView_post blank t1 u sid db in
  let second := SessionStartView_post blank t2 u sid first.2 in
  match first.1 with
  | StartNotFound => first.2 = db
  | Started s t => t = t1 /\ second = (AlreadyStarted s t, first.2)
  | AlreadyStarted s t => second = (AlreadyStarted s t, first.2)
  end
  /\ chats first.2 = chats db /\ wallet_minutes first.2 = wallet_minutes db
  /\ messages first.2 = messages db.
Proof.
  intros Huniq. cbn zeta.
  assert (SessionStartView_post blank t1 u sid db
          = let '(session, db1) := locate_session blank t1 u sid db in
            match session with
            | None => (StartNotFound, db1)
            | Some s => start_session t1 s db1
            end) as Hfirst by done.
  destruct (locate_session blank t1 u sid db) as [[s|] db1] eqn:Hloc;
    rewrite Hfirst; clear Hfirst; cycle 1.
  { apply locate_session_none in Hloc as ->. done. }
  destruct (start_session_cases t1 s db1) as [(t & Ht & Hst & ->)| ->].
  - destruct (locate_session_stable blank t1 t2 u sid db s db1 s Huniq Hloc
                eq_refl eq_refl eq_refl eq_refl Hst)
      as (Hagain & Hin & Huniq1 & Hc & Hw & Hm).
    rewrite (save_session_same s db1 Huniq1 Hin) in Hagain.
    cbn [fst snd]. split; [|done].
    unfold SessionStartView_post. rewrite Hagain.
    by apply start_session_again.
  - set (s' := UpcomingSession.mk (UpcomingSession.id s) (UpcomingSession.user s)
                 (UpcomingSession.counsellor s) (UpcomingSession.start_time s)
                 UpcomingSession.in_progress true (Some t1)
                 (UpcomingSession.actual_end_time s)).
    destruct (locate_session_stable blank t1 t2 u sid db s db1 s' Huniq Hloc
                eq_refl eq_refl eq_refl eq_refl eq_refl)
      as (Hagain & Hin & Huniq1 & Hc & Hw & Hm).
    cbn [fst snd]. split; [|done]. split; [done|].
    unfold SessionStartView_post. rewrite Hagain.
    by apply (start_session_again t2 s' t1).
Qed.

Lemma start_session_twice_witness :
  let blank := UpcomingSession.mk 1 None None 0 UpcomingSession.scheduled false
                 None None in
  let first := SessionStartView_post blank 100 7%positive 1%positive db_running in
  let second := SessionStartView_post blank 500 7%positive 1%positive first.2 in
  first.1 = Started 1 100 /\ second = (AlreadyStarted 1 100, first.2).
Proof.
  cbn zeta.
  assert (session_ids_unique (sessions db_running)) as Huniq
    by (intros a b Ha; by apply elem_of_nil in Ha).
  pose proof (start_session_twice
                (UpcomingSession.mk 1 None None 0 UpcomingSession.scheduled false
                   None None)
                100 500 7%positive 1%positive db_running Huniq) as [H _].
  cbn zeta in H.
  assert ((SessionStartView_post
             (UpcomingSession.mk 1 None None 0 UpcomingSession.scheduled false
                None None)
             100 7%positive 1%positive db_running).1 = Started 1 100) as H1
    by (vm_compute; reflexivity).
  rewrite H1 in H. split; [exact H1|apply H].
Defined.

(** * Properties of joining and leaving a room *)

Lemma elem_room_add c ch layer k x :
  x ∈ room (room_add c ch layer) k <-> (k = c /\ x = ch) \/ x ∈ room layer k.
Proof.
  unfold room, room_add. cbn [rooms].
  destruct (decide (k = c)) as [->|Hne].
  - rewrite lookup_insert_eq. cbn [default from_option id].
    rewrite elem_of_union, elem_of_singleton. intuition (subst; congruence || auto).
  - rewrite lookup_insert_ne by done. intuition (subst; congruence || auto).
Qed.

Lemma elem_room_discard c ch layer k x :
  x ∈ room (room_discard c ch layer) k
  <-> x ∈ room layer k /\ ~ (k = c /\ x = ch).
Proof.
  unfold room, room_discard. cbn [rooms].
  destruct (decide (k = c)) as [->|Hne].
  - rewrite lookup_insert_eq. cbn [default from_option id].
    rewrite elem_of_difference, elem_of_singleton. intuition (subst; congruence || auto).
  - rewrite lookup_insert_ne by done. intuition (subst; congruence || auto).
Qed.

Lemma elem_queue_add ch layer x :
  x ∈ counselor_queue (queue_add ch layer) <-> x = ch \/ x ∈ counselor_queue layer.
Proof.
  unfold queue_add. cbn [counselor_queue].
  by rewrite elem_of_union, elem_of_singleton.
Qed.

Lemma elem_queue_discard ch layer x :
  x ∈ counselor_queue (queue_discard ch layer)
  <-> x ∈ counselor_queue layer /\ x <> ch.
Proof.
  unfold queue_discard. cbn [counselor_queue].
  by rewrite elem_of_difference, elem_of_singleton.
Qed.

Lemma room_queue_add ch layer k : room (queue_add ch layer) k = room layer k.
Proof. done. Qed.

Lemma room_queue_discard ch layer k : room (queue_discard ch layer) k = room layer k.
Proof. done. Qed.

Lemma queue_room_add c ch layer :
  counselor_queue (room_add c ch layer) = counselor_queue layer.
Proof. done. Qed.

Lemma queue_room_discard c ch layer :
  counselor_queue (room_discard c ch layer) = counselor_queue layer.
Proof. done. Qed.

(** X15. Only a party gets onto the socket, and leaving undoes joining.
    A connection is accepted exactly when the socket is authenticated
    and [get_chat_and_check_access] admits the user (the chat exists,
    has a requester, and the user is the requester or the assigned
    counsellor); the channel then sits in the chat's room, and in the
    counsellors' queue when the user is a counsellor.  A refused
    connection joins nothing.  No other channel's membership changes.
    After [disconnect] the channel is in the room no more, and in the
    queue no more unless it had been there before connecting as a user
    who is not a counsellor. *)
Theorem connect_admits_parties_and_disconnect_undoes db chat_id scope_user
    channel layer :
  let r := connect db chat_id scope_user channel layer in
  let after := disconnect db chat_id scope_user channel r.2 in
  match r.1 with
  | Some self =>
      exists u chat,
        scope_user = Some u
        /\ get_chat_and_check_access db u chat_id
           = Some (chat, cached_is_user_sender self)
        /\ self_user self = u /\ self_chat_id self = chat_id
        /\ self_chat self = Some chat
        /\ channel ∈ room r.2 chat_id
        /\ (is_counselor db u = true -> channel ∈ counselor_queue r.2)
  | None =>
      r.2 = layer
      /\ (forall u, scope_user = Some u ->
                    get_chat_and_check_access db u chat_id = None)
  end
  /\ (forall ch k, ch <> channel ->
        (ch ∈ room r.2 k <-> ch ∈ room layer k)
        /\ (ch ∈ counselor_queue r.2 <-> ch ∈ counselor_queue layer)
        /\ (ch ∈ room after k <-> ch ∈ room layer k)
        /\ (ch ∈ counselor_queue after <-> ch ∈ counselor_queue layer))
  /\ (channel ∉ room after chat_id)
  /\ (channel ∉ counselor_queue layer -> channel ∉ counselor_queue after).
Proof.
  cbn zeta. unfold connect, disconnect.
  destruct scope_user as [u|]; cycle 1.
  { cbn [fst snd]. split; [by split|]. split.
    - intros ch k Hne. rewrite elem_room_discard, queue_room_discard.
      intuition (subst; congruence || auto).
    - rewrite elem_room_discard, queue_room_discard. intuition (subst; congruence || auto). }
  destruct (get_chat_and_check_access db u chat_id) as [[chat sender]|] eqn:Hacc;
    cycle 1.
  { cbn [fst snd]. split.
    { split; [done|]. intros u' Hu'. by injection Hu' as <-. }
    split.
    - intros ch k Hne.
      destruct (is_counselor db u);
        rewrite ?room_queue_discard, ?elem_queue_discard, ?elem_room_discard,
          ?queue_room_discard;
        intuition (subst; congruence || auto).
    - destruct (is_counselor db u);
        rewrite ?room_queue_discard, ?elem_queue_discard, ?elem_room_discard,
          ?queue_room_discard;
        intuition (subst; congruence || auto). }
  cbn [fst snd].
  destruct (is_counselor db u) eqn:Hcsl.
  - split; [|split].
    + exists u, chat. repeat split; try done.
      * rewrite room_queue_add, elem_room_add. intuition (subst; congruence || auto).
      * intros _. rewrite elem_queue_add. intuition (subst; congruence || auto).
    + intros ch k Hne.
      rewrite !room_queue_discard, !elem_queue_discard, !elem_room_discard,
        ?queue_room_discard, !room_queue_add, !elem_queue_add, !elem_room_add,
        ?queue_room_add.
      intuition (subst; congruence || auto).
    + rewrite !room_queue_discard, !elem_queue_discard, !elem_room_discard.
      intuition (subst; congruence || auto).
  - split; [|split].
    + exists u, chat. repeat split; try done.
      * rewrite elem_room_add. intuition (subst; congruence || auto).
      * intros Hf. congruence.
    + intros ch k Hne.
      rewrite !elem_room_discard, ?queue_room_discard, !elem_room_add,
        ?queue_room_add.
      intuition (subst; congruence || auto).
    + rewrite !elem_room_discard, ?queue_room_discard, ?queue_room_add.
      intuition (subst; congruence || auto).
Qed.

(** * Settlement after a recharge *)

(** A settlement that fails for lack of funds, for a chat whose window is
    closed: the wallet is kept and the row stays unbilled with its
    window. *)
Lemma settle_fails_closed now db cid chat u w s e :
  chats db !! cid = Some chat ->
  Chat.is_billed chat = false ->
  Chat.started_at chat = Some s ->
  Chat.ended_at chat = Some e ->
  s < e ->
  Chat.user chat = Some u ->
  wallet_minutes db !! u = Some w ->
  0 <= w < ceil_minutes (e - s) ->
  let r := calculate_and_deduct_chat_billing now db cid in
  r.1 = false
  /\ wallet_minutes r.2 = wallet_minutes db
  /\ chats r.2 !! cid
     = Some (record_billing (ceil_minutes (e - s)) (ceil_minutes (e - s)) chat).
Proof.
  intros Hc Hb Hs He Hlt Hu Hw [Hnn Hshort]. cbn zeta.
  assert (calculate_chat_duration_minutes now chat = ceil_minutes (e - s)) as Hdur.
  { rewrite (duration_running now chat s Hs); unfold end_time; rewrite He; done. }
  assert (calculate_chat_billing now chat = ceil_minutes (e - s)) as Hbill
    by (by rewrite billing_is_duration).
  rewrite (settle_started now db cid chat s Hc Hb Hs).
  rewrite He, Hbill, Hdur.
  assert (closed_at now chat = chat) as -> by (unfold closed_at; by rewrite He).
  destruct (Z.ltb_spec0 0 (ceil_minutes (e - s))); [|lia].
  rewrite (deduct_insufficient db chat _ u w Hu Hw Hnn Hshort).
  destruct (Z.eqb_spec (ceil_minutes (e - s)) 0); [lia|].
  cbn [fst snd orb]. split; [done|]. split; [done|].
  by rewrite update_chat_lookup, Hc.
Qed.

(** X3. An unpaid chat is settled by the first attempt after a
    sufficient recharge, for the amount that was owed.  A closed chat
    whose requester cannot pay stays unbilled and the wallet is kept;
    once the requester has recharged to at least the amount owed, the
    next settlement succeeds, takes exactly the minutes of the closed
    window (they do not grow while the bill is open) and marks the chat
    billed. *)
Theorem recharge_then_retry_settles dwm t1 t2 db cid chat u w s e v a :
  chats db !! cid = Some chat ->
  Chat.is_billed chat = false ->
  Chat.started_at chat = Some s ->
  Chat.ended_at chat = Some e ->
  s < e ->
  Chat.user chat = Some u ->
  wallet_minutes db !! u = Some w ->
  0 <= w < ceil_minutes (e - s) ->
  rv_truthy v = true ->
  rv_int v = Some a ->
  ceil_minutes (e - s) <= w + a ->
  let owed := ceil_minutes (e - s) in
  let r1 := calculate_and_deduct_chat_billing t1 db cid in
  let r2 := WalletRechargeView_post dwm u (Some v) None r1.2 in
  let r3 := calculate_and_deduct_chat_billing t2 r2.2 cid in
  r1.1 = false
  /\ wallet_minutes r1.2 !! u = Some w
  /\ r2.1 = RechargeOk (w + a)
  /\ r3.1 = true
  /\ wallet_minutes r3.2 !! u = Some (w + a - owed)
  /\ exists row,
       chats r3.2 !! cid = Some row
       /\ Chat.is_billed row = true /\ Chat.billed_amount row = owed
       /\ Chat.ended_at row = Some e.
Proof.
  intros Hc Hb Hs He Hlt Hu Hw Hshort Htruthy Hint Hcover. cbn zeta.
  destruct (settle_fails_closed t1 db cid chat u w s e Hc Hb Hs He Hlt Hu Hw Hshort)
    as (Hfail & Hw1 & Hrow1).
  set (db1 := (calculate_and_deduct_chat_billing t1 db cid).2) in *.
  set (row1 := record_billing (ceil_minutes (e - s)) (ceil_minutes (e - s)) chat)
    in *.
  assert (wallet_minutes db1 !! u = Some w) as Hwu by (by rewrite Hw1).
  assert (WalletRechargeView_post dwm u (Some v) None db1
          = (RechargeOk (w + a),
             set_wallet_minutes (<[u := w + a]> (wallet_minutes db1)) db1)) as Hre.
  { unfold WalletRechargeView_post, py_or, get_or_create_profile.
    rewrite Htruthy, Hint, Hwu.
    by destruct (Z.leb_spec a 0); [lia|]. }
  rewrite Hre. cbn [fst snd].
  set (db2 := set_wallet_minutes (<[u := w + a]> (wallet_minutes db1)) db1).
  assert (chats db2 !! cid = Some row1) as Hc2 by done.
  assert (wallet_minutes db2 !! u = Some (w + a)) as Hw2
    by (subst db2; cbn; by rewrite lookup_insert_eq).
  assert (Chat.is_billed row1 = false) as Hb1 by (subst row1; by destruct chat).
  assert (Chat.started_at row1 = Some s) as Hs1 by (subst row1; by destruct chat).
  assert (Chat.ended_at row1 = Some e) as He1 by (subst row1; by destruct chat).
  assert (Chat.user row1 = Some u) as Hu1 by (subst row1; by destruct chat).
  assert (calculate_chat_duration_minutes t2 row1 = ceil_minutes (e - s)) as Hdur.
  { rewrite (duration_running t2 row1 s Hs1); unfold end_time; rewrite He1; done. }
  assert (calculate_chat_billing t2 row1 = ceil_minutes (e - s)) as Hbill
    by (by rewrite billing_is_duration).
  destruct (settle_charges_whole_amount t2 db2 cid row1 u (w + a) s Hc2 Hb1 Hs1 Hu1
              Hw2) as [Hok Hwal]; [rewrite Hbill; lia|].
  pose proof (settle_started_row t2 db2 cid row1 s Hc2 Hb1 Hs1) as Hrow.
  cbn zeta in Hrow. rewrite Hok, Hbill, Hdur in Hrow. rewrite Hbill in Hwal.
  repeat split; try done.
  eexists. split; [exact Hrow|].
  unfold closed_at. rewrite He1. by repeat split.
Qed.

Lemma recharge_then_retry_settles_witness :
  let r1 := calculate_and_deduct_chat_billing 777 db_empty_wallet 1 in
  let r2 := WalletRechargeView_post 0 7%positive (Some (req_int 10)) None r1.2 in
  let r3 := calculate_and_deduct_chat_billing 999 r2.2 1 in
  r1.1 = false /\ r3.1 = true /\ wallet_minutes r3.2 !! 7%positive = Some 7.
Proof.
  destruct (recharge_then_retry_settles 0 777 999 db_empty_wallet 1%positive
              chat_closed_3min 7%positive 0 0 (timedelta_minutes 3) (req_int 10) 10)
    as (H1 & _ & _ & H3 & H4 & _).
  - reflexivity.
  - reflexivity.
  - reflexivity.
  - reflexivity.
  - vm_compute. reflexivity.
  - reflexivity.
  - reflexivity.
  - vm_compute. split; [discriminate|reflexivity].
  - reflexivity.
  - reflexivity.
  - vm_compute. discriminate.
  - split; [exact H1|]. split; [exact H3|exact H4].
Defined.

(** * Ending a chat that is already terminal *)

(** Settlement of one chat leaves every other row as it was. *)
Lemma settle_other_rows now db cid k :
  cid <> k ->
  chats (calculate_and_deduct_chat_billing now db cid).2 !! k = chats db !! k.
Proof.
  intros Hne.
  destruct (chats db !! cid) as [row|] eqn:Hc;
    [|by unfold calculate_and_deduct_chat_billing; rewrite Hc].
  destruct (Chat.is_billed row) eqn:Hb.
  { unfold calculate_and_deduct_chat_billing. by rewrite Hc, Hb. }
  destruct (Chat.started_at row) as [s|] eqn:Hs; cycle 1.
  { unfold calculate_and_deduct_chat_billing. rewrite Hc, Hb, Hs. cbn [snd].
    by rewrite update_chat_lookup_ne. }
  rewrite (settle_started now db cid row s Hc Hb Hs).
  set (owed := calculate_chat_billing now row).
  set (minutes := calculate_chat_duration_minutes now row).
  set (db1 := match Chat.ended_at row with
              | Some _ => db
              | None => update_chat cid (Chat.set_ended_at (Some now)) db
              end).
  assert (chats db1 !! k = chats db !! k) as H1.
  { subst db1. destruct (Chat.ended_at row); [done|].
    by rewrite update_chat_lookup_ne. }
  set (d := if 0 <? owed
            then deduct_chat_billing db1 (closed_at now row) owed
            else (true, db1)).
  assert (chats d.2 = chats db1) as Hd.
  { subst d. destruct (0 <? owed); [|done]. by rewrite deduct_chats. }
  destruct (d.1 || (owed =? 0)); cbn [snd];
    by rewrite update_chat_lookup_ne, Hd.
Qed.

(** The chat that [SessionEndView.post] bills for a session record is a
    stored row, and it is active or inactive. *)
Lemma open_chat_for_pair_open nf db s c :
  open_chat_for_pair nf db s = Some c ->
  (exists k, chats db !! k = Some c)
  /\ (Chat.status c = active \/ Chat.status c = inactive).
Proof.
  intros H. unfold open_chat_for_pair in H. apply first_by_in in H.
  apply list_elem_of_In, filter_In in H as [Hin Hf].
  apply list_elem_of_In, list_elem_of_fmap in Hin as [[k c'] [-> Hin]].
  apply elem_of_map_to_list in Hin. cbn [snd] in *.
  split; [by exists k|].
  apply andb_true_iff in Hf as [_ Hst]. apply orb_true_iff in Hst.
  by rewrite !Status_eqb_eq in Hst.
Qed.

(** Saving the ended record does not change which chat is looked up. *)
Lemma open_chat_for_pair_saved nf db s s' :
  UpcomingSession.user s' = UpcomingSession.user s ->
  UpcomingSession.counsellor s' = UpcomingSession.counsellor s ->
  open_chat_for_pair nf (save_session s' db) s' = open_chat_for_pair nf db s.
Proof. intros Hu Hc. unfold open_chat_for_pair. by rewrite Hu, Hc. Qed.

(** Ending a session record writes to at most one chat row, an active or
    inactive one: a row with any other status stays as it is. *)
Lemma end_upcoming_session_keeps_closed_rows nf now s db k row :
  store_wf db ->
  chats db !! k = Some row ->
  Chat.status row <> active ->
  Chat.status row <> inactive ->
  chats (end_upcoming_session nf now s db).2 !! k = Some row.
Proof.
  intros Hwf Hrow Hna Hni. unfold end_upcoming_session.
  assert (forall (X : end_response * DB),
             chats X.2 !! k = Some row ->
             chats (match UpcomingSession.actual_end_time s,
                          UpcomingSession.session_status s with
                    | Some ended, UpcomingSession.session_completed =>
                        (AlreadyEnded (UpcomingSession.id s) ended, db)
                    | _, _ => X
                    end).2 !! k = Some row) as Hwrap.
  { intros X HX.
    by destruct (UpcomingSession.actual_end_time s),
         (UpcomingSession.session_status s). }
  apply Hwrap. clear Hwrap.
  set (s' := UpcomingSession.mk _ _ _ _ _ _ _ _).
  destruct (is_Some_b (UpcomingSession.user s')
            && is_Some_b (UpcomingSession.counsellor s')); [|done].
  destruct (open_chat_for_pair nf (save_session s' db) s') as [c|] eqn:Hopen;
    [|done].
  destruct (negb (Chat.is_billed c) && is_Some_b (Chat.started_at c)); [|done].
  apply open_chat_for_pair_open in Hopen as [[k' Hk'] Hst].
  change (chats (save_session s' db)) with (chats db) in Hk'.
  pose proof (Hwf k' c Hk') as Hid.
  assert (k' <> k) as Hne.
  { intros ->. rewrite Hrow in Hk'. injection Hk' as ->.
    by destruct Hst. }
  match goal with |- context [Chat_save now ?c0 _] => set (closed := c0) end.
  assert (Chat.id closed = k') as Hcid.
  { subst closed. rewrite <- Hid. destruct c. cbn.
    by match goal with |- context [match ?e with _ => _ end] => destruct e end. }
  set (db0 := Chat_save now closed (save_session s' db)).
  assert (chats db0 !! k = Some row) as Hrow0.
  { subst db0. unfold Chat_save. cbn [chats set_chats].
    rewrite Hcid, lookup_insert_ne by done. exact Hrow. }
  rewrite Hcid.
  destruct (chats db0 !! k') as [r0|]; [|exact Hrow0].
  destruct (negb (Chat.is_billed r0) && is_Some_b (Chat.started_at r0)
            && is_Some_b (Chat.ended_at r0)); [|exact Hrow0].
  cbn [snd]. by rewrite settle_other_rows.
Qed.

(** Without an open chat of the pair, ending a session record touches
    neither a chat row nor a wallet. *)
Lemma end_upcoming_session_no_open_chat nf now s db :
  open_chat_for_pair nf db s = None ->
  chats (end_upcoming_session nf now s db).2 = chats db
  /\ wallet_minutes (end_upcoming_session nf now s db).2 = wallet_minutes db.
Proof.
  intros Hnone. unfold end_upcoming_session.
  assert (forall (X : end_response * DB),
             chats X.2 = chats db /\ wallet_minutes X.2 = wallet_minutes db ->
             let Y := match UpcomingSession.actual_end_time s,
                            UpcomingSession.session_status s with
                      | Some ended, UpcomingSession.session_completed =>
                          (AlreadyEnded (UpcomingSession.id s) ended, db)
                      | _, _ => X
                      end in
             chats Y.2 = chats db /\ wallet_minutes Y.2 = wallet_minutes db)
    as Hwrap.
  { intros X HX.
    by destruct (UpcomingSession.actual_end_time s),
         (UpcomingSession.session_status s). }
  apply Hwrap. clear Hwrap.
  set (s' := UpcomingSession.mk _ _ _ _ _ _ _ _).
  destruct (is_Some_b (UpcomingSession.user s')
            && is_Some_b (UpcomingSession.counsellor s')); [|done].
  by rewrite (open_chat_for_pair_saved nf db s s'), Hnone.
Qed.

(** C3 (as the code has it).  A party asks to end a chat that is already
    completed or cancelled, under an id that names no scheduled-session
    record of the caller, in a store that keeps chat rows under their own
    ids.  Whatever the answer, the row of that chat is left exactly as it
    was: its status, [ended_at], billed amount and [is_billed] do not
    change, so this chat is not debited a second time.  The answer is

    - 400 "no counsellor" with the store unchanged, when the chat has no
      counsellor;
    - 400 "is currently ... and cannot be ended" with the store
      unchanged, when it has a counsellor and either no requester or no
      scheduled-session record for the pair;
    - 200 "already_ended" with the record's end time and the store
      unchanged, when the pair's latest scheduled-session record is
      completed and has an end time;
    - 200 "ended" at the time of the call otherwise: the pair's latest
      record is not yet ended, the call ends that record, and an open
      chat of the same pair, if there is one, may be completed and
      billed by it; when the pair has no open chat, no chat row and no
      wallet changes. *)
Theorem end_terminal_chat_outcomes nf now u sid db chat :
  store_wf db ->
  find_session_by_id db u sid = None ->
  chats db !! sid = Some chat ->
  Chat.status chat = completed \/ Chat.status chat = cancelled ->
  Chat.user chat = Some u \/ Chat.counsellor chat = Some u ->
  let r := SessionEndView_post nf now u sid db in
  chats r.2 !! sid = Some chat
  /\ (Chat.counsellor chat = None -> r = (NoCounsellor, db))
  /\ (is_Some (Chat.counsellor chat) ->
      Chat.user chat = None \/ find_session_for_pair db chat = None ->
      r = (CannotBeEnded (Chat.id chat) (Chat.status chat), db))
  /\ (forall s,
        is_Some (Chat.user chat) ->
        is_Some (Chat.counsellor chat) ->
        find_session_for_pair db chat = Some s ->
        (forall t,
            UpcomingSession.actual_end_time s = Some t ->
            UpcomingSession.session_status s = UpcomingSession.session_completed ->
            r = (AlreadyEnded (UpcomingSession.id s) t, db))
        /\ (~ (exists t,
                 UpcomingSession.actual_end_time s = Some t
                 /\ UpcomingSession.session_status s
                    = UpcomingSession.session_completed) ->
            (exists billing,
                r.1 = SessionEnded (UpcomingSession.id s) now billing)
            /\ sessions r.2
               = sessions
                   (save_session
                      (UpcomingSession.mk (UpcomingSession.id s)
                         (UpcomingSession.user s) (UpcomingSession.counsellor s)
                         (UpcomingSession.start_time s)
                         UpcomingSession.session_completed false
                         (Some (or_else (UpcomingSession.actual_start_time s) now))
                         (Some now)) db)
            /\ (open_chat_for_pair nf db s = None ->
                chats r.2 = chats db
                /\ wallet_minutes r.2 = wallet_minutes db))).
Proof.
  intros Hwf Hnone Hc Hterm Hparty. cbn zeta.
  assert (Chat.status chat <> active /\ Chat.status chat <> inactive)
    as [Hna Hni] by (destruct Hterm as [-> | ->]; by split).
  assert (Status_eqb (Chat.status chat) active
          || Status_eqb (Chat.status chat) inactive = false) as Hclosed
    by (destruct Hterm as [-> | ->]; done).
  unfold SessionEndView_post. rewrite Hnone, Hc.
  assert (opt_user_eqb (Chat.user chat) (Some u)
          || is_Some_b (Chat.counsellor chat)
             && opt_user_eqb (Chat.counsellor chat) (Some u) = true) as ->.
  { destruct Hparty as [-> | Hcu].
    - by rewrite opt_user_eqb_refl.
    - rewrite Hcu, opt_user_eqb_refl. cbn. by rewrite orb_true_r. }
  cbn [negb].
  destruct (Chat.counsellor chat) as [assignee|] eqn:Hass; cycle 1.
  { rewrite andb_false_r. split; [done|]. split; [done|].
    split; [by intros [? ?]|]. by intros s _ [? ?]. }
  destruct (Chat.user chat) as [requester|] eqn:Hreq; cycle 1.
  { cbn [is_Some_b andb]. rewrite Hclosed. split; [done|].
    split; [done|]. split; [done|]. by intros s [? ?]. }
  cbn [is_Some_b andb].
  destruct (find_session_for_pair db chat) as [s|] eqn:Hpair; cycle 1.
  { rewrite Hclosed. split; [done|]. split; [done|]. split; [done|]. done. }
  split; [by apply end_upcoming_session_keeps_closed_rows|].
  split; [done|]. split; [by intros _ [?|?]|].
  intros s0 _ _ [= <-]. split.
  - intros t Hend Hst. unfold end_upcoming_session. by rewrite Hend, Hst.
  - intros Hfresh.
    destruct (end_upcoming_session_fresh nf now s db Hfresh)
      as (billing & db' & Heq & Hsess).
    split; [exists billing; by rewrite Heq|].
    split; [by rewrite Heq|].
    apply end_upcoming_session_no_open_chat.
Qed.

Lemma db_done_open_session_wf : store_wf db_done_open_session.
Proof.
  intros k c. unfold db_done_open_session. cbn [chats].
  destruct (decide (k = 1%positive)) as [->|Hne1].
  - rewrite lookup_insert_eq. by intros [= <-].
  - rewrite lookup_insert_ne by done.
    destruct (decide (k = 2%positive)) as [->|Hne2].
    + rewrite lookup_singleton_eq. by intros [= <-].
    + by rewrite lookup_singleton_ne.
Qed.

Lemma db_done_wf : store_wf db_done.
Proof.
  intros k c. unfold db_done. cbn [chats].
  destruct (decide (k = 1%positive)) as [->|Hne].
  - rewrite lookup_singleton_eq. by intros [= <-].
  - by rewrite lookup_singleton_ne.
Qed.

Lemma db_done_no_session_wf : store_wf db_done_no_session.
Proof.
  intros k c. unfold db_done_no_session. cbn [chats].
  destruct (decide (k = 1%positive)) as [->|Hne].
  - rewrite lookup_singleton_eq. by intros [= <-].
  - by rewrite lookup_singleton_ne.
Qed.

(** The four answers on concrete stores.  In the last one the billed
    chat 1 is "ended" again at minute 20 while the pair's record 4 is
    still open and chat 2 of the same pair is running: the answer is
    "ended" with a billing of 20, chat 2 is completed and billed, the
    wallet goes from 90 to 70, and the row of chat 1 is untouched. *)
Lemma end_terminal_chat_outcomes_witness :
  SessionEndView_post false 777 7%positive 1%positive db_done_no_session
  = (CannotBeEnded 1 completed, db_done_no_session)
  /\ SessionEndView_post false 777 9%positive 1%positive db_done
     = (AlreadyEnded 4 (timedelta_minutes 10), db_done)
  /\ (let r := SessionEndView_post false (timedelta_minutes 20) 7%positive
                 1%positive db_done_open_session in
      r.1 = SessionEnded 4 (timedelta_minutes 20) (Some (20, 20))
      /\ chats r.2 !! 1%positive = Some chat_done
      /\ Chat.status <$> chats r.2 !! 2%positive = Some completed
      /\ Chat.billed_amount <$> chats r.2 !! 2%positive = Some 20
      /\ wallet_minutes db_done_open_session !! 7%positive = Some 90
      /\ wallet_minutes r.2 !! 7%positive = Some 70).
Proof.
  split; [|split].
  - destruct (end_terminal_chat_outcomes false 777 7%positive 1%positive
                db_done_no_session chat_done db_done_no_session_wf)
      as (_ & _ & H & _).
    + reflexivity.
    + reflexivity.
    + by left.
    + by left.
    + apply H; [by eexists|by right].
  - destruct (end_terminal_chat_outcomes false 777 9%positive 1%positive
                db_done chat_done db_done_wf)
      as (_ & _ & _ & H).
    + reflexivity.
    + reflexivity.
    + by left.
    + by right.
    + destruct (H session_done) as [Hdone _].
      * by eexists.
      * by eexists.
      * reflexivity.
      * apply Hdone; reflexivity.
  - destruct (end_terminal_chat_outcomes false (timedelta_minutes 20) 7%positive
                1%positive db_done_open_session chat_done db_done_open_session_wf)
      as (Hrow & _).
    + reflexivity.
    + reflexivity.
    + by left.
    + by left.
    + cbn zeta. split; [vm_compute; reflexivity|]. split; [exact Hrow|].
      split; [vm_compute; reflexivity|]. split; [vm_compute; reflexivity|].
      split; [vm_compute; reflexivity|]. vm_compute. reflexivity.
Defined.
